(** * Confluence source connector: the traversal and fetch engine

    A shallow embedding of [backend/airweave/platform/sources/confluence.py]:
    the authenticated GET with its refresh-on-401 branch, the paginated
    generators of spaces, pages, blog posts and comments, the orchestrating
    [generate_entities], the [AsyncIteratorWrapper] stream adapter and the
    [create] constructor.

    Python values decoded from JSON are kept dynamically typed ([json]);
    every operation that can raise in Python returns a [res].  Effects are
    threaded through a small monad [M] that carries the state of the outside
    world, the trace of interactions (requests, refreshes, yielded records)
    and the outcome (a value, a raised exception, or exhausted fuel for the
    [while] loops).  An asynchronous generator is a function of the loop
    body of its consumer: [yield e] runs that body on [e], so that what is
    fetched and what is yielded interleave as they do in the program.

    The generators of labels, databases and folders, which
    [generate_entities] does not call, take the loop body of their
    consumer in the same way.  The dependencies of the API
    ([backend/airweave/api/deps.py]) are embedded in [Deps], with a monad
    of their own over the database behind the session.

    Left out: logging and the scope of the HTTP session. *)

From Stdlib Require Import String Ascii List ZArith Lia Bool.
Import ListNotations.
Local Open Scope string_scope.
Local Open Scope list_scope.

Set Warnings "-register-all".

(* ================================================================== *)
(** ** Python values and the operations the connector applies to them *)
(* ================================================================== *)

(** A decoded JSON document.  [JObj] lists the entries of the Python dict
    in insertion order, each key once. *)
Inductive json : Type :=
| JNull
| JBool (b : bool)
| JNum (n : Z)
| JStr (s : string)
| JArr (items : list json)
| JObj (fields : list (string * json)).

(** The exceptions that can travel through the connector.  The only
    handlers of the program catch [HTTPStatusError] or everything, so the
    class hierarchy plays no part ([JSONDecodeError] is kept apart from
    [ValueError], which stands for the scope error alone). *)
Inductive exn (R : Type) : Type :=
| HTTPStatusError (response : R)
| ValueError (msg : string)
| JSONDecodeError
| AttributeError
| KeyError (key : string)
| TypeError
| ValidationError
| OtherError (tag : string).

Arguments HTTPStatusError {R} response.
Arguments ValueError {R} msg.
Arguments JSONDecodeError {R}.
Arguments AttributeError {R}.
Arguments KeyError {R} key.
Arguments TypeError {R}.
Arguments ValidationError {R}.
Arguments OtherError {R} tag.

Module Py.

(** Truth value of a Python object, as tested by [if x] and [x or y]. *)
Definition truthy (v : json) : bool :=
  match v with
  | JNull => false
  | JBool b => b
  | JNum n => negb (n =? 0)%Z
  | JStr s => negb (s =? "")
  | JArr l => match l with [] => false | _ => true end
  | JObj f => match f with [] => false | _ => true end
  end.

Fixpoint lookup (k : string) (fields : list (string * json)) : option json :=
  match fields with
  | [] => None
  | (k', v) :: rest => if k' =? k then Some v else lookup k rest
  end.

(** ASCII lower-casing, the part of [str.lower] that matters for the
    comparisons made by the connector. *)
Definition lower_ascii (c : ascii) : ascii :=
  let n := nat_of_ascii c in
  if ((65 <=? n) && (n <=? 90))%nat then ascii_of_nat (n + 32) else c.

Fixpoint lower (s : string) : string :=
  match s with
  | EmptyString => EmptyString
  | String c r => String (lower_ascii c) (lower r)
  end.

(** [contains sub s] is Python's [sub in s] on strings. *)
Fixpoint contains (sub s : string) : bool :=
  if String.prefix sub s then true
  else match s with
       | EmptyString => false
       | String _ r => contains sub r
       end.

Fixpoint chars (s : string) : list json :=
  match s with
  | EmptyString => []
  | String c r => JStr (String c EmptyString) :: chars r
  end.

End Py.

(* ================================================================== *)
(** ** HTTP responses *)
(* ================================================================== *)

(** Header names are stored lower-cased, each name once (httpx compares
    them case-insensitively and joins repeated values). *)
Definition ResponseHeaders := list (string * string).

(** [decoded] is what [response.json()] returns for [text]; [None] when
    the text is not JSON and the call raises. *)
Record Response : Type := mkResponse {
  status_code : Z;
  resp_headers : ResponseHeaders;
  text : string;
  decoded : option json
}.

Definition exc := exn Response.

(** Outcome of a computation: a value, a raised exception, or a [while]
    loop that used up its fuel. *)
Inductive res (A : Type) : Type :=
| Ok (a : A)
| Raise (e : exc)
| OutOfFuel.

Arguments Ok {A} a.
Arguments Raise {A} e.
Arguments OutOfFuel {A}.

Definition rbind {A B} (r : res A) (k : A -> res B) : res B :=
  match r with
  | Ok a => k a
  | Raise e => Raise e
  | OutOfFuel => OutOfFuel
  end.

Module PyOps.
Import Py.

(** [d.get(k, default)] *)
Definition dict_get (d : json) (k : string) (default : json) : res json :=
  match d with
  | JObj f => Ok (match lookup k f with Some v => v | None => default end)
  | _ => Raise AttributeError
  end.

(** [d[k]] with a string key *)
Definition subscript (d : json) (k : string) : res json :=
  match d with
  | JObj f => match lookup k f with Some v => Ok v | None => Raise (KeyError k) end
  | _ => Raise TypeError
  end.

(** The items a [for] loop draws from a value. *)
Definition iterate (v : json) : res (list json) :=
  match v with
  | JArr l => Ok l
  | JObj f => Ok (map (fun kv => JStr (fst kv)) f)
  | JStr s => Ok (chars s)
  | _ => Raise TypeError
  end.

(** [s.lower()], defined on strings only *)
Definition str_lower (v : json) : res string :=
  match v with
  | JStr s => Ok (lower s)
  | _ => Raise AttributeError
  end.

(** [x or ""] on an optional string *)
Definition or_empty (o : option string) : string :=
  match o with
  | Some s => s
  | None => ""
  end.

End PyOps.

Module Http.

Definition is_success (r : Response) : bool :=
  ((200 <=? status_code r) && (status_code r <=? 299))%Z.

(** [response.raise_for_status()]: every status outside 2xx raises. *)
Definition raise_for_status (r : Response) : res unit :=
  if is_success r then Ok tt else Raise (HTTPStatusError r).

(** [response.json()] *)
Definition response_json (r : Response) : res json :=
  match decoded r with
  | Some j => Ok j
  | None => Raise JSONDecodeError
  end.

Fixpoint header_lookup (name : string) (h : ResponseHeaders) : option string :=
  match h with
  | [] => None
  | (n, v) :: rest => if n =? name then Some v else header_lookup name rest
  end.

Definition header_mem (name : string) (h : ResponseHeaders) : bool :=
  match header_lookup name h with Some _ => true | None => false end.

Definition header_get (name : string) (h : ResponseHeaders) (default : string) : string :=
  match header_lookup name h with Some v => v | None => default end.

(** What [client.get] does: hand back a response or raise. *)
Inductive ClientResult : Type :=
| Returned (r : Response)
| Raised (e : exc).

End Http.

(* ================================================================== *)
(** ** AsyncIteratorWrapper *)
(* ================================================================== *)

Module AsyncIteratorWrapper.
Section Wrapper.

(** The wrapped synchronous iterator: a state [I] and what [next(it)]
    does to it.  Nothing is assumed about it; in particular it may
    produce items again after it has raised [StopIteration]. *)
Variables (I T : Type).

Inductive Step : Type :=
| Item (x : T)
| StopIteration
| Fails (e : exc).

Variable next : I -> Step * I.

Record t : Type := mk { sync_iter : I; _consumed : bool }.

Definition __init__ (it : I) : t := mk it false.

Definition __aiter__ (self : t) : t := self.

Inductive Read : Type :=
| Got (x : T)
| StopAsyncIteration
| Failed (e : exc).

Definition __anext__ (self : t) : Read * t :=
  if _consumed self then (StopAsyncIteration, self)
  else
    match next (sync_iter self) with
    | (Item x, it) => (Got x, mk it false)
    | (StopIteration, it) => (StopAsyncIteration, mk it true)
    | (Fails e, it) => (Failed e, mk it false)
    end.

(** [k] successive reads. *)
Fixpoint reads (k : nat) (self : t) : list Read * t :=
  match k with
  | O => ([], self)
  | S k' =>
      let '(r, self1) := __anext__ self in
      let '(rs, self2) := reads k' self1 in
      (r :: rs, self2)
  end.

End Wrapper.

Arguments Item {T} x.
Arguments StopIteration {T}.
Arguments Fails {T} e.
Arguments Got {T} x.
Arguments StopAsyncIteration {T}.
Arguments Failed {T} e.
Arguments mk {I} sync_iter _consumed.
Arguments sync_iter {I} t.
Arguments _consumed {I} t.
Arguments __init__ {I} it.
Arguments __aiter__ {I} self.

(** [iter(xs)] on a Python list. *)
Definition list_next {T} (l : list T) : Step T * list T :=
  match l with
  | [] => (StopIteration, [])
  | x :: r => (Item x, r)
  end.

End AsyncIteratorWrapper.

(* ================================================================== *)
(** ** Entities *)
(* ================================================================== *)

Record Breadcrumb : Type := mkBreadcrumb {
  bc_entity_id : string;
  bc_name : string;
  bc_type : string
}.

Record ConfluenceSpaceEntity : Type := mkSpace {
  space_entity_id : string;
  space_breadcrumbs : list Breadcrumb;
  space_key : json;
  space_name : option string;
  space_type : json;
  space_description : json;
  space_status : json;
  space_homepage_id : json;
  space_created_at : json;
  space_updated_at : json
}.

Record ConfluencePageEntity : Type := mkPage {
  page_entity_id : string;
  page_breadcrumbs : list Breadcrumb;
  page_content_id : string;
  page_title : option string;
  page_space_id : json;
  page_body : json;
  page_version : json;
  page_status : json;
  page_created_at : json;
  page_updated_at : json;
  page_file_id : string;
  page_name : string;
  page_mime_type : string;
  page_download_url : string
}.

Record ConfluenceBlogPostEntity : Type := mkBlog {
  blog_entity_id : string;
  blog_breadcrumbs : list Breadcrumb;
  blog_content_id : string;
  blog_title : option string;
  blog_space_id : json;
  blog_body : json;
  blog_version : json;
  blog_status : json;
  blog_created_at : json;
  blog_updated_at : json
}.

Record ConfluenceCommentEntity : Type := mkComment {
  comment_entity_id : string;
  comment_breadcrumbs : list Breadcrumb;
  comment_page_id : string;
  comment_parent_content_id : json;
  comment_text : json;
  comment_created_by : json;
  comment_created_at : json;
  comment_updated_at : json;
  comment_status : json
}.

(** The records [generate_entities] yields. *)
Inductive Entity : Type :=
| ESpace (s : ConfluenceSpaceEntity)
| EPage (p : ConfluencePageEntity)
| EComment (c : ConfluenceCommentEntity)
| EBlog (b : ConfluenceBlogPostEntity).

Definition breadcrumbs (e : Entity) : list Breadcrumb :=
  match e with
  | ESpace s => space_breadcrumbs s
  | EPage p => page_breadcrumbs p
  | EComment c => comment_breadcrumbs c
  | EBlog b => blog_breadcrumbs b
  end.

Definition entity_id (e : Entity) : string :=
  match e with
  | ESpace s => space_entity_id s
  | EPage p => page_entity_id p
  | EComment c => comment_entity_id c
  | EBlog b => blog_entity_id b
  end.

Module Validate.

(** Modelled from the spec: the entity classes of
    [airweave.platform.entities] are not part of the sources at hand.
    The data model gives every record a string [id] and every
    breadcrumb a string [name]; a value of another type is rejected
    when the entity is constructed. *)
Definition as_str (v : json) : res string :=
  match v with
  | JStr s => Ok s
  | _ => Raise ValidationError
  end.

(** Modelled from the spec: an optional textual field (title, name) of
    an entity class missing from the sources: absent, null or a
    string. *)
Definition as_opt_str (v : json) : res (option string) :=
  match v with
  | JNull => Ok None
  | JStr s => Ok (Some s)
  | _ => Raise ValidationError
  end.

End Validate.

(* ================================================================== *)
(** ** The world outside the connector *)
(* ================================================================== *)

Definition RequestHeaders := list (string * json).
Definition Metadata := list (string * json).

(** The in-memory stream handed to content extraction: an
    [AsyncIteratorWrapper] around [iter([bytes])]. *)
Definition ContentStream := AsyncIteratorWrapper.t (list string).

(** The collaborators of [ConfluenceSource].  [W] is the state of
    everything outside the connector (the remote API, the token manager,
    the file store of the extraction pipeline). *)
Record Env : Type := mkEnv {
  W : Type;
  (** [await client.get(url, headers=headers)] *)
  client_get : string -> RequestHeaders -> W -> Http.ClientResult * W;
  (** Modelled from the spec: [BaseSource.get_access_token] is missing
      from the sources; it is TokenProvider.current_token, which returns
      the last known token without a network call. *)
  current_token : W -> string;
  (** Modelled from the spec: [self._token_manager], missing from the
      sources; [None] when the source has no token manager, otherwise its
      [refresh_on_unauthorized], one refresh attempt that reports whether
      a new token is available. *)
  token_manager : option (W -> bool * W);
  (** Modelled from the spec: [BaseSource.process_file_entity_with_content]
      is missing from the sources; it is the content-extraction
      collaborator [process(record, byte_stream, metadata)], which returns
      a processed record or nothing. *)
  process_file_entity_with_content :
    ConfluencePageEntity -> ContentStream -> Metadata -> W ->
    option ConfluencePageEntity * W;
  (** [str(v)] for a value that is not a string, as an f-string formats it *)
  format_value : json -> string
}.

(** The attributes [create] sets on an instance. *)
Record ConfluenceSource : Type := mkSource {
  access_token : string;
  cloud_id : json;
  base_url : string
}.

(** What a run does to the outside world, in order.  [EvFatal] is a
    ghost mark: it is left where a call of [_get_with_auth] made by a
    generator ends in an exception, and changes nothing else. *)
Inductive Event : Type :=
| EvGet (url : string) (headers : RequestHeaders)
| EvRefresh
| EvProcess (file_entity : ConfluencePageEntity) (stream : ContentStream)
            (metadata : Metadata) (result : option ConfluencePageEntity)
| EvFatal (url : string) (e : exc)
| EvYield (e : Entity).

Definition Trace := list Event.

Fixpoint yields (t : Trace) : list Entity :=
  match t with
  | [] => []
  | EvYield e :: r => e :: yields r
  | _ :: r => yields r
  end.

Fixpoint count_refresh (t : Trace) : nat :=
  match t with
  | [] => 0
  | EvRefresh :: r => S (count_refresh r)
  | _ :: r => count_refresh r
  end.

Fixpoint requests (t : Trace) : list (string * RequestHeaders) :=
  match t with
  | [] => []
  | EvGet u h :: r => (u, h) :: requests r
  | _ :: r => requests r
  end.

(* ================================================================== *)
(** ** The monad of the connector *)
(* ================================================================== *)

Section Monad.

Variable St : Type.

Definition M (A : Type) : Type := St -> Trace * St * res A.

Definition ret {A} (a : A) : M A := fun w => ([], w, Ok a).

Definition bind {A B} (m : M A) (k : A -> M B) : M B :=
  fun w =>
    match m w with
    | (t, w1, Ok a) => let '(t2, w2, r) := k a w1 in (t ++ t2, w2, r)
    | (t, w1, Raise e) => (t, w1, Raise e)
    | (t, w1, OutOfFuel) => (t, w1, OutOfFuel)
    end.

Definition raise {A} (e : exc) : M A := fun w => ([], w, Raise e).

Definition out_of_fuel {A} : M A := fun w => ([], w, OutOfFuel).

Definition lift {A} (r : res A) : M A := fun w => ([], w, r).

Definition emit (ev : Event) : M unit := fun w => ([ev], w, Ok tt).

(** [try: m  except Exception as e: handler e] *)
Definition try_except {A} (m : M A) (handler : exc -> M A) : M A :=
  fun w =>
    match m w with
    | (t, w1, Raise e) => let '(t2, w2, r) := handler e w1 in (t ++ t2, w2, r)
    | other => other
    end.

(** [for x in xs: body x] *)
Fixpoint for_each {A} (xs : list A) (body : A -> M unit) : M unit :=
  match xs with
  | [] => ret tt
  | x :: rest => bind (body x) (fun _ => for_each rest body)
  end.

End Monad.

Arguments ret {St A} a.
Arguments bind {St A B} m k.
Arguments raise {St A} e.
Arguments out_of_fuel {St A}.
Arguments lift {St A} r.
Arguments emit {St} ev.
Arguments try_except {St A} m handler.
Arguments for_each {St A} xs body.

Declare Scope conn_scope.
Delimit Scope conn_scope with conn.
Notation "x <- m ;; k" := (bind m (fun x => k))
  (at level 61, m at next level, right associativity) : conn_scope.
Notation "m ;; k" := (bind m (fun _ => k))
  (at level 61, right associativity) : conn_scope.
Notation "x <~ r ;; k" := (rbind r (fun x => k))
  (at level 61, r at next level, right associativity) : conn_scope.
Local Open Scope conn_scope.

(* ================================================================== *)
(** ** ConfluenceSource *)
(* ================================================================== *)

Section Source.

Import Py PyOps Http Validate.
Local Open Scope string_scope.

Variable env : Env.
Variable self : ConfluenceSource.

#[local] Abbreviation World := (W env).
#[local] Abbreviation Conn := (M (W env)).

(** [str(v)] inside an f-string *)
Definition fmt (v : json) : string :=
  match v with
  | JStr s => s
  | _ => format_value env v
  end.

Definition get_access_token : Conn string :=
  fun w => ([], w, Ok (current_token env w)).

Definition request (url : string) (headers : RequestHeaders) : Conn Response :=
  fun w =>
    match client_get env url headers w with
    | (Returned r, w1) => ([EvGet url headers], w1, Ok r)
    | (Raised e, w1) => ([EvGet url headers], w1, Raise e)
    end.

Definition refresh_on_unauthorized (refresh : World -> bool * World) : Conn bool :=
  fun w => let '(b, w1) := refresh w in ([EvRefresh], w1, Ok b).

(** [headers[k] = v] on a dict that already has the key or not *)
Fixpoint set_header (h : RequestHeaders) (k : string) (v : json) : RequestHeaders :=
  match h with
  | [] => [(k, v)]
  | (k', v') :: rest =>
      if k' =? k then (k', v) :: rest else (k', v') :: set_header rest k v
  end.

(** Lines 204-219: the test for a scope failure on a 401 response. *)
Definition scope_check (response : Response) : res unit :=
  error_body <~ (if negb (text response =? "") then response_json response
                 else Ok (JObj [])) ;;
  error_message <~ dict_get error_body "message" (JStr "") ;;
  lowered <~ str_lower error_message ;;
  if contains "scope" lowered
     || (header_mem "x-failure-category" (resp_headers response)
         && contains "SCOPE"
              (header_get "x-failure-category" (resp_headers response) ""))
  then Raise (ValueError ("OAuth scope error: " ++ fmt error_message ++ "."))
  else Ok tt.

(** Lines 198-222: what becomes of the response that was obtained. *)
Definition check_response (response : Response) : res json :=
  _ <~ (if negb (is_success response) then
          if (status_code response =? 401)%Z then scope_check response
          else Ok tt
        else Ok tt) ;;
  _ <~ raise_for_status response ;;
  response_json response.

(** Lines 167-175: the headers of the first attempt. *)
Definition auth_headers (access_token : string) : RequestHeaders :=
  let headers :=
    [("Authorization", JStr ("Bearer " ++ access_token));
     ("Accept", JStr "application/json");
     ("X-Atlassian-Token", JStr "no-check")] in
  if truthy (cloud_id self) then set_header headers "X-Cloud-ID" (cloud_id self)
  else headers.

Definition _get_with_auth (url : string) : Conn json :=
  access_token <- get_access_token ;;
  let headers := auth_headers access_token in
  response <-
    try_except (request url headers)
      (fun e =>
         match e with
         | HTTPStatusError r =>
             match (status_code r =? 401)%Z, token_manager env with
             | true, Some refresh =>
                 refreshed <- refresh_on_unauthorized refresh ;;
                 if refreshed then
                   new_access_token <- get_access_token ;;
                   request url
                     (set_header headers "Authorization"
                        (JStr ("Bearer " ++ new_access_token)))
                 else raise e
             | _, _ => raise e
             end
         | _ => raise e
         end) ;;
  lift (check_response response).

(** [await self._get_with_auth(client, url)] as the generators call it. *)
Definition fetch (url : string) : Conn json :=
  fun w =>
    match _get_with_auth url w with
    | (t, w1, Raise e) => ((t ++ [EvFatal url e])%list, w1, Raise e)
    | other => other
    end.

Definition process (file_entity : ConfluencePageEntity) (stream : ContentStream)
    (metadata : Metadata) : Conn (option ConfluencePageEntity) :=
  fun w =>
    let '(r, w1) := process_file_entity_with_content env file_entity stream metadata w in
    ([EvProcess file_entity stream metadata r], w1, Ok r).

(** [yield e] of the outermost generator. *)
Definition yield_ (e : Entity) : Conn unit := emit (EvYield e).

(** [data.get("_links", {}).get("next")] and the URL of the next round:
    [f"{self.base_url}{next_link}" if next_link else None]. *)
Definition next_url (data : json) : res (option string) :=
  links <~ dict_get data "_links" (JObj []) ;;
  next_link <~ dict_get links "next" JNull ;;
  Ok (if truthy next_link then Some (base_url self ++ fmt next_link) else None).

(** The loop every generator is written around:
    [while url: data = fetch(url); for x in data.get("results", []): ...;
    url = next].  The generator's [yield] hands the item to the loop
    body of its consumer, [item]. *)
Fixpoint while_url (fuel : nat) (url : option string) (item : json -> Conn unit)
    {struct fuel} : Conn unit :=
  match url with
  | None => ret tt
  | Some u =>
      if u =? "" then ret tt
      else
        match fuel with
        | O => out_of_fuel
        | S fuel' =>
            data <- fetch u ;;
            results <- lift (dict_get data "results" (JArr [])) ;;
            items <- lift (iterate results) ;;
            for_each items item ;;
            next <- lift (next_url data) ;;
            while_url fuel' next item
        end
  end.

Definition limit : string := "50".

(** The [ConfluenceSpaceEntity(...)] expression of lines 248-259. *)
Definition space_entity_of (space : json) : res ConfluenceSpaceEntity :=
  id <~ subscript space "id" ;;
  key <~ subscript space "key" ;;
  name <~ dict_get space "name" JNull ;;
  type <~ dict_get space "type" JNull ;;
  description <~ dict_get space "description" JNull ;;
  status <~ dict_get space "status" JNull ;;
  homepage_id <~ dict_get space "homepageId" JNull ;;
  created_at <~ dict_get space "createdAt" JNull ;;
  updated_at <~ dict_get space "updatedAt" JNull ;;
  entity_id <~ as_str id ;;
  name <~ as_opt_str name ;;
  Ok (mkSpace entity_id [] key name type description status homepage_id
        created_at updated_at).

Definition spaces_url : string :=
  base_url self ++ "/wiki/api/v2/spaces?limit=" ++ limit.

Definition _generate_space_entities (fuel : nat)
    (consumer : ConfluenceSpaceEntity -> Conn unit) : Conn unit :=
  while_url fuel (Some spaces_url)
    (fun space => e <- lift (space_entity_of space) ;; consumer e).

(** [d.get("body", {}).get("storage", {}).get("value", default)] *)
Definition storage_value (d : json) (default : json) : res json :=
  body <~ dict_get d "body" (JObj []) ;;
  storage <~ dict_get body "storage" (JObj []) ;;
  dict_get storage "value" default.

Definition nl : string := String (ascii_of_nat 10) EmptyString.
Definition dquote : string := String (ascii_of_nat 34) EmptyString.
Definition indent16 : string := "                ".
Definition indent20 : string := "                    ".

(** The f-string of lines 311-322. *)
Definition html_content (title body : string) : string :=
  nl ++ indent16 ++ "<!DOCTYPE html>" ++
  nl ++ indent16 ++ "<html>" ++
  nl ++ indent16 ++ "<head>" ++
  nl ++ indent20 ++ "<title>" ++ title ++ "</title>" ++
  nl ++ indent20 ++ "<meta charset=" ++ dquote ++ "UTF-8" ++ dquote ++ ">" ++
  nl ++ indent16 ++ "</head>" ++
  nl ++ indent16 ++ "<body>" ++
  nl ++ indent20 ++ body ++
  nl ++ indent16 ++ "</body>" ++
  nl ++ indent16 ++ "</html>" ++
  nl ++ indent16.

Definition pages_url (space_id : string) : string :=
  base_url self ++ "/wiki/api/v2/spaces/" ++ space_id ++ "/pages?limit=" ++ limit.

Definition page_detail_url (page_id : json) : string :=
  base_url self ++ "/wiki/api/v2/pages/" ++ fmt page_id ++ "?body-format=storage".

(** The [ConfluencePageEntity(...)] expression of lines 293-308 together
    with the values computed for it on lines 284-291. *)
Definition file_entity_of (space_breadcrumb : Breadcrumb) (page page_details : json)
  : res (ConfluencePageEntity * json) :=
  let page_breadcrumbs := [space_breadcrumb] in
  page_id <~ subscript page "id" ;;
  body_content <~ storage_value page_details (JStr "") ;;
  page_title <~ dict_get page_details "title" (JStr "Untitled Page") ;;
  let filename_with_extension := fmt page_title ++ ".html" in
  let download_url := base_url self ++ "/wiki/api/v2/pages/" ++ fmt page_id in
  title <~ dict_get page_details "title" JNull ;;
  space <~ dict_get page_details "space" (JObj []) ;;
  space_id <~ dict_get space "id" JNull ;;
  version <~ dict_get page_details "version" (JObj []) ;;
  number <~ dict_get version "number" JNull ;;
  status <~ dict_get page_details "status" JNull ;;
  created_at <~ dict_get page_details "createdAt" JNull ;;
  updated_at <~ dict_get page_details "updatedAt" JNull ;;
  entity_id <~ as_str page_id ;;
  title <~ as_opt_str title ;;
  Ok (mkPage entity_id page_breadcrumbs entity_id title space_id body_content
        number status created_at updated_at entity_id filename_with_extension
        "text/html" download_url,
      body_content).

(** One round of the [for page in ...] loop of [_generate_page_entities].
    The stream holds the one chunk [html_content.encode("utf-8")]; strings
    are byte strings here and the encoding leaves them as they are. *)
Definition page_item (space_breadcrumb : Breadcrumb)
    (consumer : ConfluencePageEntity -> Conn unit) (page : json) : Conn unit :=
  page_id <- lift (subscript page "id") ;;
  page_details <- fetch (page_detail_url page_id) ;;
  built <- lift (file_entity_of space_breadcrumb page page_details) ;;
  let '(file_entity, body_content) := built in
  title <- lift (dict_get page_details "title" (JStr "")) ;;
  let file_stream :=
    AsyncIteratorWrapper.__init__ [html_content (fmt title) (fmt body_content)] in
  processed_entity <-
    process file_entity file_stream
      [("source", JStr "confluence"); ("page_id", page_id)] ;;
  match processed_entity with
  | Some e => consumer e
  | None => ret tt
  end.

Definition _generate_page_entities (fuel : nat) (space_id : string)
    (space_breadcrumb : Breadcrumb)
    (consumer : ConfluencePageEntity -> Conn unit) : Conn unit :=
  while_url fuel (Some (pages_url space_id)) (page_item space_breadcrumb consumer).

(** The [ConfluenceBlogPostEntity(...)] expression of lines 351-362. *)
Definition blog_entity_of (space_breadcrumb : Breadcrumb) (blog : json)
  : res ConfluenceBlogPostEntity :=
  id <~ subscript blog "id" ;;
  title <~ dict_get blog "title" JNull ;;
  space_id <~ dict_get blog "spaceId" JNull ;;
  body <~ storage_value blog JNull ;;
  version <~ dict_get blog "version" (JObj []) ;;
  number <~ dict_get version "number" JNull ;;
  status <~ dict_get blog "status" JNull ;;
  created_at <~ dict_get blog "createdAt" JNull ;;
  updated_at <~ dict_get blog "updatedAt" JNull ;;
  entity_id <~ as_str id ;;
  title <~ as_opt_str title ;;
  Ok (mkBlog entity_id [space_breadcrumb] entity_id title space_id body number
        status created_at updated_at).

Definition blogposts_url (space_id : string) : string :=
  base_url self ++ "/wiki/api/v2/spaces/" ++ space_id ++ "/blogposts?limit=" ++ limit.

Definition _generate_blog_post_entities (fuel : nat) (space_id : string)
    (space_breadcrumb : Breadcrumb)
    (consumer : ConfluenceBlogPostEntity -> Conn unit) : Conn unit :=
  while_url fuel (Some (blogposts_url space_id))
    (fun blog => e <- lift (blog_entity_of space_breadcrumb blog) ;; consumer e).

(** The [ConfluenceCommentEntity(...)] expression of lines 384-394. *)
Definition comment_entity_of (parent_breadcrumbs : list Breadcrumb) (comment : json)
  : res ConfluenceCommentEntity :=
  id <~ subscript comment "id" ;;
  container <~ dict_get comment "container" (JObj []) ;;
  parent_content_id <~ dict_get container "id" JNull ;;
  text <~ storage_value comment JNull ;;
  created_by <~ dict_get comment "createdBy" JNull ;;
  created_at <~ dict_get comment "createdAt" JNull ;;
  updated_at <~ dict_get comment "updatedAt" JNull ;;
  status <~ dict_get comment "status" JNull ;;
  entity_id <~ as_str id ;;
  Ok (mkComment entity_id parent_breadcrumbs entity_id parent_content_id text
        created_by created_at updated_at status).

Definition comments_url (page_id : string) : string :=
  base_url self ++ "/wiki/api/v2/pages/" ++ page_id ++ "/inline-comments?limit=" ++ limit.

Definition _generate_comment_entities (fuel : nat) (page_id : string)
    (parent_breadcrumbs : list Breadcrumb)
    (consumer : ConfluenceCommentEntity -> Conn unit) : Conn unit :=
  while_url fuel (Some (comments_url page_id))
    (fun comment =>
       e <- lift (comment_entity_of parent_breadcrumbs comment) ;; consumer e).

Definition space_breadcrumb_of (space_entity : ConfluenceSpaceEntity) : Breadcrumb :=
  mkBreadcrumb (space_entity_id space_entity) (or_empty (space_name space_entity)) "space".

Definition page_breadcrumb_of (page_entity : ConfluencePageEntity) : Breadcrumb :=
  mkBreadcrumb (page_entity_id page_entity) (or_empty (page_title page_entity)) "page".

(** The body of [async for page_entity in ...] in [generate_entities].
    The generator yields processed records only, so the test
    [page_entity is None] never holds. *)
Definition on_page (fuel : nat) (space_breadcrumb : Breadcrumb)
    (page_entity : ConfluencePageEntity) : Conn unit :=
  yield_ (EPage page_entity) ;;
  let page_breadcrumbs := [space_breadcrumb; page_breadcrumb_of page_entity] in
  _generate_comment_entities fuel (page_content_id page_entity) page_breadcrumbs
    (fun comment_entity => yield_ (EComment comment_entity)).

(** The body of [async for space_entity in ...] in [generate_entities]. *)
Definition on_space (fuel : nat) (space_entity : ConfluenceSpaceEntity) : Conn unit :=
  yield_ (ESpace space_entity) ;;
  let space_breadcrumb := space_breadcrumb_of space_entity in
  _generate_page_entities fuel (space_entity_id space_entity) space_breadcrumb
    (on_page fuel space_breadcrumb) ;;
  _generate_blog_post_entities fuel (space_entity_id space_entity) space_breadcrumb
    (fun blog_entity => yield_ (EBlog blog_entity)).

Definition generate_entities (fuel : nat) : Conn unit :=
  _generate_space_entities fuel (on_space fuel).

End Source.

Section Create.

Import Py PyOps Http.
Local Open Scope string_scope.

Variable env : Env.

Definition accessible_resources_url : string :=
  "https://api.atlassian.com/oauth/token/accessible-resources".

Definition preflight_headers (access_token : string) : RequestHeaders :=
  [("Authorization", JStr ("Bearer " ++ access_token));
   ("Accept", JStr "application/json")].

Definition _get_accessible_resources (access_token : string) : M (W env) json :=
  let headers := preflight_headers access_token in
  try_except
    (response <- request env accessible_resources_url headers ;;
     lift (raise_for_status response) ;;
     lift (response_json response))
    (fun e => ret (JArr [])).

(** [resources[0]] *)
Definition first_item (resources : json) : res json :=
  match resources with
  | JArr (x :: _) => Ok x
  | JArr [] => Raise (OtherError "IndexError")
  | JStr (String c _) => Ok (JStr (String c EmptyString))
  | JStr EmptyString => Raise (OtherError "IndexError")
  | JObj _ => Raise (KeyError "0")
  | _ => Raise TypeError
  end.

Definition _extract_cloud_id (access_token : string) : M (W env) json :=
  try_except
    (resources <- _get_accessible_resources access_token ;;
     if negb (truthy resources) then ret (JStr "")
     else
       resource <- lift (first_item resources) ;;
       cloud_id <- lift (dict_get resource "id" (JStr "")) ;;
       ret cloud_id)
    (fun e => ret (JStr "")).

Definition confluence_prefix : string := "https://api.atlassian.com/ex/confluence/".

Definition create (access_token : string) : M (W env) ConfluenceSource :=
  cloud_id <- _extract_cloud_id access_token ;;
  ret (mkSource access_token cloud_id (confluence_prefix ++ fmt env cloud_id)).

End Create.

(* ================================================================== *)
(** ** Mock worlds used in the examples *)
(* ================================================================== *)

Module Mock.

Import Http.
Local Open Scope string_scope.

(** A scripted client: it answers the requests with the listed results,
    in order, and with an empty 200 response afterwards.  The second
    component of the state is the current token. *)
Definition ScriptedWorld : Type := (list ClientResult * string)%type.

Definition ok_response (j : json) : Response := mkResponse 200 [] "json" (Some j).

Definition scripted_get (url : string) (h : RequestHeaders) (w : ScriptedWorld)
  : ClientResult * ScriptedWorld :=
  match fst w with
  | [] => (Returned (ok_response (JObj [])), w)
  | c :: rest => (c, (rest, snd w))
  end.

Definition scripted : Env :=
  mkEnv ScriptedWorld scripted_get snd
    (Some (fun w => (true, (fst w, "new"))))
    (fun fe _ _ w => (Some fe, w))
    (fun _ => "?").

(** [str] on the values that are not strings, as far as the examples
    need it. *)
Definition str_of (v : json) : string :=
  match v with
  | JNull => "None"
  | JBool true => "True"
  | JBool false => "False"
  | _ => "?"
  end.

(** The scripted client in a world where [str(None)] is [None]. *)
Definition scripted_str : Env :=
  mkEnv ScriptedWorld scripted_get snd
    (Some (fun w => (true, (fst w, "new"))))
    (fun fe _ _ w => (Some fe, w))
    str_of.

(** A mock server: a function from URLs to JSON bodies, always answered
    with status 200, and an extraction collaborator that is a function of
    the record. *)
Definition served (server : string -> json)
    (keep : ConfluencePageEntity -> option ConfluencePageEntity) : Env :=
  mkEnv unit
    (fun url _ w => (Returned (ok_response (server url)), w))
    (fun _ => "token")
    None
    (fun fe _ _ w => (keep fe, w))
    (fun _ => "?").

Definition source : ConfluenceSource :=
  mkSource "old" (JStr "CID") "https://api.atlassian.com/ex/confluence/CID".

Definition unauthorized : Response := mkResponse 401 [] "" None.

(** A 401 whose body names the missing scope. *)
Definition scope_in_message : Response :=
  mkResponse 401 [] "json"
    (Some (JObj [("code", JNum 401);
                 ("message", JStr "Unauthorized; scope does not match")])).

(** A 401 that carries the scope-failure header and whose body has a
    null [message]. *)
Definition scope_header_null_message : Response :=
  mkResponse 401 [("x-failure-category", "FAILURE_CLIENT_SCOPE_CHECK")] "json"
    (Some (JObj [("message", JNull)])).

End Mock.

(* ================================================================== *)
(** ** Notions of the specification *)
(* ================================================================== *)

Section SpecNotions.

Import Py PyOps Http.
Local Open Scope string_scope.

(** The message the scope test reads from a 401 body: the empty string
    for an empty body or an object without [message], the text of
    [message] when it is a string; nothing otherwise. *)
Definition body_message (r : Response) : option string :=
  if text r =? "" then Some ""
  else
    match decoded r with
    | Some (JObj f) =>
        match lookup "message" f with
        | None => Some ""
        | Some (JStr m) => Some m
        | Some _ => None
        end
    | _ => None
    end.

(** A scope-related field in the response body. *)
Definition scope_in_body (r : Response) : Prop :=
  exists m, body_message r = Some m /\ contains "scope" (lower m) = true.

(** A scope-failure response header. *)
Definition scope_in_header (r : Response) : bool :=
  header_mem "x-failure-category" (resp_headers r)
  && contains "SCOPE" (header_get "x-failure-category" (resp_headers r) "").

Definition carries_scope_indicator (r : Response) : Prop :=
  scope_in_body r \/ scope_in_header r = true.

End SpecNotions.

(* ================================================================== *)
(** ** Runs and the shape of what they yield *)
(* ================================================================== *)

(* ---- definitions to insert ---- *)
Section Runs.
Variable St : Type.
Definition trace_of {A} (x : Trace * St * res A) : Trace := fst (fst x).
Definition outcome_of {A} (x : Trace * St * res A) : res A := snd x.

(** [sat m L R]: whatever the world, the records [m] yields form a word of
    [L], and a value it returns satisfies [R]. *)
Definition sat {A} (m : M St A) (L : list Entity -> Prop) (R : A -> Prop) : Prop :=
  forall w,
    L (yields (trace_of (m w))) /\
    match outcome_of (m w) with Ok a => R a | _ => True end.
End Runs.
Arguments trace_of {St A} x.
Arguments outcome_of {St A} x.
Arguments sat {St A} m L R.

(** A language of yielded records that contains the empty word and is
    closed under concatenation. *)
Definition monoid (L : list Entity -> Prop) : Prop :=
  L [] /\ forall x y, L x -> L y -> L (x ++ y).

Definition comment_under (bcs : list Breadcrumb) (e : Entity) : Prop :=
  match e with EComment c => comment_breadcrumbs c = bcs | _ => False end.

Definition blog_under (sb : Breadcrumb) (e : Entity) : Prop :=
  match e with EBlog b => blog_breadcrumbs b = [sb] | _ => False end.

Section Shape.
Variable page_ok : Breadcrumb -> ConfluencePageEntity -> Prop.

Inductive documents (sb : Breadcrumb) : list Entity -> Prop :=
| documents_nil : documents sb []
| documents_cons (p : ConfluencePageEntity) (cs rest : list Entity) :
    page_ok sb p ->
    Forall (comment_under [sb; page_breadcrumb_of p]) cs ->
    documents sb rest ->
    documents sb (EPage p :: cs ++ rest).

Inductive containers : list Entity -> Prop :=
| containers_nil : containers []
| containers_cons (s : ConfluenceSpaceEntity) (docs blogs rest : list Entity) :
    space_breadcrumbs s = [] ->
    documents (space_breadcrumb_of s) docs ->
    Forall (blog_under (space_breadcrumb_of s)) blogs ->
    containers rest ->
    containers (ESpace s :: docs ++ blogs ++ rest).
End Shape.

(** A page record that came out of content extraction: the result of
    processing a file entity built for a page of the container [sb],
    together with the stream over its HTML envelope. *)
Definition produced (env : Env) (self : ConfluenceSource) (sb : Breadcrumb)
    (p : ConfluencePageEntity) : Prop :=
  exists page page_details file_entity body_content title metadata w w1,
    file_entity_of env self sb page page_details = Ok (file_entity, body_content) /\
    process_file_entity_with_content env file_entity
      (AsyncIteratorWrapper.__init__ [html_content title (fmt env body_content)])
      metadata w
    = (Some p, w1).

(** What an observer keeps of a trace. *)
Definition observe {X} (obs : Event -> list X) (t : Trace) : list X := flat_map obs t.

Definition obs_yield (ev : Event) : list Entity :=
  match ev with EvYield e => [e] | _ => [] end.

Definition obs_url (ev : Event) : list string :=
  match ev with EvGet u _ => [u] | _ => [] end.

(** [run m w t w1 r]: started in the world [w], [m] leaves the trace [t],
    the world [w1] and the outcome [r]. *)
Definition run {St A} (m : M St A) (w : St) (t : Trace) (w1 : St) (r : res A) : Prop :=
  m w = (t, w1, r).

Definition obs_fatal (ev : Event) : list (string * exc) :=
  match ev with EvFatal u e => [(u, e)] | _ => [] end.

(** A computation that shows nothing to the observer [obs]. *)
Definition quiet {St A X} (obs : Event -> list X) (m : M St A) : Prop :=
  forall w, observe obs (trace_of (m w)) = [].

(** How a run may end with respect to failed fetches: either no fetch
    has failed, or the last event of the trace is the one failed fetch
    and its exception is the outcome. *)
Definition fatal_ok {A} (t : Trace) (r : res A) : Prop :=
  observe obs_fatal t = [] \/
  exists t0 u e, t = t0 ++ [EvFatal u e] /\ observe obs_fatal t0 = [] /\ r = Raise e.

(* ================================================================== *)
(** ** A mock server and the traversal the specification describes *)
(* ================================================================== *)

(** The remote API is a mock server: every request is answered with a
    success status and the JSON body [server url]. *)
Definition mock_server (env : Env) (server : string -> json) : Prop :=
  forall url h w, exists r w1,
    client_get env url h w = (Http.Returned r, w1) /\
    Http.is_success r = true /\
    decoded r = Some (server url).

(** Content extraction is a function [keep] of the record it is given. *)
Definition extraction (env : Env)
    (keep : ConfluencePageEntity -> option ConfluencePageEntity) : Prop :=
  forall fe st md w, fst (process_file_entity_with_content env fe st md w) = keep fe.

(** The items of a response envelope: its [results] array (none when the
    field is absent). *)
Definition page_items (data : json) : option (list json) :=
  match data with
  | JObj f =>
      match Py.lookup "results" f with
      | None => Some []
      | Some (JArr l) => Some l
      | Some _ => None
      end
  | _ => None
  end.

(** The next-link of a response envelope: [Some None] when the envelope
    has none (no [_links], no [next], or an empty one). *)
Definition page_next (data : json) : option (option json) :=
  match data with
  | JObj f =>
      match Py.lookup "_links" f with
      | None => Some None
      | Some (JObj g) =>
          match Py.lookup "next" g with
          | None => Some None
          | Some nl => Some (if Py.truthy nl then Some nl else None)
          end
      | Some _ => None
      end
  | _ => None
  end.

(** One record, or several, for each item of a list, in order. *)
Inductive each {X : Type} (R : json -> list X -> Prop) : list json -> list X -> Prop :=
| each_nil : each R [] []
| each_cons (x : json) (o : list X) (xs : list json) (os : list X) :
    R x o -> each R xs os -> each R (x :: xs) (o ++ os).

(** What an observer sees of a chain of pages: for each page, what
    fetching it shows ([fobs]), then what its items contribute ([R]). *)
Inductive pages_out (X : Type) (fobs : string -> list X)
    (R : json -> list X -> Prop) : list (string * list json) -> list X -> Prop :=
| pages_out_nil : pages_out X fobs R [] []
| pages_out_cons (u : string) (items : list json) (o : list X)
    (rest : list (string * list json)) (os : list X) :
    each R items o -> pages_out X fobs R rest os ->
    pages_out X fobs R ((u, items) :: rest) (fobs u ++ o ++ os).

Definition all_items (pages : list (string * list json)) : list json :=
  flat_map snd pages.

Section Upstream.

Variable env : Env.
Variable self : ConfluenceSource.
Variable server : string -> json.
Variable keep : ConfluencePageEntity -> option ConfluencePageEntity.

(** [listing url pages]: the pagination chain that starts at [url] is
    finite; [pages] are its responses in order, each with the URL it was
    fetched from and its items.  The chain goes on through each next-link,
    resolved against the base URL, and ends at the first response without
    one. *)
Inductive listing : string -> list (string * list json) -> Prop :=
| listing_last (url : string) (items : list json) :
    url <> EmptyString ->
    page_items (server url) = Some items ->
    page_next (server url) = Some None ->
    listing url [(url, items)]
| listing_more (url : string) (items : list json) (nl : json)
    (pages : list (string * list json)) :
    url <> EmptyString ->
    page_items (server url) = Some items ->
    page_next (server url) = Some (Some nl) ->
    listing (base_url self ++ fmt env nl)%string pages ->
    listing url ((url, items) :: pages).

Definition space_record (x : json) (o : list Entity) : Prop :=
  exists s, space_entity_of x = Ok s /\ o = [ESpace s].

Definition comment_record (bcs : list Breadcrumb) (x : json) (o : list Entity) : Prop :=
  exists c, comment_entity_of bcs x = Ok c /\ o = [EComment c].

Definition blog_record (sb : Breadcrumb) (x : json) (o : list Entity) : Prop :=
  exists b, blog_entity_of sb x = Ok b /\ o = [EBlog b].

(** What a document of the container [sb] contributes: the processed
    record followed by all its comments, or nothing when extraction
    returns nothing for it. *)
Inductive document_records (sb : Breadcrumb) (page : json) : list Entity -> Prop :=
| document_kept (page_id body : json) (fe p : ConfluencePageEntity)
    (pages : list (string * list json)) (cs : list Entity) :
    PyOps.subscript page "id" = Ok page_id ->
    file_entity_of env self sb page (server (page_detail_url env self page_id))
    = Ok (fe, body) ->
    keep fe = Some p ->
    listing (comments_url self (page_content_id p)) pages ->
    each (comment_record [sb; page_breadcrumb_of p]) (all_items pages) cs ->
    document_records sb page (EPage p :: cs)
| document_dropped (page_id body : json) (fe : ConfluencePageEntity) :
    PyOps.subscript page "id" = Ok page_id ->
    file_entity_of env self sb page (server (page_detail_url env self page_id))
    = Ok (fe, body) ->
    keep fe = None ->
    document_records sb page [].

(** What a container contributes: its own record, then its documents,
    then its blog posts. *)
Inductive container_records (space : json) : list Entity -> Prop :=
| container_block (s : ConfluenceSpaceEntity)
    (dpages bpages : list (string * list json)) (docs blogs : list Entity) :
    space_entity_of space = Ok s ->
    listing (pages_url self (space_entity_id s)) dpages ->
    each (document_records (space_breadcrumb_of s)) (all_items dpages) docs ->
    listing (blogposts_url self (space_entity_id s)) bpages ->
    each (blog_record (space_breadcrumb_of s)) (all_items bpages) blogs ->
    container_records space (ESpace s :: docs ++ blogs).

(** The whole upstream dataset, traversed depth first. *)
Definition traversal (out : list Entity) : Prop :=
  exists pages,
    listing (spaces_url self) pages /\
    each container_records (all_items pages) out.

End Upstream.

(** [settles m o]: with enough fuel, and whatever the world, [m] returns
    normally and the records it has yielded are exactly [o]. *)
Definition settles {St} (m : nat -> M St unit) (o : list Entity) : Prop :=
  exists n, forall fuel, n <= fuel -> forall w, exists t w1,
    run (m fuel) w t w1 (Ok tt) /\ yields t = o.

(** [fatal_sat m]: in every world, [m] ends as [fatal_ok] describes. *)
Definition fatal_sat {St A} (m : M St A) : Prop :=
  forall w, fatal_ok (trace_of (m w)) (outcome_of (m w)).

(** The name a breadcrumb shows for a parent: its name or title, and
    the empty string when it has none. *)
Definition shown_name (name : option string) : string :=
  match name with
  | Some n => n
  | None => ""
  end.

(** The breadcrumb of a container and of a document, as the
    specification has it: the id of the parent, its name, its kind.  The
    connector writes the kind of a container as [space] and the kind of
    a document as [page]. *)
Definition container_breadcrumb (s : ConfluenceSpaceEntity) : Breadcrumb :=
  {| bc_entity_id := space_entity_id s;
     bc_name := shown_name (space_name s);
     bc_type := "space" |}.

Definition document_breadcrumb (p : ConfluencePageEntity) : Breadcrumb :=
  {| bc_entity_id := page_entity_id p;
     bc_name := shown_name (page_title p);
     bc_type := "page" |}.

(** The lineage of every yielded record, read from left to right:
    [container] and [document] are the container and the document most
    recently yielded, the parents of what follows.  A container has no
    lineage; the lineage of a document and of a blog post is the
    breadcrumb of their container; the lineage of a comment is the
    breadcrumb of its container followed by the breadcrumb of its
    document, its immediate parent. *)
Fixpoint lineage_ok (container : option ConfluenceSpaceEntity)
    (document : option ConfluencePageEntity) (out : list Entity) : Prop :=
  match out with
  | [] => True
  | ESpace s :: rest =>
      space_breadcrumbs s = [] /\
      lineage_ok (Some s) None rest
  | EPage p :: rest =>
      (exists s, container = Some s /\ page_breadcrumbs p = [container_breadcrumb s]) /\
      lineage_ok container (Some p) rest
  | EComment c :: rest =>
      (exists s p, container = Some s /\ document = Some p /\
                   comment_breadcrumbs c
                   = [container_breadcrumb s; document_breadcrumb p]) /\
      lineage_ok container document rest
  | EBlog b :: rest =>
      (exists s, container = Some s /\ blog_breadcrumbs b = [container_breadcrumb s]) /\
      lineage_ok container None rest
  end.

(** The upstream dataset as the tree the traversal walks: the
    containers in the order of their listing, each with the documents
    that reach the output, every document with its comments, and the
    secondary documents (blog posts) of the container. *)
Record DocumentNode : Type := mkDocumentNode {
  node_document : ConfluencePageEntity;
  node_comments : list ConfluenceCommentEntity
}.

Record ContainerNode : Type := mkContainerNode {
  node_container : ConfluenceSpaceEntity;
  node_documents : list DocumentNode;
  node_secondary : list ConfluenceBlogPostEntity
}.

(** A document, followed at once by all its comments. *)
Definition document_then_comments (d : DocumentNode) : list Entity :=
  EPage (node_document d) :: map EComment (node_comments d).

(** A container first, then its documents one after the other, then its
    secondary documents. *)
Definition container_then_content (c : ContainerNode) : list Entity :=
  ESpace (node_container c)
  :: flat_map document_then_comments (node_documents c)
  ++ map EBlog (node_secondary c).

(** The fixed depth-first order: everything of a container before any
    record of the next one. *)
Definition depth_first_order (tree : list ContainerNode) : list Entity :=
  flat_map container_then_content tree.

Section UpstreamTree.

Variable env : Env.
Variable self : ConfluenceSource.
Variable server : string -> json.
Variable keep : ConfluencePageEntity -> option ConfluencePageEntity.

(** The comments the server lists for the document [p], decoded with the
    lineage [lineage]. *)
Definition serves_comments (p : ConfluencePageEntity) (lineage : list Breadcrumb)
    (cs : list ConfluenceCommentEntity) : Prop :=
  exists pages,
    listing env self server (comments_url self (page_content_id p)) pages /\
    Forall2 (fun x c => comment_entity_of lineage x = Ok c) (all_items pages) cs.

(** The documents of the container [s]: each item of its listing whose
    record content extraction keeps is a node, with the comments the
    server lists for it; an item whose record is dropped is none. *)
Inductive serves_documents (s : ConfluenceSpaceEntity)
    : list json -> list DocumentNode -> Prop :=
| serves_documents_nil : serves_documents s [] []
| serves_documents_kept (page page_id body : json) (fe : ConfluencePageEntity)
    (d : DocumentNode) (items : list json) (ds : list DocumentNode) :
    PyOps.subscript page "id" = Ok page_id ->
    file_entity_of env self (container_breadcrumb s) page
      (server (page_detail_url env self page_id)) = Ok (fe, body) ->
    keep fe = Some (node_document d) ->
    serves_comments (node_document d)
      [container_breadcrumb s; document_breadcrumb (node_document d)]
      (node_comments d) ->
    serves_documents s items ds ->
    serves_documents s (page :: items) (d :: ds)
| serves_documents_dropped (page page_id body : json) (fe : ConfluencePageEntity)
    (items : list json) (ds : list DocumentNode) :
    PyOps.subscript page "id" = Ok page_id ->
    file_entity_of env self (container_breadcrumb s) page
      (server (page_detail_url env self page_id)) = Ok (fe, body) ->
    keep fe = None ->
    serves_documents s items ds ->
    serves_documents s (page :: items) ds.

(** The item [x] of the listing of containers and what the server holds
    under it. *)
Definition serves_container (x : json) (c : ContainerNode) : Prop :=
  space_entity_of x = Ok (node_container c) /\
  (exists pages,
     listing env self server (pages_url self (space_entity_id (node_container c))) pages /\
     serves_documents (node_container c) (all_items pages) (node_documents c)) /\
  (exists pages,
     listing env self server
       (blogposts_url self (space_entity_id (node_container c))) pages /\
     Forall2 (fun x b => blog_entity_of (container_breadcrumb (node_container c)) x = Ok b)
       (all_items pages) (node_secondary c)).

(** [upstream tree]: the mock server holds exactly the tree [tree], every
    listing of it a finite chain of pages. *)
Definition upstream (tree : list ContainerNode) : Prop :=
  exists pages,
    listing env self server (spaces_url self) pages /\
    Forall2 serves_container (all_items pages) tree.

End UpstreamTree.

(** Content extraction returns the record with the lineage it was given. *)
Definition keeps_lineage (env : Env) : Prop :=
  forall fe st md w p w1,
    process_file_entity_with_content env fe st md w = (Some p, w1) ->
    page_breadcrumbs p = page_breadcrumbs fe.

(** Content extraction returns the record with the id it was given. *)
Definition keeps_id (env : Env) : Prop :=
  forall fe st md w p w1,
    process_file_entity_with_content env fe st md w = (Some p, w1) ->
    page_entity_id p = page_entity_id fe.

(* ================================================================== *)
(** ** Example data *)
(* ================================================================== *)

Module Demo.

Local Open Scope string_scope.

Definition base : string := base_url Mock.source.

Definition envelope (items : list json) : json := JObj [("results", JArr items)].

Definition envelope_next (items : list json) (next : string) : json :=
  JObj [("results", JArr items); ("_links", JObj [("next", JStr next)])].

Definition item (id : string) : json := JObj [("id", JStr id)].

Definition space_item (id key name : string) : json :=
  JObj [("id", JStr id); ("key", JStr key); ("name", JStr name)].

Definition details (id title body : string) : json :=
  JObj [("id", JStr id); ("title", JStr title);
        ("body", JObj [("storage", JObj [("value", JStr body)])])].

(** One container [S1] named Eng with two documents, [P1] titled Design
    with the comment [C1] and [P2] titled Draft with the comment [C2],
    and one blog post [B1]. *)
Definition server (url : string) : json :=
  if url =? spaces_url Mock.source then envelope [space_item "S1" "ENG" "Eng"]
  else if url =? pages_url Mock.source "S1" then envelope [item "P1"; item "P2"]
  else if url =? base ++ "/wiki/api/v2/pages/P1?body-format=storage" then
    details "P1" "Design" "<p>plan</p>"
  else if url =? base ++ "/wiki/api/v2/pages/P2?body-format=storage" then
    details "P2" "Draft" "<p>todo</p>"
  else if url =? comments_url Mock.source "P1" then envelope [item "C1"]
  else if url =? comments_url Mock.source "P2" then envelope [item "C2"]
  else if url =? blogposts_url Mock.source "S1" then envelope [item "B1"]
  else JObj [].

(** Extraction that returns nothing for [P2]. *)
Definition drop_P2 (p : ConfluencePageEntity) : option ConfluencePageEntity :=
  if page_entity_id p =? "P2" then None else Some p.

Definition s1 : ConfluenceSpaceEntity :=
  mkSpace "S1" [] (JStr "ENG") (Some "Eng") JNull JNull JNull JNull JNull JNull.

Definition s1_crumb : Breadcrumb := mkBreadcrumb "S1" "Eng" "space".
Definition p1_crumb : Breadcrumb := mkBreadcrumb "P1" "Design" "page".
Definition p2_crumb : Breadcrumb := mkBreadcrumb "P2" "Draft" "page".

Definition page (id title body : string) : ConfluencePageEntity :=
  mkPage id [s1_crumb] id (Some title) JNull (JStr body) JNull JNull JNull JNull id
    (title ++ ".html") "text/html" (base ++ "/wiki/api/v2/pages/" ++ id).

Definition p1 : ConfluencePageEntity := page "P1" "Design" "<p>plan</p>".
Definition p2 : ConfluencePageEntity := page "P2" "Draft" "<p>todo</p>".

Definition comment (id : string) (crumbs : list Breadcrumb) : ConfluenceCommentEntity :=
  mkComment id crumbs id JNull JNull JNull JNull JNull JNull.

Definition c1 : ConfluenceCommentEntity := comment "C1" [s1_crumb; p1_crumb].
Definition c2 : ConfluenceCommentEntity := comment "C2" [s1_crumb; p2_crumb].

Definition b1 : ConfluenceBlogPostEntity :=
  mkBlog "B1" [s1_crumb] "B1" None JNull JNull JNull JNull JNull JNull.

(** A listing of three containers served in two pages: two items and the
    next-link [?cursor=2], then one item and no next-link. *)
Definition paged (url : string) : json :=
  if url =? spaces_url Mock.source then
    envelope_next [space_item "A" "KA" "Alpha"; space_item "B" "KB" "Beta"] "?cursor=2"
  else if url =? base ++ "?cursor=2" then
    envelope [space_item "C" "KC" "Gamma"]
  else JObj [].

Definition space (id key name : string) : ConfluenceSpaceEntity :=
  mkSpace id [] (JStr key) (Some name) JNull JNull JNull JNull JNull JNull.

(** A server error. *)
Definition unavailable : Response := mkResponse 503 [] "" None.

(** A scripted run in which the detail fetch of the first document
    fails: the listing of containers, the listing of the documents of
    [S1], then the error. *)
Definition failing_detail : Mock.ScriptedWorld :=
  ([Http.Returned (Mock.ok_response (envelope [space_item "S1" "ENG" "Eng"]));
    Http.Returned (Mock.ok_response (envelope [item "P1"; item "P2"]));
    Http.Returned unavailable],
   "old").

(** The server above with a second container [S2] named Ops, listed
    after [S1] and holding nothing. *)
Definition two_containers (url : string) : json :=
  if url =? spaces_url Mock.source then
    envelope [space_item "S1" "ENG" "Eng"; space_item "S2" "OPS" "Ops"]
  else server url.

Definition s2 : ConfluenceSpaceEntity :=
  mkSpace "S2" [] (JStr "OPS") (Some "Ops") JNull JNull JNull JNull JNull JNull.

Definition tree : list ContainerNode :=
  [mkContainerNode s1 [mkDocumentNode p1 [c1]; mkDocumentNode p2 [c2]] [b1];
   mkContainerNode s2 [] []].

End Demo.

(** The record a well-formed container item is turned into. *)
Definition decodes_to_space (x : json) (e : Entity) : Prop :=
  exists s, space_entity_of x = Ok s /\ e = ESpace s.

(* ================================================================== *)
(** ** The wrapped iterator on its own *)
(* ================================================================== *)

Section IteratorSteps.

Import AsyncIteratorWrapper.

Variables (I T : Type) (next : I -> Step T * I).

(** [n] successive calls of [next] on the bare iterator. *)
Fixpoint iter_steps (n : nat) (it : I) : list (Step T) * I :=
  match n with
  | O => ([], it)
  | S n' =>
      let '(s, it1) := next it in
      let '(ss, it2) := iter_steps n' it1 in
      (s :: ss, it2)
  end.

(** What the wrapper makes of one step of the iterator. *)
Definition read_of_step (s : Step T) : Read T :=
  match s with
  | Item x => Got x
  | StopIteration => StopAsyncIteration
  | Fails e => Failed e
  end.

Definition is_stop (s : Step T) : bool :=
  match s with
  | StopIteration => true
  | _ => false
  end.

End IteratorSteps.

Arguments iter_steps {I T} next n it.
Arguments read_of_step {T} s.
Arguments is_stop {T} s.

(* ================================================================== *)
(** ** Bounded chains and what a run requests *)
(* ================================================================== *)

(** [ends_within env self server n url]: the pagination chain that starts
    at [url] reaches a response without a followable next-link after at
    most [n] responses. *)
Fixpoint ends_within (env : Env) (self : ConfluenceSource) (server : string -> json)
    (n : nat) (url : string) : Prop :=
  match n with
  | O => False
  | S n' =>
      match page_next (server url) with
      | Some (Some nl) => ends_within env self server n' (base_url self ++ fmt env nl)%string
      | _ => True
      end
  end.

(** [all_obs obs P m]: in every world, everything the observer [obs]
    sees of a run of [m] satisfies [P]. *)
Definition all_obs {St A X} (obs : Event -> list X) (P : X -> Prop) (m : M St A) : Prop :=
  forall w, Forall P (observe obs (trace_of (m w))).

(** [never_starves m]: no run of [m] ends for lack of fuel. *)
Definition never_starves {St A} (m : M St A) : Prop :=
  forall w, outcome_of (m w) <> OutOfFuel.

(* ================================================================== *)
(** ** The generators [generate_entities] does not call *)
(* ================================================================== *)

Record ConfluenceLabelEntity : Type := mkLabel {
  label_entity_id : string;
  label_breadcrumbs : list Breadcrumb;
  label_name : json;
  label_type : json;
  label_owner_id : json
}.

Record ConfluenceDatabaseEntity : Type := mkDatabase {
  database_entity_id : string;
  database_breadcrumbs : list Breadcrumb;
  database_content_id : string;
  database_title : option string;
  database_space_key : string;
  database_description : json;
  database_created_at : json;
  database_updated_at : json;
  database_status : json
}.

Record ConfluenceFolderEntity : Type := mkFolder {
  folder_entity_id : string;
  folder_breadcrumbs : list Breadcrumb;
  folder_content_id : string;
  folder_title : option string;
  folder_space_key : string;
  folder_created_at : json;
  folder_updated_at : json;
  folder_status : json
}.

Section OtherGenerators.

Import Py PyOps Http Validate.
Local Open Scope string_scope.
Local Open Scope conn_scope.

Variable env : Env.
Variable self : ConfluenceSource.

(** The pagination loop with the next-link put behind [base] instead of
    [self.base_url], as the label and database generators write it. *)
Definition next_url_on (base : string) (data : json) : res (option string) :=
  links <~ dict_get data "_links" (JObj []) ;;
  next_link <~ dict_get links "next" JNull ;;
  Ok (if truthy next_link then Some (base ++ fmt env next_link) else None).

Fixpoint paginate (base : string) (fuel : nat) (url : option string)
    (item : json -> M (W env) unit) {struct fuel} : M (W env) unit :=
  match url with
  | None => ret tt
  | Some u =>
      if u =? "" then ret tt
      else
        match fuel with
        | O => out_of_fuel
        | S fuel' =>
            data <- fetch env self u ;;
            results <- lift (dict_get data "results" (JArr [])) ;;
            items <- lift (iterate results) ;;
            for_each items item ;;
            next <- lift (next_url_on base data) ;;
            paginate base fuel' next item
        end
  end.

(** The source with another base URL and everything else unchanged. *)
Definition rebased (base : string) : ConfluenceSource :=
  mkSource (access_token self) (cloud_id self) base.

Definition placeholder_host : string := "https://your-domain.atlassian.net".

(** The [ConfluenceLabelEntity(...)] expression of lines 409-415. *)
Definition label_entity_of (label_obj : json) : res ConfluenceLabelEntity :=
  id <~ subscript label_obj "id" ;;
  name <~ dict_get label_obj "name" (JStr "") ;;
  type <~ dict_get label_obj "type" JNull ;;
  owner_id <~ dict_get label_obj "ownerId" JNull ;;
  entity_id <~ as_str id ;;
  Ok (mkLabel entity_id [] name type owner_id).

Definition labels_url : string := placeholder_host ++ "/wiki/api/v2/labels?limit=50".

Definition _generate_label_entities (fuel : nat)
    (consumer : ConfluenceLabelEntity -> M (W env) unit) : M (W env) unit :=
  paginate placeholder_host fuel (Some labels_url)
    (fun label_obj => e <- lift (label_entity_of label_obj) ;; consumer e).

(** The [ConfluenceDatabaseEntity(...)] expression of lines 430-440. *)
Definition database_entity_of (space_key : string) (space_breadcrumb : Breadcrumb)
    (database : json) : res ConfluenceDatabaseEntity :=
  id <~ subscript database "id" ;;
  title <~ dict_get database "title" JNull ;;
  description <~ dict_get database "description" JNull ;;
  created_at <~ dict_get database "createdAt" JNull ;;
  updated_at <~ dict_get database "updatedAt" JNull ;;
  status <~ dict_get database "status" JNull ;;
  entity_id <~ as_str id ;;
  title <~ as_opt_str title ;;
  Ok (mkDatabase entity_id [space_breadcrumb] entity_id title space_key description
        created_at updated_at status).

Definition databases_url (space_key : string) : string :=
  placeholder_host ++ "/wiki/api/v2/spaces/" ++ space_key ++ "/databases?limit=50".

Definition _generate_database_entities (fuel : nat) (space_key : string)
    (space_breadcrumb : Breadcrumb)
    (consumer : ConfluenceDatabaseEntity -> M (W env) unit) : M (W env) unit :=
  paginate placeholder_host fuel (Some (databases_url space_key))
    (fun database =>
       e <- lift (database_entity_of space_key space_breadcrumb database) ;; consumer e).

(** The [ConfluenceFolderEntity(...)] expression of lines 452-461; the
    record's [space_key] is the [space_id] the generator was given. *)
Definition folder_entity_of (space_id : string) (space_breadcrumb : Breadcrumb)
    (folder : json) : res ConfluenceFolderEntity :=
  id <~ subscript folder "id" ;;
  title <~ dict_get folder "title" JNull ;;
  created_at <~ dict_get folder "createdAt" JNull ;;
  updated_at <~ dict_get folder "updatedAt" JNull ;;
  status <~ dict_get folder "status" JNull ;;
  entity_id <~ as_str id ;;
  title <~ as_opt_str title ;;
  Ok (mkFolder entity_id [space_breadcrumb] entity_id title space_id created_at
        updated_at status).

Definition folders_url (space_id : string) : string :=
  base_url self ++ "/wiki/api/v2/spaces/" ++ space_id ++ "/content/folder?limit=50".

Definition _generate_folder_entities (fuel : nat) (space_id : string)
    (space_breadcrumb : Breadcrumb)
    (consumer : ConfluenceFolderEntity -> M (W env) unit) : M (W env) unit :=
  paginate (base_url self) fuel (Some (folders_url space_id))
    (fun folder =>
       e <- lift (folder_entity_of space_id space_breadcrumb folder) ;; consumer e).

End OtherGenerators.

(* ================================================================== *)
(** ** The API dependencies ([backend/airweave/api/deps.py]) *)
(* ================================================================== *)

(** The functions that FastAPI runs before an endpoint: who is calling,
    and on behalf of which organization.  The database layer ([crud]),
    the schema classes ([schemas.User], [AuthContext]), the settings and
    the token verifier of [airweave.api.auth] are not part of this file
    and are taken as collaborators.  Logging is left out. *)
Module Deps.

Import Py.

(** The exceptions that travel through the dependencies, all of them
    subclasses of [Exception]; a message is what [str(e)] gives.
    [ValueError] stands for the class and its subclasses, which the one
    handler that names it catches alike. *)
Inductive Exception : Type :=
| HTTPException (status : Z) (detail : string)
| NotFoundException (msg : string)
| ValueError (msg : string)
| AttributeError
| OtherException (tag : string).

Inductive Outcome (A : Type) : Type :=
| Val (a : A)
| Exc (e : Exception).

Arguments Val {A} a.
Arguments Exc {A} e.

(** [schemas.User] as far as the dependencies read it.  An id is kept as
    the text [str] gives for it; [user_organizations] lists
    [str(org.organization.id)] for each membership, in order. *)
Record User : Type := mkUser {
  user_email : string;
  primary_organization_id : option string;
  user_organizations : list string
}.

Record Auth0User : Type := mkAuth0User {
  auth0_id : string;
  auth0_email : string
}.

(** What [crud.api_key.get_by_key] returns: [str(obj.id)],
    [obj.created_by_email] and [str(obj.organization_id)]. *)
Record ApiKey : Type := mkApiKey {
  api_key_id : string;
  created_by_email : json;
  api_key_organization_id : string
}.

Definition dict := list (string * json).

(** The keyword arguments of [AuthContext(...)]. *)
Record AuthContextArgs : Type := mkArgs {
  organization_id : json;
  user : option User;
  auth_method : string;
  auth_metadata : dict
}.

(** The calls made to the collaborators that read the outside world. *)
Inductive Call : Type :=
| UserByEmail (email : string)
| ApiKeyByKey (key : string)
| TokenUser (token : string).

Record Env : Type := mkEnv {
  (** the database behind the session *)
  DB : Type;
  (** a row of the user table, as [crud.user] returns it *)
  UserRow : Type;
  (** what [AuthContext(...)] constructs *)
  AuthContext : Type;
  AUTH_ENABLED : bool;
  FIRST_SUPERUSER : string;
  (** [crud.user.get_by_email(db, email=...)] *)
  user_get_by_email : string -> DB -> Outcome (option UserRow) * DB;
  (** [crud.api_key.get_by_key(db, key=...)] *)
  api_key_get_by_key : string -> DB -> Outcome ApiKey * DB;
  (** [schemas.User.model_validate(user)] *)
  model_validate : option UserRow -> Outcome User;
  (** [airweave.api.auth.get_user_from_token(token)] *)
  auth_get_user : string -> DB -> Outcome (option Auth0User) * DB;
  (** [AuthContext(organization_id=..., user=..., ...)] *)
  make_auth_context : AuthContextArgs -> Outcome AuthContext;
  (** [str(v)] for a value that is not a string *)
  format_value : json -> string
}.

Section Monad.

Variable St : Type.

Definition D (A : Type) : Type := St -> list Call * St * Outcome A.

Definition ret {A} (a : A) : D A := fun db => ([], db, Val a).

Definition bind {A B} (m : D A) (k : A -> D B) : D B :=
  fun db =>
    match m db with
    | (t, db1, Val a) => let '(t2, db2, r) := k a db1 in (t ++ t2, db2, r)
    | (t, db1, Exc e) => (t, db1, Exc e)
    end.

Definition raise {A} (e : Exception) : D A := fun db => ([], db, Exc e).

Definition lift {A} (r : Outcome A) : D A := fun db => ([], db, r).

(** [try: m  except ...: handler e]; the handler re-raises what its
    [except] clause does not name. *)
Definition try_except {A} (m : D A) (handler : Exception -> D A) : D A :=
  fun db =>
    match m db with
    | (t, db1, Exc e) => let '(t2, db2, r) := handler e db1 in (t ++ t2, db2, r)
    | other => other
    end.

(** [runs m db t db1 r]: started on [db], [m] makes the calls [t], leaves
    [db1] and ends in [r]. *)
Definition runs {A} (m : D A) (db : St) (t : list Call) (db1 : St) (r : Outcome A)
    : Prop :=
  m db = (t, db1, r).

Definition calls_of {A} (x : list Call * St * Outcome A) : list Call := fst (fst x).
Definition db_of {A} (x : list Call * St * Outcome A) : St := snd (fst x).
Definition result_of {A} (x : list Call * St * Outcome A) : Outcome A := snd x.

End Monad.

Arguments ret {St A} a.
Arguments bind {St A B} m k.
Arguments raise {St A} e.
Arguments lift {St A} r.
Arguments try_except {St A} m handler.
Arguments runs {St A} m db t db1 r.
Arguments calls_of {St A} x.
Arguments db_of {St A} x.
Arguments result_of {St A} x.

Declare Scope deps_scope.
Delimit Scope deps_scope with deps.
Notation "x <- m ;; k" := (bind m (fun x => k))
  (at level 61, m at next level, right associativity) : deps_scope.
Notation "m ;; k" := (bind m (fun _ => k))
  (at level 61, right associativity) : deps_scope.

Section Functions.

Local Open Scope string_scope.
Local Open Scope deps_scope.

Variable env : Env.

#[local] Abbreviation Dep := (D (DB env)).

(** What an authentication function returns:
    [(user_context, auth_method, auth_metadata)]. *)
Definition Identity : Type := option User * string * dict.

Definition get_by_email (email : string) : Dep (option (UserRow env)) :=
  fun db =>
    let '(r, db1) := user_get_by_email env email db in ([UserByEmail email], db1, r).

Definition get_by_key (key : string) : Dep ApiKey :=
  fun db =>
    let '(r, db1) := api_key_get_by_key env key db in ([ApiKeyByKey key], db1, r).

Definition auth_get_user_call (token : string) : Dep (option Auth0User) :=
  fun db =>
    let '(r, db1) := auth_get_user env token db in ([TokenUser token], db1, r).

(** [auth0_user.email] and [auth0_user.id] on a value that may be
    [None]. *)
Definition attr {A} (field : Auth0User -> A) (o : option Auth0User) : Outcome A :=
  match o with
  | Some a => Val (field a)
  | None => Exc AttributeError
  end.

(** [if x] on an optional string *)
Definition truthy_str (o : option string) : bool :=
  match o with
  | Some s => negb (s =? "")
  | None => false
  end.

(** [str(v)] inside an f-string *)
Definition fmt (v : json) : string :=
  match v with
  | JStr s => s
  | _ => format_value env v
  end.

(** [v == s] for a string [s] *)
Definition eq_str (v : json) (s : string) : bool :=
  match v with
  | JStr s' => s' =? s
  | _ => false
  end.

(** [v in l] on a list of strings *)
Definition mem_str (v : json) (l : list string) : bool := existsb (eq_str v) l.

Definition _authenticate_system_user : Dep Identity :=
  user <- get_by_email (FIRST_SUPERUSER env) ;;
  match user with
  | Some _ =>
      user_context <- lift (model_validate env user) ;;
      ret (Some user_context, "system", [("disabled_auth", JBool true)])
  | None => ret (None, "", [])
  end.

(** The [try] block gives [Some user]; the handler, which returns from
    the function, gives [None]. *)
Definition _authenticate_auth0_user (auth0_user : option Auth0User) : Dep Identity :=
  found <- try_except
             (email <- lift (attr auth0_email auth0_user) ;;
              user <- get_by_email email ;;
              ret (Some user))
             (fun e =>
                match e with
                | NotFoundException _ => ret None
                | _ => raise e
                end) ;;
  match found with
  | None => ret (None, "", [])
  | Some user =>
      user_context <- lift (model_validate env user) ;;
      id <- lift (attr auth0_id auth0_user) ;;
      ret (Some user_context, "auth0", [("auth0_id", JStr id)])
  end.

Definition _authenticate_api_key (api_key : string) : Dep Identity :=
  try_except
    (api_key_obj <- get_by_key api_key ;;
     ret (None, "api_key",
          [("api_key_id", JStr (api_key_id api_key_obj));
           ("created_by", created_by_email api_key_obj);
           ("organization_id", JStr (api_key_organization_id api_key_obj))]))
    (fun e =>
       match e with
       | ValueError msg | NotFoundException msg =>
           if contains "expired" msg
           then raise (HTTPException 403 "API key has expired")
           else raise (HTTPException 403 "Invalid or expired API key")
       | _ => raise e
       end).

Definition organization_required : Exception :=
  HTTPException 400 "Organization context required (X-Organization-ID header missing)".

(** [d.get(k)] on a dict *)
Definition dict_get (d : dict) (k : string) : json :=
  match lookup k d with
  | Some v => v
  | None => JNull
  end.

Definition _resolve_organization_id (x_organization_id : option string)
    (user_context : option User) (auth_method : string) (auth_metadata : dict)
    : Outcome json :=
  let fallback :=
    match user_context, (auth_method =? "system") || (auth_method =? "auth0") with
    | Some user_context, true =>
        match primary_organization_id user_context with
        | Some id => Val (JStr id)
        | None => Exc organization_required
        end
    | _, _ =>
        if auth_method =? "api_key" then Val (dict_get auth_metadata "organization_id")
        else Exc organization_required
    end in
  match x_organization_id with
  | Some x => if x =? "" then fallback else Val (JStr x)
  | None => fallback
  end.

Definition _validate_organization_access (organization_id : json)
    (user_context : option User) (auth_method : string) (x_api_key : option string)
    : Dep unit :=
  match user_context, (auth_method =? "auth0") || (auth_method =? "system") with
  | Some user_context, true =>
      let user_org_ids := user_organizations user_context in
      if negb (mem_str organization_id user_org_ids) then
        raise (HTTPException 403
                 ("User does not have access to organization " ++ fmt organization_id))
      else ret tt
  | _, _ =>
      match x_api_key, auth_method =? "api_key" with
      | Some key, true =>
          if key =? "" then ret tt
          else
            api_key_obj <- get_by_key key ;;
            if negb (eq_str organization_id (api_key_organization_id api_key_obj)) then
              raise (HTTPException 403
                       ("API key does not have access to organization "
                        ++ fmt organization_id))
            else ret tt
      | _, _ => ret tt
      end
  end.

Definition get_auth_context (x_api_key x_organization_id : option string)
    (auth0_user : option Auth0User) : Dep (AuthContext env) :=
  identity <-
    (if negb (AUTH_ENABLED env) then _authenticate_system_user
     else
       match auth0_user with
       | Some _ => _authenticate_auth0_user auth0_user
       | None =>
           match x_api_key with
           | Some key =>
               if key =? "" then ret (None, "", []) else _authenticate_api_key key
           | None => ret (None, "", [])
           end
       end) ;;
  let '(user_context, auth_method, auth_metadata) := identity in
  if auth_method =? "" then
    raise (HTTPException 401 "No valid authentication provided")
  else
    organization_id <-
      lift (_resolve_organization_id x_organization_id user_context auth_method
              auth_metadata) ;;
    _validate_organization_access organization_id user_context auth_method x_api_key ;;
    lift (make_auth_context env
            (mkArgs organization_id user_context auth_method auth_metadata)).

Definition get_user (auth0_user : option Auth0User) : Dep User :=
  identity <-
    (if negb (AUTH_ENABLED env) then _authenticate_system_user
     else _authenticate_auth0_user auth0_user) ;;
  let '(user, _, _) := identity in
  match user with
  | None => raise (HTTPException 401 "User not found")
  | Some user => ret user
  end.

(** [token[n:]] *)
Fixpoint slice_from (n : nat) (token : string) : string :=
  match n, token with
  | S n', String _ rest => slice_from n' rest
  | _, _ => token
  end.

Definition get_user_from_token (token : string) : Dep (option User) :=
  try_except
    (let token := if String.prefix "Bearer " token then slice_from 7 token else token in
     if negb (AUTH_ENABLED env) then
       user <- get_by_email (FIRST_SUPERUSER env) ;;
       match user with
       | Some _ => user <- lift (model_validate env user) ;; ret (Some user)
       | None => ret None
       end
     else
       auth0_user <- auth_get_user_call token ;;
       match auth0_user with
       | None => ret None
       | Some auth0_user =>
           user <- get_by_email (auth0_email auth0_user) ;;
           match user with
           | None => raise (HTTPException 401 "User not found")
           | Some _ => user <- lift (model_validate env user) ;; ret (Some user)
           end
       end)
    (fun _ => ret None).

End Functions.

End Deps.

(* ------------------------------------------------------------------ *)
(** ** A small deployment for the examples *)
(* ------------------------------------------------------------------ *)

Module DepsDemo.

Import Deps.
Local Open Scope string_scope.

Definition ada : User := mkUser "ada@example.com" (Some "org-1") ["org-1"; "org-2"].

Definition ada_auth0 : Auth0User := mkAuth0User "auth0|ada" "ada@example.com".

Definition key_1 : ApiKey := mkApiKey "key-id-1" (JStr "ada@example.com") "org-1".

(** The database is the list of the uses that are left of each API key;
    a lookup of a key takes one of its uses, and a key without a use left
    is not found.  Rows of the user table are users. *)
Fixpoint take_use (key : string) (db : list string) : option (list string) :=
  match db with
  | [] => None
  | k :: rest =>
      if k =? key then Some rest
      else match take_use key rest with
           | Some rest' => Some (k :: rest')
           | None => None
           end
  end.

Definition lookup_key (key : string) (db : list string)
    : Outcome ApiKey * list string :=
  match take_use key db with
  | Some db1 => (Val key_1, db1)
  | None => (Exc (NotFoundException "API key not found"), db)
  end.

Definition lookup_user (email : string) (db : list string)
    : Outcome (option User) * list string :=
  if email =? "ada@example.com" then (Val (Some ada), db)
  else if email =? "root@example.com" then (Val None, db)
  else (Exc (NotFoundException "User not found"), db).

Definition verify (token : string) (db : list string)
    : Outcome (option Auth0User) * list string :=
  if token =? "good" then (Val (Some ada_auth0), db) else (Val None, db).

Definition validate (row : option User) : Outcome User :=
  match row with
  | Some u => Val u
  | None => Exc (ValueError "validation error")
  end.

Definition deployment (auth_enabled : bool) (superuser : string) : Env :=
  mkEnv (list string) User AuthContextArgs auth_enabled superuser
    lookup_user lookup_key validate verify (fun a => Val a) (fun _ => "?").

(** Authentication enabled; the superuser plays no part. *)
Definition enabled : Env := deployment true "root@example.com".

(** Authentication disabled, with a superuser that is in the database. *)
Definition disabled : Env := deployment false "ada@example.com".

Definition ada_context : AuthContextArgs :=
  mkArgs (JStr "org-1") (Some ada) "auth0" [("auth0_id", JStr "auth0|ada")].

Definition key_context : AuthContextArgs :=
  mkArgs (JStr "org-1") None "api_key"
    [("api_key_id", JStr "key-id-1"); ("created_by", JStr "ada@example.com");
     ("organization_id", JStr "org-1")].

End DepsDemo.

(* ================================================================== *)
(** * Properties *)
(* ================================================================== *)

(* ------------------------------------------------------------------ *)
(** ** The stream adapter *)
(* ------------------------------------------------------------------ *)

Section WrapperFacts.

Import AsyncIteratorWrapper.

Variables (I T : Type) (next : I -> Step T * I).

Lemma anext_consumed (self : t I) :
  _consumed self = true -> __anext__ I T next self = (StopAsyncIteration, self).
Proof. intros H. unfold __anext__. rewrite H. reflexivity. Qed.

Lemma anext_stop_sets_consumed (self self' : t I) :
  __anext__ I T next self = (StopAsyncIteration, self') -> _consumed self' = true.
Proof.
  unfold __anext__. destruct (_consumed self) eqn:Hc.
  - intros H. inversion H. subst. exact Hc.
  - destruct (next (sync_iter self)) as [[x| |e] it]; intros H; inversion H.
    reflexivity.
Qed.

Lemma reads_consumed (k : nat) (self : t I) :
  _consumed self = true ->
  reads I T next k self = (repeat StopAsyncIteration k, self).
Proof.
  intros Hc. induction k as [|k IH]; simpl.
  - reflexivity.
  - rewrite (anext_consumed self Hc), IH. reflexivity.
Qed.

(** C8.  Single consumption: whatever the wrapped iterator is, once a
    read of the wrapper has reported end-of-stream, each of any number of
    further reads reports end-of-stream again; none of them returns an
    item, and none touches the wrapped iterator (the state of the wrapper
    stays as it was), so none can block on it. *)
Theorem wrapper_end_of_stream_is_final (self self' : t I) :
  __anext__ I T next self = (StopAsyncIteration, self') ->
  forall k, reads I T next k self' = (repeat StopAsyncIteration k, self').
Proof.
  intros H k. apply reads_consumed. exact (anext_stop_sets_consumed self self' H).
Qed.

End WrapperFacts.

Lemma wrapper_end_of_stream_is_final_witness :
  AsyncIteratorWrapper.reads (list string) string AsyncIteratorWrapper.list_next 3
    (AsyncIteratorWrapper.mk [] true)
  = (repeat AsyncIteratorWrapper.StopAsyncIteration 3, AsyncIteratorWrapper.mk [] true).
Proof.
  apply (wrapper_end_of_stream_is_final (list string) string
           AsyncIteratorWrapper.list_next (AsyncIteratorWrapper.mk [] false)).
  reflexivity.
Defined.

(** The stream of a page: one chunk, then end-of-stream for good. *)
Example page_stream_reads :
  fst (AsyncIteratorWrapper.reads (list string) string AsyncIteratorWrapper.list_next 4
         (AsyncIteratorWrapper.__init__ ["<html/>"%string]))
  = [AsyncIteratorWrapper.Got "<html/>"%string;
     AsyncIteratorWrapper.StopAsyncIteration;
     AsyncIteratorWrapper.StopAsyncIteration;
     AsyncIteratorWrapper.StopAsyncIteration].
Proof. reflexivity. Qed.

(* ------------------------------------------------------------------ *)
(** ** The authenticated GET *)
(* ------------------------------------------------------------------ *)

Section AuthFacts.

Import Py PyOps Http.
Local Open Scope string_scope.

Variable env : Env.
Variable self : ConfluenceSource.

(** When [client.get] hands back a response, whatever its status, the
    [except] branch is not entered: one request, no refresh. *)
Lemma get_with_auth_returned (url : string) (w w1 : W env) (r : Response) :
  client_get env url (auth_headers self (current_token env w)) w = (Returned r, w1) ->
  _get_with_auth env self url w
  = ([EvGet url (auth_headers self (current_token env w))], w1, check_response env r).
Proof.
  intros H. unfold _get_with_auth, bind, get_access_token, try_except, request.
  rewrite H. unfold lift. destruct (check_response env r); reflexivity.
Qed.

Lemma scope_check_raises (r : Response) (m : string) :
  body_message r = Some m ->
  contains "scope" (lower m) || scope_in_header r = true ->
  scope_check env r = Raise (ValueError ("OAuth scope error: " ++ m ++ ".")).
Proof.
  unfold body_message, scope_check, scope_in_header, response_json.
  destruct (text r =? "") eqn:Ht; simpl.
  - intros Hm. inversion Hm; subst m. simpl. intros ->. reflexivity.
  - destruct (decoded r) as [[| | | |l|f]|]; try discriminate.
    simpl. destruct (lookup "message" f) as [[| | |s| |]|]; try discriminate.
    + intros Hm; inversion Hm; subst. simpl. intros ->. reflexivity.
    + intros Hm; inversion Hm; subst. simpl. intros ->. reflexivity.
Qed.

(** What the [except] branch does when [client.get] itself raises
    [HTTPStatusError] for a 401 and a token manager is present: one
    refresh, and after a successful refresh one more request, with the
    new token, whose failure is final. *)
Lemma get_with_auth_raised_401 (url : string) (w w1 w2 : W env) (r : Response)
    (refresh : W env -> bool * W env) (refreshed : bool) :
  client_get env url (auth_headers self (current_token env w)) w
  = (Raised (HTTPStatusError r), w1) ->
  status_code r = 401%Z ->
  token_manager env = Some refresh ->
  refresh w1 = (refreshed, w2) ->
  _get_with_auth env self url w
  = if refreshed then
      let h2 := set_header (auth_headers self (current_token env w)) "Authorization"
                  (JStr ("Bearer " ++ current_token env w2)) in
      match client_get env url h2 w2 with
      | (Returned r2, w3) =>
          ([EvGet url (auth_headers self (current_token env w)); EvRefresh; EvGet url h2],
           w3, check_response env r2)
      | (Raised e2, w3) =>
          ([EvGet url (auth_headers self (current_token env w)); EvRefresh; EvGet url h2],
           w3, Raise e2)
      end
    else
      ([EvGet url (auth_headers self (current_token env w)); EvRefresh], w2,
       Raise (HTTPStatusError r)).
Proof.
  intros H H401 Htm Hr.
  unfold _get_with_auth, bind, get_access_token, try_except, request.
  rewrite H. simpl. rewrite H401, Htm. simpl.
  unfold bind, refresh_on_unauthorized. rewrite Hr.
  destruct refreshed; simpl.
  - destruct (client_get env url _ w2) as [[r2|e2] w3]; simpl.
    + unfold lift. destruct (check_response env r2); reflexivity.
    + reflexivity.
  - reflexivity.
Qed.

(** Where the scope test does its work.  When the request returns
    a 401 response whose body is empty or a JSON object with no [message]
    or a textual one, and the response carries a scope indicator (the
    word scope in that message, or SCOPE in the [x-failure-category]
    header), [_get_with_auth] raises the scope error at once: the trace
    holds the one request and no refresh. *)
Theorem scope_401_fails_without_refresh (url : string) (w w1 : W env)
    (r : Response) (m : string) :
  client_get env url (auth_headers self (current_token env w)) w = (Returned r, w1) ->
  status_code r = 401%Z ->
  body_message r = Some m ->
  carries_scope_indicator r ->
  exists t,
    _get_with_auth env self url w
    = (t, w1, Raise (ValueError ("OAuth scope error: " ++ m ++ "."))) /\
    count_refresh t = 0 /\
    requests t = [(url, auth_headers self (current_token env w))].
Proof.
  intros Hget H401 Hm Hind.
  exists [EvGet url (auth_headers self (current_token env w))].
  split; [|split; reflexivity].
  rewrite (get_with_auth_returned url w w1 r Hget).
  unfold check_response, is_success. rewrite H401. simpl.
  rewrite (scope_check_raises r m Hm); [reflexivity|].
  destruct Hind as [[m' [Hm' Hc]]|Hh].
  - rewrite Hm in Hm'. inversion Hm'; subst. rewrite Hc. reflexivity.
  - rewrite Hh. apply orb_true_r.
Qed.

End AuthFacts.

Section AuthExamples.

Import Http.
Local Open Scope string_scope.

Lemma scope_401_fails_without_refresh_witness :
  exists t,
    _get_with_auth Mock.scripted Mock.source "u"
      ([Returned Mock.scope_in_message], "old")
    = (t, ([], "old"),
       Raise (ValueError
                ("OAuth scope error: " ++ "Unauthorized; scope does not match" ++ "."))) /\
    count_refresh t = 0 /\
    requests t = [("u", auth_headers Mock.source "old")].
Proof.
  apply (scope_401_fails_without_refresh Mock.scripted Mock.source "u"
           ([Returned Mock.scope_in_message], "old") ([], "old")
           Mock.scope_in_message "Unauthorized; scope does not match").
  - reflexivity.
  - reflexivity.
  - reflexivity.
  - left. exists "Unauthorized; scope does not match". split; reflexivity.
Defined.

(** C2, at the failing input.  This 401 carries the scope-failure header
    that the scope test looks for, and the [message] of its body is null:
    lower-casing the message raises [AttributeError] before the header is
    looked at, so the run ends in that exception and not in the scope
    error (still after the one request and without a refresh). *)
Theorem scope_header_with_null_message :
  status_code Mock.scope_header_null_message = 401%Z /\
  carries_scope_indicator Mock.scope_header_null_message /\
  _get_with_auth Mock.scripted Mock.source "u"
    ([Returned Mock.scope_header_null_message], "old")
  = ([EvGet "u" (auth_headers Mock.source "old")], ([], "old"), Raise AttributeError).
Proof.
  split; [reflexivity|]. split; [right; reflexivity|]. vm_compute. reflexivity.
Qed.

Lemma unauthorized_has_no_scope_indicator : ~ carries_scope_indicator Mock.unauthorized.
Proof.
  intros [[m [Hm Hc]]|H].
  - vm_compute in Hm. inversion Hm; subst. vm_compute in Hc. discriminate.
  - vm_compute in H. discriminate.
Qed.

(** C1, at the failing input.  The request returns a plain 401 (no scope
    indicator); the source has a token manager whose refresh would
    succeed, and the next request would be answered with 200.  The run
    makes the one request, never calls the refresh, never retries, and
    ends in [HTTPStatusError]. *)
Theorem returned_401_is_not_refreshed :
  exists t,
    _get_with_auth Mock.scripted Mock.source "u" ([Returned Mock.unauthorized], "old")
    = (t, ([], "old"), Raise (HTTPStatusError Mock.unauthorized))
    /\ count_refresh t = 0
    /\ requests t = [("u", auth_headers Mock.source "old")].
Proof.
  eexists. split; [vm_compute; reflexivity|]. split; reflexivity.
Qed.

(** The same world when [client.get] raises the 401 instead of returning
    it: one refresh, one retry with the new token, and success. *)
Example raised_401_is_refreshed_once :
  _get_with_auth Mock.scripted Mock.source "u"
    ([Raised (HTTPStatusError Mock.unauthorized)], "old")
  = ([EvGet "u" (auth_headers Mock.source "old");
      EvRefresh;
      EvGet "u" (auth_headers Mock.source "new")],
     ([], "new"), Ok (JObj [])).
Proof. vm_compute. reflexivity. Qed.

End AuthExamples.

(* ------------------------------------------------------------------ *)
(** ** The constructor *)
(* ------------------------------------------------------------------ *)

Section CreateFacts.

Import Py PyOps Http.
Local Open Scope string_scope.

Variable env : Env.

Lemma get_accessible_resources_eq (tok : string) (w : W env) :
  _get_accessible_resources env tok w
  = match client_get env accessible_resources_url (preflight_headers tok) w with
    | (Returned r, w1) =>
        ([EvGet accessible_resources_url (preflight_headers tok)], w1,
         Ok (if is_success r
             then match decoded r with Some j => j | None => JArr [] end
             else JArr []))
    | (Raised e, w1) =>
        ([EvGet accessible_resources_url (preflight_headers tok)], w1, Ok (JArr []))
    end.
Proof.
  unfold _get_accessible_resources, try_except, bind, request.
  destruct (client_get env accessible_resources_url (preflight_headers tok) w)
    as [[r|e] w1]; simpl; [|reflexivity].
  unfold lift, raise_for_status, response_json.
  destruct (is_success r); simpl; [|reflexivity].
  destruct (decoded r); reflexivity.
Qed.

Lemma extract_cloud_id_total (tok : string) (w : W env) :
  exists t w1 c, _extract_cloud_id env tok w = (t, w1, Ok c).
Proof.
  unfold _extract_cloud_id, try_except, bind.
  rewrite get_accessible_resources_eq.
  destruct (client_get env accessible_resources_url (preflight_headers tok) w)
    as [[r|e] w1] eqn:Hget.
  - set (j := if is_success r then match decoded r with Some j => j | None => JArr [] end
              else JArr []).
    clearbody j. destruct (truthy j) eqn:Ht; simpl.
    + unfold lift. destruct (first_item j) as [x|e|] eqn:Hfirst; simpl.
      * destruct (dict_get x "id" (JStr "")) as [c|e|] eqn:Hc; simpl.
        -- do 3 eexists. reflexivity.
        -- do 3 eexists. reflexivity.
        -- destruct x; discriminate.
      * do 3 eexists. reflexivity.
      * destruct j as [| | |[|]|[|]|]; discriminate.
    + do 3 eexists. reflexivity.
  - simpl. do 3 eexists. reflexivity.
Qed.

(** [create] never raises: in every world it returns an instance, whose
    base URL is the Confluence prefix followed by what [str] makes of the
    cloud id. *)
Lemma create_always_returns (tok : string) (w : W env) :
  exists t w1 instance,
    create env tok w = (t, w1, Ok instance) /\
    access_token instance = tok /\
    base_url instance = confluence_prefix ++ fmt env (cloud_id instance).
Proof.
  destruct (extract_cloud_id_total tok w) as [t [w1 [c Hrun]]].
  unfold create, bind. rewrite Hrun. simpl.
  do 3 eexists. split; [reflexivity|]. simpl. split; reflexivity.
Qed.

End CreateFacts.

(** C10, at the failing input.  The pre-flight request is answered by a
    200 response whose first resource has a null [id].  [create] does not
    raise, but the cloud id of the instance is [None], not the empty
    string, and its base URL ends in [None].  For comparison: when the
    request fails, and when the first resource has no [id] at all, the
    cloud id is the empty string and the base URL the bare prefix. *)
Theorem create_with_null_id :
  create Mock.scripted_str "tok"
    ([Http.Returned
        (Mock.ok_response
           (JArr [JObj [("id", JNull); ("url", JStr "https://x.atlassian.net")]]))],
     "tok"%string)
  = ([EvGet accessible_resources_url (preflight_headers "tok")], ([], "tok"%string),
     Ok (mkSource "tok" JNull "https://api.atlassian.com/ex/confluence/None")) /\
  create Mock.scripted_str "tok"
    ([Http.Returned
        (Mock.ok_response (JArr [JObj [("url", JStr "https://x.atlassian.net")]]))],
     "tok"%string)
  = ([EvGet accessible_resources_url (preflight_headers "tok")], ([], "tok"%string),
     Ok (mkSource "tok" (JStr "") "https://api.atlassian.com/ex/confluence/")) /\
  create Mock.scripted_str "tok"
    ([Http.Raised (OtherError "ConnectError")], "tok"%string)
  = ([EvGet accessible_resources_url (preflight_headers "tok")], ([], "tok"%string),
     Ok (mkSource "tok" (JStr "") "https://api.atlassian.com/ex/confluence/")).
Proof.
  split; [|split]; vm_compute; reflexivity.
Qed.

(* ------------------------------------------------------------------ *)
(** ** The shape of the yielded sequence *)
(* ------------------------------------------------------------------ *)

Section SatRules.
Variable St : Type.
Implicit Types L : list Entity -> Prop.

Lemma yields_app (t1 t2 : Trace) : yields (t1 ++ t2) = yields t1 ++ yields t2.
Proof.
  induction t1 as [|ev t1 IH]; simpl; [reflexivity|].
  destruct ev; simpl; rewrite IH; reflexivity.
Qed.


Lemma sat_weaken {A} (m : M St A) L L' (R R' : A -> Prop) :
  sat m L R -> (forall x, L x -> L' x) -> (forall a, R a -> R' a) -> sat m L' R'.
Proof.
  intros H HL HR w. destruct (H w) as [H1 H2]. split; [auto|].
  destruct (outcome_of (m w)); auto.
Qed.

Lemma sat_ret {A} (a : A) L (R : A -> Prop) : L [] -> R a -> sat (@ret St A a) L R.
Proof. intros H1 H2 w. split; assumption. Qed.

Lemma sat_lift {A} (r : res A) L (R : A -> Prop) :
  L [] -> (forall a, r = Ok a -> R a) -> sat (@lift St A r) L R.
Proof.
  intros H1 H2 w. split; [assumption|]. unfold lift, outcome_of; simpl.
  destruct r; auto.
Qed.

Lemma sat_bind {A B} (m : M St A) (k : A -> M St B) L1 L2 L (R1 : A -> Prop)
    (R2 : B -> Prop) :
  sat m L1 R1 ->
  (forall a, R1 a -> sat (k a) L2 R2) ->
  L2 [] ->
  (forall x y, L1 x -> L2 y -> L (x ++ y)) ->
  sat (bind m k) L R2.
Proof.
  intros Hm Hk H0 Happ w. specialize (Hm w). unfold bind.
  destruct (m w) as [[t w1] [a|e|]]; unfold trace_of, outcome_of in *; simpl in *;
    destruct Hm as [HL HR].
  - specialize (Hk a HR w1). destruct (k a w1) as [[t2 w2] r]; simpl in *.
    destruct Hk as [HL2 HR2]. rewrite yields_app. split; auto.
  - split; [|exact I]. rewrite <- (app_nil_r (yields t)). auto.
  - split; [|exact I]. rewrite <- (app_nil_r (yields t)). auto.
Qed.

Lemma sat_seq {A B} (m : M St A) (k : A -> M St B) L (R1 : A -> Prop) (R2 : B -> Prop) :
  monoid L -> sat m L R1 -> (forall a, R1 a -> sat (k a) L R2) -> sat (bind m k) L R2.
Proof.
  intros [H0 Happ] Hm Hk. eapply sat_bind; eauto.
Qed.

Lemma sat_for_each {A} (xs : list A) (body : A -> M St unit) L :
  monoid L -> (forall x, sat (body x) L (fun _ => True)) ->
  sat (for_each xs body) L (fun _ => True).
Proof.
  intros HL Hb. induction xs as [|x xs IH]; simpl.
  - apply sat_ret; [apply HL|exact I].
  - eapply sat_seq; eauto.
Qed.

Lemma sat_emit_yield (e : Entity) L : L [e] -> sat (@emit St (EvYield e)) L (fun _ => True).
Proof. intros H w. split; [exact H|exact I]. Qed.

Lemma sat_out_of_fuel {A} L (R : A -> Prop) : L [] -> sat (@out_of_fuel St A) L R.
Proof. intros H w. split; [exact H|exact I]. Qed.
End SatRules.

Section QuietRules.
Variable St : Type.

Lemma observe_app {X} (obs : Event -> list X) (t1 t2 : Trace) :
  observe obs (t1 ++ t2) = observe obs t1 ++ observe obs t2.
Proof. unfold observe. apply flat_map_app. Qed.

Lemma yields_observe (t : Trace) : yields t = observe obs_yield t.
Proof.
  induction t as [|ev t IH]; simpl; [reflexivity|].
  destruct ev; simpl; rewrite IH; reflexivity.
Qed.

Lemma requests_observe (t : Trace) : map fst (requests t) = observe obs_url t.
Proof.
  induction t as [|ev t IH]; simpl; [reflexivity|].
  destruct ev; simpl; rewrite IH; reflexivity.
Qed.

Variable X : Type.
Variable obs : Event -> list X.

Lemma quiet_ret {A} (a : A) : quiet obs (@ret St A a).
Proof. intros w. reflexivity. Qed.

Lemma quiet_raise {A} (e : exc) : quiet obs (@raise St A e).
Proof. intros w. reflexivity. Qed.

Lemma quiet_lift {A} (r : res A) : quiet obs (@lift St A r).
Proof. intros w. reflexivity. Qed.

Lemma quiet_bind {A B} (m : M St A) (k : A -> M St B) :
  quiet obs m -> (forall a, quiet obs (k a)) -> quiet obs (bind m k).
Proof.
  intros Hm Hk w. specialize (Hm w). unfold bind, trace_of in *.
  destruct (m w) as [[t w1] [a|e|]]; simpl in *; try assumption.
  specialize (Hk a w1). unfold trace_of in Hk.
  destruct (k a w1) as [[t2 w2] r]; simpl in *.
  rewrite observe_app, Hm, Hk. reflexivity.
Qed.

Lemma quiet_try_except {A} (m : M St A) (h : exc -> M St A) :
  quiet obs m -> (forall e, quiet obs (h e)) -> quiet obs (try_except m h).
Proof.
  intros Hm Hh w. specialize (Hm w). unfold try_except, trace_of in *.
  destruct (m w) as [[t w1] [a|e|]]; simpl in *; try assumption.
  specialize (Hh e w1). unfold trace_of in Hh.
  destruct (h e w1) as [[t2 w2] r]; simpl in *.
  rewrite observe_app, Hm, Hh. reflexivity.
Qed.

End QuietRules.

Lemma sat_silent {St A} (m : M St A) (L : list Entity -> Prop) :
  quiet obs_yield m -> L [] -> sat m L (fun _ => True).
Proof.
  intros Hm H0 w. rewrite yields_observe, (Hm w). split; [exact H0|].
  destruct (outcome_of (m w)); exact I.
Qed.

Section TraversalShape.
Import Py PyOps Http Validate.
Local Open Scope string_scope.
Variable env : Env.
Variable self : ConfluenceSource.

Section Quiet.
Variable X : Type.
Variable obs : Event -> list X.
Hypothesis obs_get : forall u h, obs (EvGet u h) = [].
Hypothesis obs_refresh : obs EvRefresh = [].

Lemma quiet_request (url : string) (h : RequestHeaders) : quiet obs (request env url h).
Proof.
  intros w. unfold request, trace_of.
  destruct (client_get env url h w) as [[r|e] w1]; simpl; rewrite obs_get; reflexivity.
Qed.

Lemma quiet_get_with_auth (url : string) : quiet obs (_get_with_auth env self url).
Proof.
  unfold _get_with_auth. apply quiet_bind; [intros w; reflexivity|]. intros tok.
  apply quiet_bind; [|intros r; apply quiet_lift].
  apply quiet_try_except; [apply quiet_request|].
  intros [r| | | | | | |]; try apply quiet_raise.
  destruct (status_code r =? 401)%Z; [|apply quiet_raise].
  destruct (token_manager env) as [refresh|]; [|apply quiet_raise].
  apply quiet_bind.
  - intros w. unfold refresh_on_unauthorized, trace_of.
    destruct (refresh w); simpl. rewrite obs_refresh. reflexivity.
  - intros [|]; [|apply quiet_raise].
    apply quiet_bind; [intros w; reflexivity|]. intros tok2. apply quiet_request.
Qed.

End Quiet.

Lemma silent_fetch (url : string) : quiet obs_yield (fetch env self url).
Proof.
  intros w.
  pose proof (quiet_get_with_auth Entity obs_yield (fun _ _ => eq_refl) eq_refl url w) as H.
  unfold fetch, trace_of in *.
  destruct (_get_with_auth env self url w) as [[t w1] [a|e|]]; simpl in *; try assumption.
  rewrite observe_app, H. reflexivity.
Qed.

Lemma sat_while_url (L : list Entity -> Prop) (item : json -> M (W env) unit) :
  monoid L ->
  (forall x, sat (item x) L (fun _ => True)) ->
  forall fuel url, sat (while_url env self fuel url item) L (fun _ => True).
Proof.
  intros HL Hitem. induction fuel as [|fuel IH]; intros [u|]; simpl;
    try (apply sat_ret; [apply HL|exact I]).
  - destruct (u =? ""); [apply sat_ret; [apply HL|exact I]|].
    apply sat_out_of_fuel. apply HL.
  - destruct (u =? ""); [apply sat_ret; [apply HL|exact I]|].
    eapply sat_seq; [exact HL|apply sat_silent; [apply silent_fetch|apply HL]|].
    intros data _.
    eapply sat_seq; [exact HL|apply sat_silent; [apply quiet_lift|apply HL]|].
    intros results _.
    eapply sat_seq; [exact HL|apply sat_silent; [apply quiet_lift|apply HL]|].
    intros items _.
    eapply sat_seq; [exact HL|apply sat_for_each; assumption|].
    intros _ _.
    eapply sat_seq; [exact HL|apply sat_silent; [apply quiet_lift|apply HL]|].
    intros next _. apply IH.
Qed.
End TraversalShape.

Ltac rbind_inv H :=
  repeat match type of H with
         | rbind ?r _ = Ok _ =>
             let E := fresh "E" in destruct r eqn:E; simpl in H; try discriminate H
         end.

Section ShapeFacts.
Variable page_ok : Breadcrumb -> ConfluencePageEntity -> Prop.

Lemma monoid_Forall (P : Entity -> Prop) : monoid (Forall P).
Proof. split; [constructor|]. intros x y Hx Hy. apply Forall_app. split; assumption. Qed.

Lemma documents_app (sb : Breadcrumb) (x y : list Entity) :
  documents page_ok sb x -> documents page_ok sb y -> documents page_ok sb (x ++ y).
Proof.
  intros Hx Hy. induction Hx as [|p cs rest Hp Hcs Hrest IH]; simpl; [exact Hy|].
  rewrite <- app_assoc. constructor; assumption.
Qed.

Lemma monoid_documents (sb : Breadcrumb) : monoid (documents page_ok sb).
Proof. split; [constructor|apply documents_app]. Qed.

Lemma containers_app (x y : list Entity) :
  containers page_ok x -> containers page_ok y -> containers page_ok (x ++ y).
Proof.
  intros Hx Hy. induction Hx as [|s docs blogs rest Hs Hd Hb Hrest IH]; simpl; [exact Hy|].
  rewrite <- !app_assoc. constructor; assumption.
Qed.

Lemma monoid_containers : monoid (containers page_ok).
Proof. split; [constructor|apply containers_app]. Qed.
End ShapeFacts.

Section EntityFacts.
Import Py PyOps Http Validate.
Variable env : Env.
Variable self : ConfluenceSource.

Lemma space_entity_of_breadcrumbs (x : json) (s : ConfluenceSpaceEntity) :
  space_entity_of x = Ok s -> space_breadcrumbs s = [].
Proof.
  unfold space_entity_of. intros H. rbind_inv H. inversion H. reflexivity.
Qed.

Lemma blog_entity_of_breadcrumbs (sb : Breadcrumb) (x : json) (b : ConfluenceBlogPostEntity) :
  blog_entity_of sb x = Ok b -> blog_breadcrumbs b = [sb].
Proof.
  unfold blog_entity_of. intros H. rbind_inv H. inversion H. reflexivity.
Qed.

Lemma comment_entity_of_breadcrumbs (bcs : list Breadcrumb) (x : json)
    (c : ConfluenceCommentEntity) :
  comment_entity_of bcs x = Ok c -> comment_breadcrumbs c = bcs.
Proof.
  unfold comment_entity_of. intros H. rbind_inv H. inversion H. reflexivity.
Qed.

Lemma file_entity_of_breadcrumbs (sb : Breadcrumb) (page details body : json)
    (fe : ConfluencePageEntity) :
  file_entity_of env self sb page details = Ok (fe, body) -> page_breadcrumbs fe = [sb].
Proof.
  unfold file_entity_of. intros H. rbind_inv H. inversion H. reflexivity.
Qed.

Lemma sat_process (fe : ConfluencePageEntity) (st : ContentStream) (md : Metadata)
    (L : list Entity -> Prop) :
  L [] ->
  sat (process env fe st md) L
    (fun r => exists w w1, process_file_entity_with_content env fe st md w = (r, w1)).
Proof.
  intros H0 w. unfold process, trace_of, outcome_of.
  destruct (process_file_entity_with_content env fe st md w) as [r w1] eqn:E; simpl.
  split; [exact H0|]. eauto.
Qed.

Lemma sat_comments (fuel : nat) (page_id : string) (bcs : list Breadcrumb) :
  sat (_generate_comment_entities env self fuel page_id bcs
         (fun c => yield_ env (EComment c)))
    (Forall (comment_under bcs)) (fun _ => True).
Proof.
  unfold _generate_comment_entities. apply sat_while_url; [apply monoid_Forall|].
  intros x. eapply sat_seq; [apply monoid_Forall| |].
  - apply (sat_lift _ (comment_entity_of bcs x) _
             (fun c => comment_breadcrumbs c = bcs)); [constructor|].
    intros c. apply comment_entity_of_breadcrumbs.
  - intros c Hc. apply sat_emit_yield. repeat constructor. exact Hc.
Qed.

Lemma sat_blogs (fuel : nat) (space_id : string) (sb : Breadcrumb) :
  sat (_generate_blog_post_entities env self fuel space_id sb
         (fun b => yield_ env (EBlog b)))
    (Forall (blog_under sb)) (fun _ => True).
Proof.
  unfold _generate_blog_post_entities. apply sat_while_url; [apply monoid_Forall|].
  intros x. eapply sat_seq; [apply monoid_Forall| |].
  - apply (sat_lift _ (blog_entity_of sb x) _
             (fun b => blog_breadcrumbs b = [sb])); [constructor|].
    intros b. apply blog_entity_of_breadcrumbs.
  - intros b Hb. apply sat_emit_yield. repeat constructor. exact Hb.
Qed.

Lemma sat_on_page (fuel : nat) (sb : Breadcrumb) (p : ConfluencePageEntity) :
  produced env self sb p ->
  sat (on_page env self fuel sb p) (documents (produced env self) sb) (fun _ => True).
Proof.
  intros Hp. unfold on_page.
  eapply (sat_bind _ _ _ (fun l => l = [EPage p])
            (Forall (comment_under [sb; page_breadcrumb_of p]))).
  - apply sat_emit_yield. reflexivity.
  - intros _ _. apply sat_comments.
  - constructor.
  - intros x y -> Hy. simpl. rewrite <- (app_nil_r y).
    constructor; [exact Hp|exact Hy|constructor].
Qed.

Lemma sat_page_item (fuel : nat) (sb : Breadcrumb) (page : json) :
  sat (page_item env self sb (on_page env self fuel sb) page)
    (documents (produced env self) sb) (fun _ => True).
Proof.
  pose proof (monoid_documents (produced env self) sb) as HL.
  unfold page_item.
  eapply sat_seq; [exact HL|apply sat_silent; [apply quiet_lift|apply HL]|].
  intros page_id _.
  eapply sat_seq; [exact HL|apply sat_silent; [apply silent_fetch|apply HL]|].
  intros details _.
  eapply sat_seq; [exact HL| |].
  - apply (sat_lift _ (file_entity_of env self sb page details) _
             (fun built => file_entity_of env self sb page details = Ok built));
      [apply HL|]. intros a Ha. exact Ha.
  - intros [fe body] Hbuilt.
    eapply sat_seq; [exact HL|apply sat_silent; [apply quiet_lift|apply HL]|].
    intros title _.
    eapply sat_seq; [exact HL|apply sat_process; apply HL|].
    intros [p|] [w [w1 Hproc]].
    + apply sat_on_page. unfold produced. do 8 eexists. split; [exact Hbuilt|exact Hproc].
    + apply sat_ret; [apply HL|exact I].
Qed.

Lemma sat_pages (fuel : nat) (space_id : string) (sb : Breadcrumb) :
  sat (_generate_page_entities env self fuel space_id sb (on_page env self fuel sb))
    (documents (produced env self) sb) (fun _ => True).
Proof.
  unfold _generate_page_entities. apply sat_while_url; [apply monoid_documents|].
  intros x. apply sat_page_item.
Qed.

Lemma sat_on_space (fuel : nat) (s : ConfluenceSpaceEntity) :
  space_breadcrumbs s = [] ->
  sat (on_space env self fuel s) (containers (produced env self)) (fun _ => True).
Proof.
  intros Hs. unfold on_space.
  eapply (sat_bind _ _ _ (fun l => l = [ESpace s])
            (fun l => exists docs blogs, l = docs ++ blogs /\
                      documents (produced env self) (space_breadcrumb_of s) docs /\
                      Forall (blog_under (space_breadcrumb_of s)) blogs)).
  - apply sat_emit_yield. reflexivity.
  - intros _ _.
    eapply (sat_bind _ _ _ (documents (produced env self) (space_breadcrumb_of s))
              (Forall (blog_under (space_breadcrumb_of s)))).
    + apply sat_pages.
    + intros _ _. apply sat_blogs.
    + constructor.
    + intros x y Hx Hy. exists x, y. auto.
  - exists [], []. repeat split; constructor.
  - intros x y -> [docs [blogs [-> [Hd Hb]]]]. simpl.
    rewrite <- (app_nil_r blogs). constructor; try assumption. constructor.
Qed.

(** The records of any run of [generate_entities], complete or cut short,
    form a sequence of container blocks. *)
Lemma generate_entities_shape (fuel : nat) (w : W env) :
  containers (produced env self) (yields (trace_of (generate_entities env self fuel w))).
Proof.
  assert (H : sat (generate_entities env self fuel) (containers (produced env self))
                (fun _ => True)).
  { unfold generate_entities, _generate_space_entities.
    apply sat_while_url; [apply monoid_containers|].
    intros x. eapply sat_seq; [apply monoid_containers| |].
    - apply (sat_lift _ (space_entity_of x) _ (fun s => space_breadcrumbs s = []));
        [constructor|]. intros s. apply space_entity_of_breadcrumbs.
    - intros s Hs. apply sat_on_space. exact Hs. }
  apply H.
Qed.
End EntityFacts.

(* ------------------------------------------------------------------ *)
(** ** Complete runs against a mock server *)
(* ------------------------------------------------------------------ *)

Section RunRules.
Variable St : Type.

Lemma run_ret {A} (a : A) (w : St) : run (ret a) w [] w (Ok a).
Proof. reflexivity. Qed.

Lemma run_lift {A} (r : res A) (w : St) : run (lift r) w [] w r.
Proof. reflexivity. Qed.

Lemma run_emit (ev : Event) (w : St) : run (emit ev) w [ev] w (Ok tt).
Proof. reflexivity. Qed.

Lemma run_bind {A B} (m : M St A) (k : A -> M St B) (w w1 w2 : St) (t1 t2 : Trace)
    (a : A) (r : res B) :
  run m w t1 w1 (Ok a) -> run (k a) w1 t2 w2 r -> run (bind m k) w (t1 ++ t2) w2 r.
Proof. unfold run, bind. intros -> ->. reflexivity. Qed.

Lemma run_bind_lift {A B} (x : res A) (k : A -> M St B) (w w2 : St) (t : Trace)
    (a : A) (r : res B) :
  x = Ok a -> run (k a) w t w2 r -> run (bind (lift x) k) w t w2 r.
Proof. intros -> H. apply (run_bind _ _ w w w2 [] t a r); [apply run_lift|exact H]. Qed.
End RunRules.

Section Paginate.
Import Py PyOps Http Validate.
Variable env : Env.
Variable self : ConfluenceSource.
Variable server : string -> json.
Hypothesis Hmock : mock_server env server.

Lemma fetch_mock (url : string) (w : W env) :
  exists w1,
    run (fetch env self url) w
      [EvGet url (auth_headers self (current_token env w))] w1 (Ok (server url)).
Proof.
  destruct (Hmock url (auth_headers self (current_token env w)) w)
    as [r [w1 [Hget [Hok Hdec]]]].
  exists w1. unfold run, fetch.
  rewrite (get_with_auth_returned env self url w w1 r Hget).
  unfold check_response, raise_for_status, response_json.
  rewrite Hok, Hdec. reflexivity.
Qed.

Lemma page_items_iterate (data : json) (items : list json) :
  page_items data = Some items ->
  exists results, dict_get data "results" (JArr []) = Ok results /\
                  iterate results = Ok items.
Proof.
  unfold page_items, dict_get. destruct data as [| | | | |f]; try discriminate.
  destruct (lookup "results" f) as [[| | | |l|]|]; try discriminate;
    intros H; inversion H; subst; eexists; split; reflexivity.
Qed.

Lemma page_next_url (data : json) (o : option json) :
  page_next data = Some o ->
  next_url env self data
  = Ok (match o with
        | Some nl => Some (base_url self ++ fmt env nl)%string
        | None => None
        end).
Proof.
  unfold page_next, next_url, dict_get. destruct data as [| | | | |f]; try discriminate.
  destruct (lookup "_links" f) as [[| | | | |g]|]; try discriminate; simpl.
  - destruct (lookup "next" g) as [nl|]; intros H; inversion H; subst; simpl.
    + destruct (truthy nl); reflexivity.
    + reflexivity.
  - intros H; inversion H; subst. reflexivity.
Qed.

Lemma while_url_none (fl : nat) (body : json -> M (W env) unit) :
  while_url env self fl None body = ret tt.
Proof. destruct fl; reflexivity. Qed.

Section Loop.
Variable X : Type.
Variable obs : Event -> list X.
Variable fobs : string -> list X.
Hypothesis Hobs : forall u h, obs (EvGet u h) = fobs u.

Variable item : nat -> json -> M (W env) unit.
Variable R : json -> list X -> Prop.

Hypothesis Hitem :
  forall x o, R x o ->
  exists n, forall fuel, n <= fuel -> forall w, exists t w1,
    run (item fuel x) w t w1 (Ok tt) /\ observe obs t = o.

Lemma for_each_runs (items : list json) (o : list X) :
  each R items o ->
  exists n, forall fuel, n <= fuel -> forall w, exists t w1,
    run (for_each items (item fuel)) w t w1 (Ok tt) /\ observe obs t = o.
Proof.
  induction 1 as [|x o xs os Hx Hxs [n2 IH]].
  - exists 0. intros fuel _ w. exists [], w. split; reflexivity.
  - destruct (Hitem x o Hx) as [n1 H1].
    exists (Nat.max n1 n2). intros fuel Hfuel w.
    destruct (H1 fuel ltac:(lia) w) as [t1 [w1 [Hr1 Ho1]]].
    destruct (IH fuel ltac:(lia) w1) as [t2 [w2 [Hr2 Ho2]]].
    exists (t1 ++ t2), w2. split.
    + simpl. eapply run_bind; eassumption.
    + rewrite observe_app, Ho1, Ho2. reflexivity.
Qed.

Lemma while_url_step (fl : nat) (u : string) (body : json -> M (W env) unit)
    (w w1 w2 w3 : W env) (items : list json) (o : option json) (t2 t3 : Trace)
    (r : res unit) :
  u <> EmptyString ->
  run (fetch env self u) w [EvGet u (auth_headers self (current_token env w))] w1
    (Ok (server u)) ->
  page_items (server u) = Some items ->
  page_next (server u) = Some o ->
  run (for_each items body) w1 t2 w2 (Ok tt) ->
  run (while_url env self fl
         (match o with
          | Some nl => Some (base_url self ++ fmt env nl)%string
          | None => None
          end) body) w2 t3 w3 r ->
  run (while_url env self (S fl) (Some u) body) w
    (EvGet u (auth_headers self (current_token env w)) :: t2 ++ t3) w3 r.
Proof.
  intros Hu Hf Hi Hn Hbody Hrest. simpl.
  destruct (String.eqb_spec u ""); [contradiction|].
  destruct (page_items_iterate _ _ Hi) as [results [Hres Hit]].
  change (EvGet u (auth_headers self (current_token env w)) :: t2 ++ t3)
    with ([EvGet u (auth_headers self (current_token env w))] ++ t2 ++ t3).
  eapply run_bind; [exact Hf|].
  eapply run_bind_lift; [exact Hres|].
  eapply run_bind_lift; [exact Hit|].
  eapply run_bind; [exact Hbody|].
  eapply run_bind_lift; [apply (page_next_url _ _ Hn)|].
  exact Hrest.
Qed.

Lemma while_url_runs (u : string) (pages : list (string * list json)) :
  listing env self server u pages ->
  forall o, pages_out X fobs R pages o ->
  exists n, forall fi, n <= fi -> forall fl, length pages <= fl -> forall w,
    exists t w1,
      run (while_url env self fl (Some u) (item fi)) w t w1 (Ok tt) /\
      observe obs t = o.
Proof.
  induction 1 as [u items Hu Hi Hn|u items nl pages Hu Hi Hn Hl IH]; intros o Ho.
  - inversion Ho as [|u' items' oi rest os Heach Hrest]; subst.
    inversion Hrest; subst.
    destruct (for_each_runs items oi Heach) as [n Hn1].
    exists n. intros fi Hfi fl Hfl w.
    destruct fl as [|fl]; [simpl in Hfl; lia|].
    destruct (fetch_mock u w) as [w1 Hf].
    destruct (Hn1 fi Hfi w1) as [t2 [w2 [Hr2 Ho2]]].
    eexists. exists w2. split.
    + eapply while_url_step; try eassumption. rewrite while_url_none. apply run_ret.
    + simpl. rewrite Hobs. rewrite observe_app, Ho2. reflexivity.
  - inversion Ho as [|u' items' oi rest os Heach Hrest]; subst.
    destruct (for_each_runs items oi Heach) as [n1 Hn1].
    destruct (IH os Hrest) as [n2 Hn2].
    exists (Nat.max n1 n2). intros fi Hfi fl Hfl w.
    destruct fl as [|fl]; [simpl in Hfl; lia|].
    destruct (fetch_mock u w) as [w1 Hf].
    destruct (Hn1 fi ltac:(lia) w1) as [t2 [w2 [Hr2 Ho2]]].
    destruct (Hn2 fi ltac:(lia) fl ltac:(simpl in Hfl; lia) w2) as [t3 [w3 [Hr3 Ho3]]].
    eexists. exists w3. split.
    + eapply while_url_step; try eassumption.
    + simpl. rewrite Hobs. rewrite observe_app, Ho2, Ho3. reflexivity.
Qed.

End Loop.
End Paginate.

Lemma each_app_inv {X} (R : json -> list X -> Prop) (xs ys : list json) (o : list X) :
  each R (xs ++ ys) o ->
  exists o1 o2, o = o1 ++ o2 /\ each R xs o1 /\ each R ys o2.
Proof.
  revert o. induction xs as [|x xs IH]; simpl; intros o H.
  - exists [], o. repeat split; [constructor|exact H].
  - inversion H as [|x' ox xs' os Hx Hrest]; subst.
    destruct (IH os Hrest) as [o1 [o2 [-> [H1 H2]]]].
    exists (ox ++ o1), o2. rewrite app_assoc. repeat split; [constructor|]; assumption.
Qed.

Section Exact.
Import Py PyOps Http Validate.
Variable env : Env.
Variable self : ConfluenceSource.
Variable server : string -> json.
Variable keep : ConfluencePageEntity -> option ConfluencePageEntity.
Hypothesis Hmock : mock_server env server.
Hypothesis Hkeep : extraction env keep.

Lemma pages_out_yields (R : json -> list Entity -> Prop)
    (pages : list (string * list json)) (o : list Entity) :
  each R (all_items pages) o -> pages_out Entity (fun _ => []) R pages o.
Proof.
  revert o. induction pages as [|[u items] pages IH]; simpl; intros o H.
  - inversion H; subst. constructor.
  - destruct (each_app_inv R items (all_items pages) o H) as [o1 [o2 [-> [H1 H2]]]].
    apply (pages_out_cons Entity (fun _ => []) R u items o1 pages o2); auto.
Qed.

(** A generator over a finite chain, whose consumer settles on every
    item, settles on the records of all items in order. *)
Lemma generator_settles (item : nat -> json -> M (W env) unit)
    (R : json -> list Entity -> Prop) (u : string)
    (pages : list (string * list json)) (o : list Entity) :
  (forall x ox, R x ox -> settles (fun fuel => item fuel x) ox) ->
  listing env self server u pages ->
  each R (all_items pages) o ->
  settles (fun fuel => while_url env self fuel (Some u) (item fuel)) o.
Proof.
  intros Hitem Hl Ho.
  assert (Hitem' : forall x ox, R x ox ->
            exists n, forall fuel, n <= fuel -> forall w, exists t w1,
              run (item fuel x) w t w1 (Ok tt) /\ observe obs_yield t = ox).
  { intros x ox Hx. destruct (Hitem x ox Hx) as [n Hn]. exists n.
    intros fuel Hf w. destruct (Hn fuel Hf w) as [t [w1 [Hr Hy]]].
    exists t, w1. split; [exact Hr|]. rewrite <- yields_observe. exact Hy. }
  destruct (while_url_runs env self server Hmock Entity obs_yield (fun _ => [])
              (fun _ _ => eq_refl) item R Hitem' u pages Hl o
              (pages_out_yields R pages o Ho)) as [n Hn].
  exists (Nat.max n (length pages)). intros fuel Hf w.
  destruct (Hn fuel ltac:(lia) fuel ltac:(lia) w) as [t [w1 [Hr Hy]]].
  exists t, w1. split; [exact Hr|]. rewrite yields_observe. exact Hy.
Qed.

Lemma comments_settle (bcs : list Breadcrumb) (page_id : string)
    (pages : list (string * list json)) (o : list Entity) :
  listing env self server (comments_url self page_id) pages ->
  each (comment_record bcs) (all_items pages) o ->
  settles (fun fuel => _generate_comment_entities env self fuel page_id bcs
                         (fun c => yield_ env (EComment c))) o.
Proof.
  intros Hl Ho. unfold _generate_comment_entities.
  apply (generator_settles
           (fun _ comment => bind (lift (comment_entity_of bcs comment))
                               (fun e => yield_ env (EComment e)))
           (comment_record bcs) _ pages o); try assumption.
  intros x ox [c [Hc ->]]. exists 0. intros fuel _ w.
  exists [EvYield (EComment c)], w. split; [|reflexivity].
  eapply run_bind_lift; [exact Hc|]. apply run_emit.
Qed.

Lemma blogs_settle (sb : Breadcrumb) (space_id : string)
    (pages : list (string * list json)) (o : list Entity) :
  listing env self server (blogposts_url self space_id) pages ->
  each (blog_record sb) (all_items pages) o ->
  settles (fun fuel => _generate_blog_post_entities env self fuel space_id sb
                         (fun b => yield_ env (EBlog b))) o.
Proof.
  intros Hl Ho. unfold _generate_blog_post_entities.
  apply (generator_settles
           (fun _ blog => bind (lift (blog_entity_of sb blog))
                            (fun e => yield_ env (EBlog e)))
           (blog_record sb) _ pages o); try assumption.
  intros x ox [b [Hb ->]]. exists 0. intros fuel _ w.
  exists [EvYield (EBlog b)], w. split; [|reflexivity].
  eapply run_bind_lift; [exact Hb|]. apply run_emit.
Qed.

Lemma file_entity_of_details (sb : Breadcrumb) (page details : json)
    (built : ConfluencePageEntity * json) :
  file_entity_of env self sb page details = Ok built ->
  exists title, dict_get details "title" (JStr "") = Ok title.
Proof.
  unfold file_entity_of. intros H. rbind_inv H.
  unfold storage_value in E0. rbind_inv E0.
  destruct details; try discriminate. eexists. reflexivity.
Qed.

Lemma run_process (fe : ConfluencePageEntity) (st : ContentStream) (md : Metadata)
    (w : W env) :
  exists w1, run (process env fe st md) w [EvProcess fe st md (keep fe)] w1 (Ok (keep fe)).
Proof.
  unfold run, process. pose proof (Hkeep fe st md w) as H.
  destruct (process_file_entity_with_content env fe st md w) as [r w1]. simpl in H.
  subst r. exists w1. reflexivity.
Qed.

Lemma document_settles (sb : Breadcrumb) (page : json) (o : list Entity) :
  document_records env self server keep sb page o ->
  settles (fun fuel => page_item env self sb (on_page env self fuel sb) page) o.
Proof.
  intros [page_id body fe p pages cs Hid Hfe Hk Hl Hcs|page_id body fe Hid Hfe Hk].
  - destruct (comments_settle _ _ pages cs Hl Hcs) as [n Hn].
    exists n. intros fuel Hf w.
    destruct (fetch_mock env self server Hmock (page_detail_url env self page_id) w)
      as [w1 Hfetch].
    destruct (file_entity_of_details _ _ _ _ Hfe) as [title Ht].
    destruct (run_process fe
                (AsyncIteratorWrapper.__init__ [html_content (fmt env title) (fmt env body)])
                [("source"%string, JStr "confluence"); ("page_id"%string, page_id)] w1)
      as [w2 Hproc].
    destruct (Hn fuel Hf w2) as [t3 [w3 [Hr3 Hy3]]].
    eexists. exists w3. split.
    + unfold page_item. eapply run_bind_lift; [exact Hid|].
      eapply run_bind; [exact Hfetch|].
      eapply run_bind_lift; [exact Hfe|]. simpl.
      eapply run_bind_lift; [exact Ht|].
      eapply run_bind; [exact Hproc|]. rewrite Hk.
      unfold on_page. eapply run_bind; [apply run_emit|]. exact Hr3.
    + simpl. rewrite Hy3. reflexivity.
  - exists 0. intros fuel _ w.
    destruct (fetch_mock env self server Hmock (page_detail_url env self page_id) w)
      as [w1 Hfetch].
    destruct (file_entity_of_details _ _ _ _ Hfe) as [title Ht].
    destruct (run_process fe
                (AsyncIteratorWrapper.__init__ [html_content (fmt env title) (fmt env body)])
                [("source"%string, JStr "confluence"); ("page_id"%string, page_id)] w1)
      as [w2 Hproc].
    eexists. exists w2. split.
    + unfold page_item. eapply run_bind_lift; [exact Hid|].
      eapply run_bind; [exact Hfetch|].
      eapply run_bind_lift; [exact Hfe|]. simpl.
      eapply run_bind_lift; [exact Ht|].
      eapply run_bind; [exact Hproc|]. rewrite Hk. apply run_ret.
    + reflexivity.
Qed.

Lemma container_settles (space : json) (o : list Entity) :
  container_records env self server keep space o ->
  settles (fun fuel => bind (lift (space_entity_of space)) (on_space env self fuel)) o.
Proof.
  intros [s dpages bpages docs blogs Hs Hdl Hdocs Hbl Hblogs].
  assert (Hd : settles (fun fuel =>
                 _generate_page_entities env self fuel (space_entity_id s)
                   (space_breadcrumb_of s) (on_page env self fuel (space_breadcrumb_of s)))
                 docs).
  { unfold _generate_page_entities.
    apply (generator_settles
             (fun fuel => page_item env self (space_breadcrumb_of s)
                            (on_page env self fuel (space_breadcrumb_of s)))
             (document_records env self server keep (space_breadcrumb_of s))
             _ dpages docs); try assumption.
    intros x ox Hx. apply document_settles. exact Hx. }
  destruct Hd as [n1 Hn1].
  destruct (blogs_settle _ _ bpages blogs Hbl Hblogs) as [n2 Hn2].
  exists (Nat.max n1 n2). intros fuel Hf w.
  destruct (Hn1 fuel ltac:(lia) w) as [t1 [w1 [Hr1 Hy1]]].
  destruct (Hn2 fuel ltac:(lia) w1) as [t2 [w2 [Hr2 Hy2]]].
  eexists. exists w2. split.
  - eapply run_bind_lift; [exact Hs|]. unfold on_space.
    eapply run_bind; [apply run_emit|].
    eapply run_bind; [exact Hr1|]. exact Hr2.
  - simpl. rewrite yields_app, Hy1, Hy2. reflexivity.
Qed.

Lemma generate_entities_settles (out : list Entity) :
  traversal env self server keep out ->
  settles (generate_entities env self) out.
Proof.
  intros [pages [Hl Hout]]. unfold generate_entities, _generate_space_entities.
  apply (generator_settles
           (fun fuel space => bind (lift (space_entity_of space)) (on_space env self fuel))
           (container_records env self server keep) _ pages out); try assumption.
  intros x ox Hx. apply container_settles. exact Hx.
Qed.
End Exact.

(* ------------------------------------------------------------------ *)
(** ** Failed fetches *)
(* ------------------------------------------------------------------ *)

Section FatalRules.
Variable St : Type.

Lemma fatal_quiet {A} (m : M St A) : quiet obs_fatal m -> fatal_sat m.
Proof. intros H w. left. apply H. Qed.

Lemma fatal_bind {A B} (m : M St A) (k : A -> M St B) :
  fatal_sat m -> (forall a, fatal_sat (k a)) -> fatal_sat (bind m k).
Proof.
  intros Hm Hk w. specialize (Hm w). unfold bind, fatal_sat, trace_of, outcome_of in *.
  destruct (m w) as [[t w1] [a|e|]]; simpl in *.
  - destruct Hm as [Hq|[t0 [u [e [_ [_ Habs]]]]]]; [|discriminate].
    specialize (Hk a w1). destruct (k a w1) as [[t2 w2] r]; simpl in *.
    destruct Hk as [Hq2|[t0 [u [e [-> [Hq2 ->]]]]]].
    + left. rewrite observe_app, Hq, Hq2. reflexivity.
    + right. exists (t ++ t0), u, e. rewrite app_assoc. split; [reflexivity|].
      split; [|reflexivity]. rewrite observe_app, Hq, Hq2. reflexivity.
  - destruct Hm as [Hq|[t0 [u [e0 [Ht [Hq He]]]]]]; [left; exact Hq|].
    right. exists t0, u, e0. inversion He. auto.
  - destruct Hm as [Hq|[t0 [u [e0 [Ht [Hq He]]]]]]; [left; exact Hq|discriminate].
Qed.

Lemma fatal_for_each {A} (xs : list A) (body : A -> M St unit) :
  (forall x, fatal_sat (body x)) -> fatal_sat (for_each xs body).
Proof.
  intros Hb. induction xs as [|x xs IH]; simpl.
  - apply fatal_quiet, quiet_ret.
  - apply fatal_bind; auto.
Qed.
End FatalRules.

Section FatalTraversal.
Variable env : Env.
Variable self : ConfluenceSource.

Lemma fatal_fetch (url : string) : fatal_sat (fetch env self url).
Proof.
  intros w.
  pose proof (quiet_get_with_auth env self (string * exc) obs_fatal
                (fun _ _ => eq_refl) eq_refl url w) as H.
  unfold fetch, trace_of, outcome_of in *.
  destruct (_get_with_auth env self url w) as [[t w1] [a|e|]]; simpl in *.
  - left. exact H.
  - right. exists t, url, e. auto.
  - left. exact H.
Qed.

Lemma fatal_while_url (item : json -> M (W env) unit) :
  (forall x, fatal_sat (item x)) ->
  forall fuel url, fatal_sat (while_url env self fuel url item).
Proof.
  intros Hitem. induction fuel as [|fuel IH]; intros [u|]; simpl;
    try (apply fatal_quiet, quiet_ret).
  - destruct (u =? "")%string; apply fatal_quiet; [apply quiet_ret|].
    intros w. reflexivity.
  - destruct (u =? "")%string; [apply fatal_quiet, quiet_ret|].
    apply fatal_bind; [apply fatal_fetch|]. intros data.
    apply fatal_bind; [apply fatal_quiet, quiet_lift|]. intros results.
    apply fatal_bind; [apply fatal_quiet, quiet_lift|]. intros items.
    apply fatal_bind; [apply fatal_for_each; assumption|]. intros _.
    apply fatal_bind; [apply fatal_quiet, quiet_lift|]. intros next. apply IH.
Qed.

Lemma fatal_yield (e : Entity) : fatal_sat (yield_ env e).
Proof. apply fatal_quiet. intros w. reflexivity. Qed.

Lemma fatal_lift_then {A B} (r : res A) (k : A -> M (W env) B) :
  (forall a, fatal_sat (k a)) -> fatal_sat (bind (lift r) k).
Proof. intros H. apply fatal_bind; [apply fatal_quiet, quiet_lift|exact H]. Qed.

Lemma fatal_on_page (fuel : nat) (sb : Breadcrumb) (p : ConfluencePageEntity) :
  fatal_sat (on_page env self fuel sb p).
Proof.
  unfold on_page. apply fatal_bind; [apply fatal_yield|]. intros _.
  unfold _generate_comment_entities. apply fatal_while_url.
  intros x. apply fatal_lift_then. intros c. apply fatal_yield.
Qed.

Lemma fatal_page_item (fuel : nat) (sb : Breadcrumb) (page : json) :
  fatal_sat (page_item env self sb (on_page env self fuel sb) page).
Proof.
  unfold page_item. apply fatal_lift_then. intros page_id.
  apply fatal_bind; [apply fatal_fetch|]. intros details.
  apply fatal_lift_then. intros [fe body].
  apply fatal_lift_then. intros title.
  apply fatal_bind.
  - apply fatal_quiet. intros w. unfold process, trace_of.
    destruct (process_file_entity_with_content env fe _ _ w); reflexivity.
  - intros [p|]; [apply fatal_on_page|apply fatal_quiet, quiet_ret].
Qed.

Lemma fatal_on_space (fuel : nat) (s : ConfluenceSpaceEntity) :
  fatal_sat (on_space env self fuel s).
Proof.
  unfold on_space. apply fatal_bind; [apply fatal_yield|]. intros _.
  apply fatal_bind.
  - unfold _generate_page_entities. apply fatal_while_url.
    intros x. apply fatal_page_item.
  - intros _. unfold _generate_blog_post_entities. apply fatal_while_url.
    intros x. apply fatal_lift_then. intros b. apply fatal_yield.
Qed.

Lemma fatal_generate_entities (fuel : nat) : fatal_sat (generate_entities env self fuel).
Proof.
  unfold generate_entities, _generate_space_entities. apply fatal_while_url.
  intros x. apply fatal_lift_then. intros s. apply fatal_on_space.
Qed.

Lemma observe_fatal_nil_not_in (t t1 t2 : Trace) (u : string) (e : exc) :
  observe obs_fatal t = [] -> t = t1 ++ EvFatal u e :: t2 -> False.
Proof.
  intros H ->. rewrite observe_app in H. simpl in H.
  destruct (observe obs_fatal t1); discriminate.
Qed.

(** C9.  In every run of [generate_entities], a fetch that ends in an
    exception (a scope error, an HTTP error status, a 401 that was not
    cured by the refresh, or anything else [_get_with_auth] raises), be it
    the fetch of a listing page or the detail fetch of one document, is
    the last thing that happens: the exception is the outcome of the
    whole run and nothing is yielded after it. *)
Theorem fatal_fetch_aborts_traversal (fuel : nat) (w w1 : W env) (t : Trace)
    (r : res unit) :
  run (generate_entities env self fuel) w t w1 r ->
  forall t1 u e t2, t = t1 ++ EvFatal u e :: t2 -> t2 = [] /\ r = Raise e.
Proof.
  intros Hrun t1 u e t2 Ht.
  pose proof (fatal_generate_entities fuel w) as H. unfold run in Hrun.
  rewrite Hrun in H. unfold trace_of, outcome_of in H. simpl in H.
  destruct H as [Hq|[t0 [u0 [e0 [Ht0 [Hq ->]]]]]].
  - exfalso. eapply observe_fatal_nil_not_in; eassumption.
  - rewrite Ht in Ht0. destruct t2 as [|ev t2] using rev_ind.
    + apply app_inj_tail in Ht0. destruct Ht0 as [_ Heq]. inversion Heq. auto.
    + exfalso. clear IHt2. rewrite app_comm_cons, app_assoc in Ht0.
      apply app_inj_tail in Ht0. destruct Ht0 as [Heq _].
      eapply observe_fatal_nil_not_in; [exact Hq|symmetry; exact Heq].
Qed.
End FatalTraversal.

(* ------------------------------------------------------------------ *)
(** ** Order and lineage *)
(* ------------------------------------------------------------------ *)

Section ShapeConsequences.

Lemma documents_weaken (Q Q' : Breadcrumb -> ConfluencePageEntity -> Prop)
    (sb : Breadcrumb) (l : list Entity) :
  (forall p, Q sb p -> Q' sb p) -> documents Q sb l -> documents Q' sb l.
Proof. intros HQ H. induction H; constructor; auto. Qed.

Lemma containers_weaken (Q Q' : Breadcrumb -> ConfluencePageEntity -> Prop)
    (l : list Entity) :
  (forall sb p, Q sb p -> Q' sb p) -> containers Q l -> containers Q' l.
Proof.
  intros HQ H. induction H; constructor; auto.
  eapply documents_weaken; [|eassumption]. auto.
Qed.

Lemma documents_In_page (Q : Breadcrumb -> ConfluencePageEntity -> Prop)
    (sb : Breadcrumb) (l : list Entity) (p : ConfluencePageEntity) :
  documents Q sb l -> In (EPage p) l -> Q sb p.
Proof.
  intros H. induction H as [|q cs rest Hq Hcs Hrest IH]; simpl; [contradiction|].
  intros [Heq|Hin]; [inversion Heq; subst; exact Hq|].
  apply in_app_or in Hin. destruct Hin as [Hin|Hin]; [|auto].
  rewrite Forall_forall in Hcs. destruct (Hcs _ Hin).
Qed.

Lemma containers_In_page (Q : Breadcrumb -> ConfluencePageEntity -> Prop)
    (l : list Entity) (p : ConfluencePageEntity) :
  containers Q l -> In (EPage p) l -> exists sb, Q sb p.
Proof.
  intros H. induction H as [|s docs blogs rest Hs Hd Hb Hrest IH]; simpl; [contradiction|].
  intros [Heq|Hin]; [discriminate|].
  apply in_app_or in Hin. destruct Hin as [Hin|Hin].
  - eexists. eapply documents_In_page; eassumption.
  - apply in_app_or in Hin. destruct Hin as [Hin|Hin]; [|auto].
    rewrite Forall_forall in Hb. destruct (Hb _ Hin).
Qed.

Lemma container_breadcrumb_eq (s : ConfluenceSpaceEntity) :
  space_breadcrumb_of s = container_breadcrumb s.
Proof. destruct s as [id bcs key [name|] ty de st hp ca ua]; reflexivity. Qed.

Lemma document_breadcrumb_eq (p : ConfluencePageEntity) :
  page_breadcrumb_of p = document_breadcrumb p.
Proof. unfold page_breadcrumb_of, document_breadcrumb. destruct (page_title p); reflexivity. Qed.

Lemma lineage_comments (s : ConfluenceSpaceEntity) (p : ConfluencePageEntity)
    (cs tail : list Entity) :
  Forall (comment_under [space_breadcrumb_of s; page_breadcrumb_of p]) cs ->
  lineage_ok (Some s) (Some p) tail ->
  lineage_ok (Some s) (Some p) (cs ++ tail).
Proof.
  intros H Ht. induction H as [|c cs Hc Hcs IH]; simpl; [exact Ht|].
  destruct c as [s'|p'|c|b]; try contradiction. simpl in Hc.
  split; [|exact IH]. exists s, p. split; [reflexivity|]. split; [reflexivity|].
  rewrite Hc, container_breadcrumb_eq, document_breadcrumb_eq. reflexivity.
Qed.

Lemma lineage_documents (s : ConfluenceSpaceEntity) (docs tail : list Entity) :
  documents (fun sb p => page_breadcrumbs p = [sb]) (space_breadcrumb_of s) docs ->
  (forall d, lineage_ok (Some s) d tail) ->
  forall d, lineage_ok (Some s) d (docs ++ tail).
Proof.
  intros H Ht. induction H as [|p cs rest Hp Hcs Hrest IH]; intros d; simpl; [apply Ht|].
  split.
  - exists s. split; [reflexivity|]. rewrite Hp, container_breadcrumb_eq. reflexivity.
  - rewrite <- app_assoc. apply lineage_comments; [exact Hcs|apply IH].
Qed.

Lemma lineage_blogs (s : ConfluenceSpaceEntity) (blogs tail : list Entity) :
  Forall (blog_under (space_breadcrumb_of s)) blogs ->
  (forall d, lineage_ok (Some s) d tail) ->
  forall d, lineage_ok (Some s) d (blogs ++ tail).
Proof.
  intros H Ht. induction H as [|b blogs Hb Hbs IH]; intros d; simpl; [apply Ht|].
  destruct b as [s'|p|c|b]; try contradiction. simpl in Hb.
  split; [|apply IH]. exists s. split; [reflexivity|].
  rewrite Hb, container_breadcrumb_eq. reflexivity.
Qed.

Lemma lineage_containers (out : list Entity) :
  containers (fun sb p => page_breadcrumbs p = [sb]) out ->
  forall c d, lineage_ok c d out.
Proof.
  intros H. induction H as [|s docs blogs rest Hs Hd Hb Hrest IH]; intros c d; simpl;
    [exact I|].
  split; [exact Hs|].
  apply lineage_documents; [exact Hd|]. intros d1.
  apply lineage_blogs; [exact Hb|]. intros d2. apply IH.
Qed.

End ShapeConsequences.

Section OrderAndLineage.

Variable env : Env.
Variable self : ConfluenceSource.

Lemma produced_lineage (sb : Breadcrumb) (p : ConfluencePageEntity) :
  keeps_lineage env -> produced env self sb p -> page_breadcrumbs p = [sb].
Proof.
  intros Hk [page [details [fe [body [title [md [w [w1 [Hfe Hp]]]]]]]]].
  rewrite (Hk _ _ _ _ _ _ Hp). eapply file_entity_of_breadcrumbs. exact Hfe.
Qed.

(** In every run, whatever the world and the fuel, the records come as
    container blocks one after the other, each made of the container
    record, then its documents, every document followed at once by its
    comments (which carry the breadcrumbs of that container and that
    document), then the blog posts of the container (which carry its
    breadcrumb). *)
Lemma generate_entities_blocks (fuel : nat) (w : W env) :
  containers (fun _ _ => True) (yields (trace_of (generate_entities env self fuel w))).
Proof.
  eapply containers_weaken; [|apply generate_entities_shape]. auto.
Qed.

(** C3.  Provided content extraction hands back the lineage it was
    given, every record of every run carries the lineage of its place in
    the traversal.  A container carries none.  A document and a blog post
    carry one breadcrumb, that of the container yielded last before
    them: its id, its name (the empty string when it has none) and the
    kind [space].  A comment carries two: that breadcrumb of its
    container, then the breadcrumb of its immediate parent, the document
    yielded last before it: the id of the document, its title (or the
    empty string) and the kind [page]. *)
Theorem lineage_of_every_record (fuel : nat) (w : W env) :
  keeps_lineage env ->
  lineage_ok None None (yields (trace_of (generate_entities env self fuel w))).
Proof.
  intros Hk. apply lineage_containers.
  eapply containers_weaken; [|apply generate_entities_shape].
  intros sb p Hp. eapply produced_lineage; eassumption.
Qed.

End OrderAndLineage.

Lemma served_keeps_lineage (server : string -> json) :
  keeps_lineage (Mock.served server Some).
Proof. intros fe st md w p w1 H. inversion H. reflexivity. Qed.

(** The lineage example of the specification, read off the theorem:
    container [S1] named Eng, document [P1] titled Design, and the
    comment [C1] under [P1]. *)
Lemma lineage_of_every_record_witness :
  yields (trace_of (generate_entities (Mock.served Demo.server Some) Mock.source 3 tt))
  = [ESpace Demo.s1; EPage Demo.p1; EComment Demo.c1;
     EPage Demo.p2; EComment Demo.c2; EBlog Demo.b1] /\
  lineage_ok None None
    [ESpace Demo.s1; EPage Demo.p1; EComment Demo.c1;
     EPage Demo.p2; EComment Demo.c2; EBlog Demo.b1] /\
  space_breadcrumbs Demo.s1 = [] /\
  page_breadcrumbs Demo.p1 = [mkBreadcrumb "S1" "Eng" "space"] /\
  comment_breadcrumbs Demo.c1
  = [mkBreadcrumb "S1" "Eng" "space"; mkBreadcrumb "P1" "Design" "page"].
Proof.
  assert (Hrun :
    yields (trace_of (generate_entities (Mock.served Demo.server Some) Mock.source 3 tt))
    = [ESpace Demo.s1; EPage Demo.p1; EComment Demo.c1;
       EPage Demo.p2; EComment Demo.c2; EBlog Demo.b1])
    by (vm_compute; reflexivity).
  pose proof (lineage_of_every_record (Mock.served Demo.server Some) Mock.source 3 tt
                (served_keeps_lineage Demo.server)) as H.
  rewrite Hrun in H.
  split; [exact Hrun|]. split; [exact H|].
  destruct H as [Hs [[s [Es Hp]] [[s' [p [Es' [Ep Hc]]]] _]]].
  inversion Es; subst s. inversion Es'; subst s'. inversion Ep; subst p.
  split; [exact Hs|]. split; [exact Hp|exact Hc].
Defined.

(* ------------------------------------------------------------------ *)
(** ** The materialization filter *)
(* ------------------------------------------------------------------ *)

Section Filter.

Import PyOps.

Variable env : Env.
Variable self : ConfluenceSource.

Lemma page_item_dropped (sb : Breadcrumb) (consumer : ConfluencePageEntity -> M (W env) unit)
    (page page_id details body : json) (fe : ConfluencePageEntity)
    (w w1 : W env) (t1 : Trace) :
  subscript page "id" = Ok page_id ->
  run (fetch env self (page_detail_url env self page_id)) w t1 w1 (Ok details) ->
  file_entity_of env self sb page details = Ok (fe, body) ->
  (forall st md, fst (process_file_entity_with_content env fe st md w1) = None) ->
  exists t w2, run (page_item env self sb consumer page) w t w2 (Ok tt) /\ yields t = [].
Proof.
  intros Hid Hfetch Hfe Hnone.
  destruct (file_entity_of_details _ _ _ _ _ _ Hfe) as [title Ht].
  destruct (process_file_entity_with_content env fe
              (AsyncIteratorWrapper.__init__
                 [html_content (fmt env title) (fmt env body)])
              [("source"%string, JStr "confluence"); ("page_id"%string, page_id)] w1)
    as [r w2] eqn:Hp.
  pose proof (Hnone (AsyncIteratorWrapper.__init__
                       [html_content (fmt env title) (fmt env body)])
                [("source"%string, JStr "confluence"); ("page_id"%string, page_id)])
    as Hr.
  rewrite Hp in Hr. simpl in Hr. subst r.
  eexists. exists w2. split.
  - unfold page_item. eapply run_bind_lift; [exact Hid|].
    eapply run_bind; [exact Hfetch|].
    eapply run_bind_lift; [exact Hfe|]. simpl.
    eapply run_bind_lift; [exact Ht|].
    eapply run_bind; [unfold run, process; rewrite Hp; reflexivity|apply run_ret].
  - rewrite !yields_app.
    pose proof (silent_fetch env self (page_detail_url env self page_id) w) as Hs.
    unfold run in Hfetch. rewrite Hfetch in Hs. unfold trace_of in Hs. simpl in Hs.
    rewrite yields_observe, Hs. reflexivity.
Qed.

Lemma yielded_page_is_produced (fuel : nat) (w : W env) (p : ConfluencePageEntity) :
  In (EPage p) (yields (trace_of (generate_entities env self fuel w))) ->
  exists sb, produced env self sb p.
Proof.
  intros Hin. eapply containers_In_page; [apply generate_entities_shape|exact Hin].
Qed.

(** C6.  (1) When content extraction returns nothing for a document, the
    round of the document loop for it yields no record and raises no
    error.  (2) Every document record in the output of a run is a record
    that content extraction returned for a file entity and the stream
    over its HTML envelope.  (3) Hence, when extraction keeps ids and
    returns nothing for every document with a given id, no document
    record of the output has this id. *)
Theorem dropped_document_is_omitted :
  (forall sb consumer page page_id details body fe w w1 t1,
     subscript page "id" = Ok page_id ->
     run (fetch env self (page_detail_url env self page_id)) w t1 w1 (Ok details) ->
     file_entity_of env self sb page details = Ok (fe, body) ->
     (forall st md, fst (process_file_entity_with_content env fe st md w1) = None) ->
     exists t w2,
       run (page_item env self sb consumer page) w t w2 (Ok tt) /\ yields t = []) /\
  (forall fuel w p,
     In (EPage p) (yields (trace_of (generate_entities env self fuel w))) ->
     exists sb, produced env self sb p) /\
  (forall id,
     keeps_id env ->
     (forall fe st md w,
        page_entity_id fe = id ->
        fst (process_file_entity_with_content env fe st md w) = None) ->
     forall fuel w p,
       In (EPage p) (yields (trace_of (generate_entities env self fuel w))) ->
       page_entity_id p <> id).
Proof.
  split; [|split].
  - intros. eapply page_item_dropped; eassumption.
  - apply yielded_page_is_produced.
  - intros id Hid Hnone fuel w p Hin Heq.
    destruct (yielded_page_is_produced fuel w p Hin)
      as [sb [page [details [fe [body [title [md [w0 [w1 [Hfe Hp]]]]]]]]]].
    pose proof (Hid _ _ _ _ _ _ Hp) as Hsame.
    assert (Hfid : page_entity_id fe = id) by congruence.
    pose proof (Hnone fe (AsyncIteratorWrapper.__init__
                            [html_content title (fmt env body)]) md w0 Hfid) as Hn.
    rewrite Hp in Hn. discriminate.
Qed.

End Filter.

Lemma dropped_document_is_omitted_witness :
  Forall (fun e => match e with
                   | EPage p => page_entity_id p <> "P2"%string
                   | _ => True
                   end)
    (yields (trace_of (generate_entities (Mock.served Demo.server Demo.drop_P2)
                         Mock.source 3 tt))).
Proof.
  apply Forall_forall. intros [s|p|c|b] Hin; try exact I.
  refine (proj2 (proj2 (dropped_document_is_omitted
                          (Mock.served Demo.server Demo.drop_P2) Mock.source))
            "P2"%string _ _ 3 tt p Hin).
  - intros fe st md w q w1 H. simpl in H. unfold Demo.drop_P2 in H.
    destruct (page_entity_id fe =? "P2")%string; inversion H. reflexivity.
  - intros fe st md w H. simpl. unfold Demo.drop_P2. rewrite H. reflexivity.
Defined.

(** The filter at work: [P2] and its comment are missing from the
    output, and nothing is raised. *)
Example drop_P2_run :
  exists t w1,
    run (generate_entities (Mock.served Demo.server Demo.drop_P2) Mock.source 3) tt
      t w1 (Ok tt) /\
    yields t = [ESpace Demo.s1; EPage Demo.p1; EComment Demo.c1; EBlog Demo.b1].
Proof.
  eexists. eexists. split; [vm_compute; reflexivity|]. vm_compute. reflexivity.
Qed.

(* ------------------------------------------------------------------ *)
(** ** Pagination and complete traversals *)
(* ------------------------------------------------------------------ *)

Lemma each_of_Forall2 {X} (R : json -> list X -> Prop) (xs : list json) (out : list X) :
  Forall2 (fun x e => R x [e]) xs out -> each R xs out.
Proof.
  induction 1 as [|x e xs out Hx Hxs IH]; [constructor|].
  change (e :: out) with ([e] ++ out). constructor; assumption.
Qed.

Section Stitching.

Import Py PyOps Http Validate.

Variable env : Env.
Variable self : ConfluenceSource.
Variable server : string -> json.
Hypothesis Hmock : mock_server env server.

Lemma for_each_ok (items : list json) (item : json -> M (W env) unit) :
  (forall x, In x items -> forall w, exists t w1, run (item x) w t w1 (Ok tt)) ->
  forall w, exists t w1, run (for_each items item) w t w1 (Ok tt).
Proof.
  induction items as [|x items IH]; intros Hitem w; simpl.
  - exists [], w. reflexivity.
  - destruct (Hitem x (or_introl eq_refl) w) as [t1 [w1 H1]].
    destruct (IH (fun y Hy => Hitem y (or_intror Hy)) w1) as [t2 [w2 H2]].
    exists (t1 ++ t2), w2. eapply run_bind; eassumption.
Qed.

(** With less fuel than the chain has pages, the loop is still running
    when the fuel is used up. *)
Lemma while_url_short (item : json -> M (W env) unit) (u : string)
    (pages : list (string * list json)) :
  listing env self server u pages ->
  (forall x, In x (all_items pages) ->
             forall w, exists t w1, run (item x) w t w1 (Ok tt)) ->
  forall fl, fl < length pages ->
  forall w, exists t w1, run (while_url env self fl (Some u) item) w t w1 OutOfFuel.
Proof.
  induction 1 as [u items Hu Hi Hn|u items nl pages Hu Hi Hn Hl IH];
    intros Hitem fl Hfl w.
  - destruct fl; [|simpl in Hfl; lia]. simpl.
    destruct (String.eqb_spec u ""); [contradiction|]. exists [], w. reflexivity.
  - destruct fl as [|fl].
    + simpl. destruct (String.eqb_spec u ""); [contradiction|]. exists [], w. reflexivity.
    + destruct (fetch_mock env self server Hmock u w) as [w1 Hf].
      destruct (for_each_ok items item
                  (fun x Hx => Hitem x (in_or_app _ _ x (or_introl Hx))) w1)
        as [t2 [w2 H2]].
      destruct (IH (fun x Hx => Hitem x (in_or_app _ _ x (or_intror Hx)))
                  fl ltac:(simpl in Hfl; lia) w2) as [t3 [w3 H3]].
      eexists. exists w3. eapply while_url_step; eassumption.
Qed.

Lemma Forall2_app_inv_l' {A B} (R : A -> B -> Prop) (l1 l2 : list A) (l : list B) :
  Forall2 R (l1 ++ l2) l ->
  exists k1 k2, l = k1 ++ k2 /\ Forall2 R l1 k1 /\ Forall2 R l2 k2.
Proof.
  intros H. apply Forall2_app_inv_l in H. destruct H as [k1 [k2 [H1 [H2 ->]]]]. eauto.
Qed.

Lemma pages_out_urls (pages : list (string * list json)) (out : list Entity) :
  Forall2 decodes_to_space (all_items pages) out ->
  pages_out string (fun u => [u])
    (fun x o => (exists s, space_entity_of x = Ok s) /\ o = []) pages (map fst pages).
Proof.
  revert out. induction pages as [|[u items] pages IH]; simpl; intros out H.
  - constructor.
  - destruct (Forall2_app_inv_l' _ _ _ _ H) as [k1 [k2 [-> [H1 H2]]]].
    apply (pages_out_cons string (fun u => [u]) _ u items [] pages (map fst pages)).
    + clear - H1. induction H1 as [|x e xs k [s [Hs _]] Hxs IHx]; [constructor|].
      apply (each_cons _ x [] xs []); [split; eauto|exact IHx].
    + eapply IH. exact H2.
Qed.

(** C4.  Take the listing of containers, served by a mock server as a
    finite chain of pages, every item of which is a well-formed container.
    With at least one unit of fuel per page, [_generate_space_entities]
    returns normally, has yielded one record for every item of every page,
    in arrival order, and has requested exactly the URLs of the chain: the
    first URL, then each next-link put behind the base URL.  With less
    fuel than there are pages the loop has not stopped: nothing but a
    response without next-link ends it. *)
Theorem pagination_yields_every_item_once (pages : list (string * list json))
    (out : list Entity) :
  listing env self server (spaces_url self) pages ->
  Forall2 decodes_to_space (all_items pages) out ->
  (forall fuel, length pages <= fuel -> forall w, exists t w1,
     run (_generate_space_entities env self fuel (fun s => yield_ env (ESpace s)))
       w t w1 (Ok tt) /\
     yields t = out /\
     map fst (requests t) = map fst pages) /\
  (forall fuel, fuel < length pages -> forall w, exists t w1,
     run (_generate_space_entities env self fuel (fun s => yield_ env (ESpace s)))
       w t w1 OutOfFuel).
Proof.
  intros Hl Hout. split.
  - intros fuel Hfuel w. unfold _generate_space_entities.
    set (item := fun space : json =>
                   bind (lift (space_entity_of space))
                     (fun e => yield_ env (ESpace e))).
    assert (Hy : exists n, forall fi, n <= fi -> forall fl, length pages <= fl ->
                 forall w, exists t w1,
                   run (while_url env self fl (Some (spaces_url self)) item) w t w1 (Ok tt)
                   /\ observe obs_yield t = out).
    { apply (while_url_runs env self server Hmock Entity obs_yield (fun _ => [])
               (fun _ _ => eq_refl) (fun _ => item)
               (fun x o => exists s, space_entity_of x = Ok s /\ o = [ESpace s])).
      - intros x o [s [Hs ->]]. exists 0. intros _ _ w0.
        exists [EvYield (ESpace s)], w0. split; [|reflexivity].
        eapply run_bind_lift; [exact Hs|]. apply run_emit.
      - exact Hl.
      - apply pages_out_yields. apply each_of_Forall2.
        eapply Forall2_impl; [|exact Hout].
        intros x e [s [Hs ->]]. eauto. }
    assert (Hu : exists n, forall fi, n <= fi -> forall fl, length pages <= fl ->
                 forall w, exists t w1,
                   run (while_url env self fl (Some (spaces_url self)) item) w t w1 (Ok tt)
                   /\ observe obs_url t = map fst pages).
    { apply (while_url_runs env self server Hmock string obs_url (fun u => [u])
               (fun _ _ => eq_refl) (fun _ => item)
               (fun x o => (exists s, space_entity_of x = Ok s) /\ o = [])).
      - intros x o [[s Hs] ->]. exists 0. intros _ _ w0.
        exists [EvYield (ESpace s)], w0. split; [|reflexivity].
        eapply run_bind_lift; [exact Hs|]. apply run_emit.
      - exact Hl.
      - eapply pages_out_urls. exact Hout. }
    destruct Hy as [n1 Hy]. destruct Hu as [n2 Hu].
    destruct (Hy n1 (le_n _) fuel Hfuel w) as [t [w1 [Hr Hyt]]].
    destruct (Hu n2 (le_n _) fuel Hfuel w) as [t' [w1' [Hr' Hut]]].
    unfold run in Hr, Hr'. rewrite Hr in Hr'. inversion Hr'; subst t' w1'.
    exists t, w1. split; [exact Hr|]. split.
    + rewrite yields_observe. exact Hyt.
    + rewrite requests_observe. exact Hut.
  - intros fuel Hfuel w. unfold _generate_space_entities.
    apply (while_url_short _ _ pages Hl); [|exact Hfuel].
    intros x Hx w0.
    assert (Hs : exists s, space_entity_of x = Ok s).
    { clear - Hx Hout. induction Hout as [|y e ys k [s [Hs _]] Hys IH];
        [contradiction|]. destruct Hx as [->|Hx]; eauto. }
    destruct Hs as [s Hs]. exists [EvYield (ESpace s)], w0.
    eapply run_bind_lift; [exact Hs|]. apply run_emit.
Qed.

End Stitching.

Lemma served_is_mock (server : string -> json)
    (keep : ConfluencePageEntity -> option ConfluencePageEntity) :
  mock_server (Mock.served server keep) server.
Proof. intros url h w. exists (Mock.ok_response (server url)), w. repeat split. Qed.

Lemma served_extraction (server : string -> json)
    (keep : ConfluencePageEntity -> option ConfluencePageEntity) :
  extraction (Mock.served server keep) keep.
Proof. intros fe st md w. reflexivity. Qed.

Section PagedExample.

Import Demo.
Local Open Scope string_scope.

Lemma paged_listing :
  listing (Mock.served paged Some) Mock.source paged (spaces_url Mock.source)
    [(spaces_url Mock.source, [space_item "A" "KA" "Alpha"; space_item "B" "KB" "Beta"]);
     (base ++ "?cursor=2", [space_item "C" "KC" "Gamma"])].
Proof.
  apply (listing_more _ _ _ _ _ (JStr "?cursor=2")).
  - intros H. vm_compute in H. discriminate.
  - reflexivity.
  - reflexivity.
  - apply listing_last.
    + intros H. vm_compute in H. discriminate.
    + reflexivity.
    + reflexivity.
Qed.

Lemma pagination_yields_every_item_once_witness :
  exists t w1,
    run (_generate_space_entities (Mock.served paged Some) Mock.source 2
           (fun s => yield_ (Mock.served paged Some) (ESpace s))) tt t w1 (Ok tt) /\
    yields t = [ESpace (space "A" "KA" "Alpha"); ESpace (space "B" "KB" "Beta");
                ESpace (space "C" "KC" "Gamma")] /\
    map fst (requests t) = map fst
      [(spaces_url Mock.source,
        [space_item "A" "KA" "Alpha"; space_item "B" "KB" "Beta"]);
       (base ++ "?cursor=2", [space_item "C" "KC" "Gamma"])].
Proof.
  refine (proj1 (pagination_yields_every_item_once (Mock.served paged Some) Mock.source
                   paged (served_is_mock paged Some) _ _ paged_listing _)
            2 (le_n 2) tt).
  repeat constructor; eexists; split; reflexivity.
Defined.

End PagedExample.

Section CompleteTraversal.

Variable env : Env.
Variable self : ConfluenceSource.
Variable server : string -> json.
Variable keep : ConfluencePageEntity -> option ConfluencePageEntity.

(** C5, as amended.  Against a mock server whose pagination chains are
    all finite and whose items are well-formed, and with a content
    extraction that is a function of the record, [generate_entities]
    terminates (for every sufficient amount of fuel it returns normally)
    and has yielded exactly the traversal of the dataset: every
    container, every document that extraction kept, followed by every one
    of its comments, and every blog post, each once and in arrival order.
    What a dropped document and its comments would have contributed is
    absent. *)
Theorem traversal_terminates_with_every_kept_item (out : list Entity) :
  mock_server env server ->
  extraction env keep ->
  traversal env self server keep out ->
  exists n, forall fuel, n <= fuel -> forall w, exists t w1,
    run (generate_entities env self fuel) w t w1 (Ok tt) /\ yields t = out.
Proof.
  intros Hmock Hkeep Htr.
  exact (generate_entities_settles env self server keep Hmock Hkeep out Htr).
Qed.

End CompleteTraversal.

Section DemoTraversal.

Import Demo.
Local Open Scope string_scope.

Lemma demo_traversal :
  traversal (Mock.served server drop_P2) Mock.source server drop_P2
    [ESpace s1; EPage p1; EComment c1; EBlog b1].
Proof.
  exists [(spaces_url Mock.source, [space_item "S1" "ENG" "Eng"])]. split.
  { apply listing_last; [intros H; vm_compute in H; discriminate|reflexivity|reflexivity]. }
  apply (each_cons _ (space_item "S1" "ENG" "Eng")
           [ESpace s1; EPage p1; EComment c1; EBlog b1] [] []); [|constructor].
  apply (container_block (Mock.served server drop_P2) Mock.source server drop_P2 _ s1
           [(pages_url Mock.source "S1", [item "P1"; item "P2"])]
           [(blogposts_url Mock.source "S1", [item "B1"])]
           [EPage p1; EComment c1] [EBlog b1]).
  - reflexivity.
  - apply listing_last; [intros H; vm_compute in H; discriminate|reflexivity|reflexivity].
  - apply (each_cons _ (item "P1") [EPage p1; EComment c1] [item "P2"] []).
    + apply (document_kept (Mock.served server drop_P2) Mock.source server drop_P2 _ _ (JStr "P1")
               (JStr "<p>plan</p>") p1 p1
               [(comments_url Mock.source "P1", [item "C1"])] [EComment c1]).
      * reflexivity.
      * vm_compute. reflexivity.
      * reflexivity.
      * apply listing_last;
          [intros H; vm_compute in H; discriminate|reflexivity|reflexivity].
      * apply (each_cons _ (item "C1") [EComment c1] [] []); [|constructor].
        exists c1. split; [vm_compute; reflexivity|reflexivity].
    + apply (each_cons _ (item "P2") [] [] []); [|constructor].
      apply (document_dropped (Mock.served server drop_P2) Mock.source server drop_P2 _ _ (JStr "P2")
               (JStr "<p>todo</p>") p2).
      * reflexivity.
      * vm_compute. reflexivity.
      * reflexivity.
  - apply listing_last; [intros H; vm_compute in H; discriminate|reflexivity|reflexivity].
  - apply (each_cons _ (item "B1") [EBlog b1] [] []); [|constructor].
    exists b1. split; [vm_compute; reflexivity|reflexivity].
Qed.

Lemma traversal_terminates_with_every_kept_item_witness :
  exists n, forall fuel, n <= fuel -> forall w, exists t w1,
    run (generate_entities (Mock.served server drop_P2) Mock.source fuel) w t w1 (Ok tt) /\
    yields t = [ESpace s1; EPage p1; EComment c1; EBlog b1].
Proof.
  apply (traversal_terminates_with_every_kept_item (Mock.served server drop_P2)
           Mock.source server drop_P2).
  - apply served_is_mock.
  - apply served_extraction.
  - exact demo_traversal.
Defined.

(** C5 as stated fails.  Every pagination chain of this server ends at
    its first response, the listing of the documents of [S1] holds the
    item [P2], and the listing of the comments of [P2] holds [C2]; the
    run returns normally, and neither [P2] nor [C2] is among the records
    it has yielded. *)
Lemma dropped_document_is_not_yielded :
  listing (Mock.served server drop_P2) Mock.source server (pages_url Mock.source "S1")
    [(pages_url Mock.source "S1", [item "P1"; item "P2"])] /\
  listing (Mock.served server drop_P2) Mock.source server (comments_url Mock.source "P2")
    [(comments_url Mock.source "P2", [item "C2"])] /\
  exists t w1,
    run (generate_entities (Mock.served server drop_P2) Mock.source 3) tt t w1 (Ok tt) /\
    ~ In "P2" (map entity_id (yields t)) /\
    ~ In "C2" (map entity_id (yields t)).
Proof.
  split; [|split].
  - apply listing_last; [intros H; vm_compute in H; discriminate|reflexivity|reflexivity].
  - apply listing_last; [intros H; vm_compute in H; discriminate|reflexivity|reflexivity].
  - eexists. eexists. split; [vm_compute; reflexivity|].
    split; vm_compute; intros H; repeat destruct H as [H|H]; try discriminate; exact H.
Qed.

End DemoTraversal.

Section FailingDetailExample.

Import Demo.
Local Open Scope string_scope.

Lemma fatal_fetch_aborts_traversal_witness :
  exists t w1 r,
    run (generate_entities Mock.scripted Mock.source 3) failing_detail t w1 r /\
    r = Raise (HTTPStatusError unavailable) /\
    yields t = [ESpace s1].
Proof.
  remember (generate_entities Mock.scripted Mock.source 3 failing_detail) as x eqn:Hx.
  destruct x as [[t w1] r]. symmetry in Hx.
  pose proof Hx as Hc. vm_compute in Hc. inversion Hc as [[Ht Hw Hr]].
  exists t, w1, r. split; [exact Hx|].
  destruct (fatal_fetch_aborts_traversal Mock.scripted Mock.source 3 failing_detail w1 t r
              Hx (firstn 4 t)
              (base ++ "/wiki/api/v2/pages/P1?body-format=storage")
              (HTTPStatusError unavailable) [])
    as [_ Hres].
  - rewrite <- Ht. vm_compute. reflexivity.
  - split; [exact Hres|]. rewrite <- Ht. vm_compute. reflexivity.
Defined.

End FailingDetailExample.

(* ------------------------------------------------------------------ *)
(** ** More on the authenticated GET *)
(* ------------------------------------------------------------------ *)

Section HeaderFacts.

Import Py.
Local Open Scope string_scope.

Lemma lookup_set_header_same (h : RequestHeaders) (k : string) (v : json) :
  lookup k (set_header h k v) = Some v.
Proof.
  induction h as [|[k' v'] h IH]; simpl.
  - rewrite String.eqb_refl. reflexivity.
  - destruct (k' =? k) eqn:E; simpl; rewrite E; [reflexivity|exact IH].
Qed.

Lemma lookup_set_header_other (h : RequestHeaders) (k k' : string) (v : json) :
  k' <> k -> lookup k' (set_header h k v) = lookup k' h.
Proof.
  intros Hne. induction h as [|[k0 v0] h IH]; simpl.
  - destruct (String.eqb_spec k k'); [congruence|reflexivity].
  - destruct (String.eqb_spec k0 k) as [->|Hk0]; simpl.
    + destruct (String.eqb_spec k k'); [congruence|reflexivity].
    + destruct (k0 =? k'); [reflexivity|exact IH].
Qed.

Lemma set_header_keys (h : RequestHeaders) (k : string) (v : json) :
  In k (map fst h) -> map fst (set_header h k v) = map fst h.
Proof.
  induction h as [|[k0 v0] h IH]; simpl; [contradiction|].
  intros Hin. destruct (String.eqb_spec k0 k) as [->|Hk0]; simpl; [reflexivity|].
  destruct Hin as [Heq|Hin]; [congruence|]. rewrite (IH Hin). reflexivity.
Qed.

Lemma auth_headers_has_authorization (self : ConfluenceSource) (tok : string) :
  In "Authorization" (map fst (auth_headers self tok)) /\
  lookup "Authorization" (auth_headers self tok) = Some (JStr ("Bearer " ++ tok)).
Proof.
  unfold auth_headers. destruct (truthy (cloud_id self)); simpl; auto.
Qed.

End HeaderFacts.

Section MoreAuthFacts.

Import Py PyOps Http.
Local Open Scope string_scope.

Variable env : Env.
Variable self : ConfluenceSource.

Ltac gwa_cases url w :=
  unfold _get_with_auth, bind, get_access_token, try_except, request,
    refresh_on_unauthorized, raise, lift, trace_of, outcome_of, run;
  destruct (client_get env url (auth_headers self (current_token env w)) w)
    as [[r|e] w1] eqn:Hget; simpl;
  [ destruct (check_response env r) eqn:Hcheck; simpl
  | destruct e as [r| | | | | | |]; simpl;
    [ destruct (status_code r =? 401)%Z eqn:H401; simpl;
      [ destruct (token_manager env) as [refresh|] eqn:Htm; simpl;
        [ destruct (refresh w1) as [[|] w2] eqn:Hrefresh; simpl;
          [ destruct (client_get env url _ w2) as [[r2|e2] w3] eqn:Hget2; simpl;
            [ destruct (check_response env r2) eqn:Hcheck2; simpl | ]
          | ]
        | ]
      | ]
    | .. ] ].

(** X1.  Whatever the world answers, one call of [_get_with_auth] makes
    one or two requests, all of them to the URL it was given, calls the
    refresh at most once, and makes the second request only after a
    refresh. *)
Theorem get_with_auth_request_budget (url : string) (w : W env) :
  let t := trace_of (_get_with_auth env self url w) in
  count_refresh t <= 1 /\
  1 <= length (requests t) /\
  length (requests t) <= 1 + count_refresh t /\
  Forall (fun rq => fst rq = url) (requests t).
Proof.
  gwa_cases url w; repeat split; simpl; try lia; repeat constructor.
Qed.

(** X2.  The first request carries the headers built from the current
    token.  There is a second request exactly when [client.get] raised
    [HTTPStatusError] for a 401, the source has a token manager and its
    refresh succeeded; the headers of that request are those of the first
    with the [Authorization] entry overwritten by the bearer token read
    from the world the refresh left: the same header names in the same
    order, the same value under every other name. *)
Theorem retry_changes_only_authorization (url : string) (w : W env) :
  let t := trace_of (_get_with_auth env self url w) in
  let h1 := auth_headers self (current_token env w) in
  (requests t = [(url, h1)] /\
   ~ exists r w1 refresh w2,
       client_get env url h1 w = (Raised (HTTPStatusError r), w1) /\
       status_code r = 401%Z /\
       token_manager env = Some refresh /\
       refresh w1 = (true, w2)) \/
  exists r w1 refresh w2 h2,
    client_get env url h1 w = (Raised (HTTPStatusError r), w1) /\
    status_code r = 401%Z /\
    token_manager env = Some refresh /\
    refresh w1 = (true, w2) /\
    requests t = [(url, h1); (url, h2)] /\
    lookup "Authorization" h2 = Some (JStr ("Bearer " ++ current_token env w2)) /\
    map fst h2 = map fst h1 /\
    forall k, k <> "Authorization" -> lookup k h2 = lookup k h1.
Proof.
  gwa_cases url w;
    try (left; split; [reflexivity|];
         intros [r' [w1' [rf [w2' [Hg [H4 [Ht Hr]]]]]]];
         try discriminate; inversion Hg; subst;
         try (rewrite H4 in H401; discriminate);
         try congruence;
         rewrite Htm in Ht; inversion Ht; subst; congruence);
    right; exists r, w1, refresh, w2; eexists;
    (split; [reflexivity|]);
    (split; [apply Z.eqb_eq; exact H401|]);
    (split; [reflexivity|]);
    (split; [exact Hrefresh|]);
    (split; [reflexivity|]);
    (split; [apply lookup_set_header_same|]);
    (split; [apply set_header_keys, auth_headers_has_authorization|]);
    intros k Hk; apply lookup_set_header_other; exact Hk.
Qed.

Lemma check_response_ok (r : Response) (j : json) :
  check_response env r = Ok j <-> is_success r = true /\ decoded r = Some j.
Proof.
  unfold check_response, raise_for_status, response_json. split.
  - destruct (is_success r); simpl.
    + destruct (decoded r); intros H; inversion H; auto.
    + destruct (status_code r =? 401)%Z; [destruct (scope_check env r) as [[]| |]|];
        simpl; discriminate.
  - intros [-> ->]. reflexivity.
Qed.

(** X3.  [_get_with_auth] returns a body only when a request of the call
    was answered by a 2xx response, and the body is what that response
    decodes to.  No error status, whatever its body says, is ever
    returned as data. *)
Theorem body_only_from_success (url : string) (w : W env) (j : json) :
  outcome_of (_get_with_auth env self url w) = Ok j ->
  exists h w0 w1 r,
    In (url, h) (requests (trace_of (_get_with_auth env self url w))) /\
    client_get env url h w0 = (Returned r, w1) /\
    is_success r = true /\
    decoded r = Some j.
Proof.
  gwa_cases url w; intros H; try discriminate; inversion H; subst.
  - apply check_response_ok in Hcheck. destruct Hcheck.
    do 4 eexists. split; [left; reflexivity|]. split; [exact Hget|]. auto.
  - apply check_response_ok in Hcheck2. destruct Hcheck2.
    do 4 eexists. split; [right; left; reflexivity|]. split; [exact Hget2|]. auto.
Qed.

(** X4.  A response with an error status other than 401 ends the call in
    [HTTPStatusError] carrying that response, after the one request and
    without a refresh; the scope test is not applied to it, whatever its
    body and headers say. *)
Theorem error_status_is_http_error (url : string) (w w1 : W env) (r : Response) :
  client_get env url (auth_headers self (current_token env w)) w = (Returned r, w1) ->
  is_success r = false ->
  status_code r <> 401%Z ->
  run (_get_with_auth env self url) w
    [EvGet url (auth_headers self (current_token env w))] w1
    (Raise (HTTPStatusError r)).
Proof.
  intros Hget Hs H401. unfold run.
  rewrite (get_with_auth_returned env self url w w1 r Hget).
  unfold check_response, raise_for_status. rewrite Hs. simpl.
  destruct (Z.eqb_spec (status_code r) 401); [contradiction|]. reflexivity.
Qed.

(** X5.  The refresh is called only when [client.get] itself raised
    [HTTPStatusError] for a 401 and the source has a token manager. *)
Theorem refresh_only_on_raised_401 (url : string) (w : W env) :
  count_refresh (trace_of (_get_with_auth env self url w)) = 1 ->
  exists r w1 refresh,
    client_get env url (auth_headers self (current_token env w)) w
    = (Raised (HTTPStatusError r), w1) /\
    status_code r = 401%Z /\
    token_manager env = Some refresh.
Proof.
  gwa_cases url w; intros H; try discriminate;
    apply Z.eqb_eq in H401; eauto 6.
Qed.

(** X6.  An exception of [client.get] that is not the refreshable case
    (not an [HTTPStatusError] for a 401 on a source with a token manager)
    leaves the call as it came, after the one request. *)
Theorem other_exception_propagates (url : string) (w w1 : W env) (e : exc) :
  client_get env url (auth_headers self (current_token env w)) w = (Raised e, w1) ->
  (forall r, e = HTTPStatusError r ->
             status_code r <> 401%Z \/ token_manager env = None) ->
  run (_get_with_auth env self url) w
    [EvGet url (auth_headers self (current_token env w))] w1 (Raise e).
Proof.
  intros Hget Hcase. unfold run, _get_with_auth, bind, get_access_token, try_except,
    request. rewrite Hget. simpl.
  destruct e as [r| | | | | | |]; try reflexivity.
  destruct (Hcase r eq_refl) as [Hne|Hnone].
  - destruct (Z.eqb_spec (status_code r) 401); [contradiction|]. reflexivity.
  - rewrite Hnone. destruct (status_code r =? 401)%Z; reflexivity.
Qed.

End MoreAuthFacts.

Section MoreAuthExamples.

Import Http.
Local Open Scope string_scope.

Lemma body_only_from_success_witness :
  exists h w0 w1 r,
    In ("u", h)
      (requests (trace_of (_get_with_auth Mock.scripted Mock.source "u"
                             ([Raised (HTTPStatusError Mock.unauthorized)], "old")))) /\
    client_get Mock.scripted "u" h w0 = (Returned r, w1) /\
    is_success r = true /\
    decoded r = Some (JObj []).
Proof.
  apply (body_only_from_success Mock.scripted Mock.source "u"
           ([Raised (HTTPStatusError Mock.unauthorized)], "old") (JObj [])).
  reflexivity.
Defined.

Lemma error_status_is_http_error_witness :
  run (_get_with_auth Mock.scripted Mock.source "u")
    ([Returned (mkResponse 403 [("x-failure-category", "SCOPE")] "json"
                  (Some (JObj [("message", JStr "missing scope")])))], "old")
    [EvGet "u" (auth_headers Mock.source "old")] ([], "old")
    (Raise (HTTPStatusError
              (mkResponse 403 [("x-failure-category", "SCOPE")] "json"
                 (Some (JObj [("message", JStr "missing scope")]))))).
Proof.
  apply (error_status_is_http_error Mock.scripted Mock.source "u"
           ([Returned (mkResponse 403 [("x-failure-category", "SCOPE")] "json"
                         (Some (JObj [("message", JStr "missing scope")])))], "old")).
  - reflexivity.
  - reflexivity.
  - discriminate.
Defined.

Lemma refresh_only_on_raised_401_witness :
  exists r w1 refresh,
    client_get Mock.scripted "u" (auth_headers Mock.source "old")
      ([Raised (HTTPStatusError Mock.unauthorized)], "old")
    = (Raised (HTTPStatusError r), w1) /\
    status_code r = 401%Z /\
    token_manager Mock.scripted = Some refresh.
Proof.
  apply (refresh_only_on_raised_401 Mock.scripted Mock.source "u"
           ([Raised (HTTPStatusError Mock.unauthorized)], "old")).
  reflexivity.
Defined.

Lemma other_exception_propagates_witness :
  run (_get_with_auth Mock.scripted Mock.source "u")
    ([Raised (OtherError "ConnectTimeout")], "old")
    [EvGet "u" (auth_headers Mock.source "old")] ([], "old")
    (Raise (OtherError "ConnectTimeout")).
Proof.
  apply (other_exception_propagates Mock.scripted Mock.source "u"
           ([Raised (OtherError "ConnectTimeout")], "old")).
  - reflexivity.
  - intros r H. discriminate.
Defined.

End MoreAuthExamples.

(* ------------------------------------------------------------------ *)
(** ** More on the stream adapter *)
(* ------------------------------------------------------------------ *)

Section MoreWrapperFacts.

Import AsyncIteratorWrapper.

Variables (I T : Type) (next : I -> Step T * I).

(** X7.  Until the wrapped iterator signals its end, the wrapper is
    transparent: [n] reads return what [n] calls of [next] give, items
    and exceptions alike, in order; the iterator has advanced by exactly
    [n] steps and the wrapper is not marked consumed, so an exception of
    the iterator does not close the stream. *)
Theorem wrapper_is_transparent_before_the_end (n : nat) (it : I) :
  existsb is_stop (fst (iter_steps next n it)) = false ->
  reads I T next n (mk it false)
  = (map read_of_step (fst (iter_steps next n it)),
     mk (snd (iter_steps next n it)) false).
Proof.
  revert it. induction n as [|n IH]; intros it; simpl; [reflexivity|].
  unfold __anext__. simpl.
  destruct (next it) as [s it1]. specialize (IH it1).
  destruct (iter_steps next n it1) as [ss it2]. simpl in *.
  intros H. apply orb_false_iff in H. destruct H as [Hs Hss].
  destruct s as [x| |e]; try discriminate; rewrite (IH Hss); reflexivity.
Qed.

End MoreWrapperFacts.

Section ListStream.

Import AsyncIteratorWrapper.

Variable T : Type.

Lemma reads_list_items (l : list T) :
  reads (list T) T list_next (length l) (__init__ l)
  = (map Got l, mk [] false).
Proof.
  unfold __init__. induction l as [|x l IH]; simpl; [reflexivity|].
  unfold __anext__. simpl. rewrite IH. reflexivity.
Qed.

Lemma reads_app (I : Type) (next : I -> Step T * I) (n k : nat) (self : t I) :
  reads I T next (n + k) self
  = let '(rs1, self1) := reads I T next n self in
    let '(rs2, self2) := reads I T next k self1 in
    (rs1 ++ rs2, self2).
Proof.
  revert self. induction n as [|n IH]; intros self; simpl.
  - destruct (reads I T next k self). reflexivity.
  - destruct (__anext__ I T next self) as [r self1]. rewrite IH.
    destruct (reads I T next n self1) as [rs1 self2].
    destruct (reads I T next k self2). reflexivity.
Qed.

Lemma reads_empty_list (k : nat) (c : bool) :
  fst (reads (list T) T list_next k (mk [] c)) = repeat StopAsyncIteration k.
Proof.
  revert c. induction k as [|k IH]; intros c; simpl; [reflexivity|].
  unfold __anext__. destruct c; simpl.
  - specialize (IH true). destruct (reads (list T) T list_next k (mk [] true)).
    simpl in *. rewrite IH. reflexivity.
  - specialize (IH true). destruct (reads (list T) T list_next k (mk [] true)).
    simpl in *. rewrite IH. reflexivity.
Qed.

(** X8.  Around [iter(chunks)] the wrapper delivers every chunk of the
    list exactly once, in order, and reports end-of-stream on each read
    that follows. *)
Theorem list_stream_delivers_each_chunk_once (l : list T) (k : nat) :
  fst (reads (list T) T list_next (length l + k) (__init__ l))
  = map Got l ++ repeat StopAsyncIteration k.
Proof.
  rewrite reads_app, reads_list_items.
  pose proof (reads_empty_list k false) as H.
  destruct (reads (list T) T list_next k (mk [] false)). simpl in *.
  rewrite H. reflexivity.
Qed.

End ListStream.

Lemma wrapper_is_transparent_before_the_end_witness :
  AsyncIteratorWrapper.reads nat nat
    (fun n => if Nat.even n then (AsyncIteratorWrapper.Item n, S n)
              else (AsyncIteratorWrapper.Fails (OtherError "odd"), S n))
    3 (AsyncIteratorWrapper.mk 0 false)
  = ([AsyncIteratorWrapper.Got 0;
      AsyncIteratorWrapper.Failed (OtherError "odd");
      AsyncIteratorWrapper.Got 2],
     AsyncIteratorWrapper.mk 3 false).
Proof.
  apply (wrapper_is_transparent_before_the_end nat nat
           (fun n => if Nat.even n then (AsyncIteratorWrapper.Item n, S n)
                     else (AsyncIteratorWrapper.Fails (OtherError "odd"), S n))
           3 0).
  reflexivity.
Defined.

(* ------------------------------------------------------------------ *)
(** ** More on the constructor *)
(* ------------------------------------------------------------------ *)

Section MoreCreateFacts.

Import Py PyOps Http.
Local Open Scope string_scope.

Variable env : Env.

(** X9.  [_get_accessible_resources] makes exactly one request, to the
    accessible-resources URL with the bearer token, and never raises.
    When the request is answered by a 2xx response with a JSON body it
    returns that body, and in every other case (an exception of the
    request, an error status, a body that is not JSON) the empty list. *)
Theorem accessible_resources_one_request (tok : string) (w : W env) :
  exists w1 j,
    run (_get_accessible_resources env tok) w
      [EvGet accessible_resources_url
         [("Authorization", JStr ("Bearer " ++ tok)); ("Accept", JStr "application/json")]]
      w1 (Ok j) /\
    (forall r w' body,
       client_get env accessible_resources_url (preflight_headers tok) w
       = (Returned r, w') ->
       is_success r = true -> decoded r = Some body -> j = body) /\
    ((forall r w' body,
        client_get env accessible_resources_url (preflight_headers tok) w
        = (Returned r, w') ->
        is_success r = true -> decoded r = Some body -> False) ->
     j = JArr []).
Proof.
  unfold run. rewrite get_accessible_resources_eq.
  destruct (client_get env accessible_resources_url (preflight_headers tok) w)
    as [[r|e] w1] eqn:Hget.
  - exists w1. eexists. split; [reflexivity|]. split.
    + intros r' w' body H Hs Hd. inversion H; subst. rewrite Hs, Hd. reflexivity.
    + intros Hno. destruct (is_success r) eqn:Hs; [|reflexivity].
      destruct (decoded r) as [body|] eqn:Hd; [|reflexivity].
      destruct (Hno r w1 body eq_refl Hs Hd).
  - exists w1, (JArr []). split; [reflexivity|]. split.
    + intros r' w' body H. discriminate.
    + reflexivity.
Qed.

Lemma extract_cloud_id_first_resource (tok : string) (w w1 : W env) (r : Response)
    (f : list (string * json)) (rest : list json) (v : json) :
  client_get env accessible_resources_url (preflight_headers tok) w = (Returned r, w1) ->
  is_success r = true ->
  decoded r = Some (JArr (JObj f :: rest)) ->
  lookup "id" f = Some v ->
  run (_extract_cloud_id env tok) w
    [EvGet accessible_resources_url (preflight_headers tok)] w1 (Ok v).
Proof.
  intros Hget Hs Hd Hid. unfold run, _extract_cloud_id, try_except, bind.
  rewrite get_accessible_resources_eq, Hget, Hs, Hd. simpl.
  rewrite Hid. reflexivity.
Qed.

(** X10.  When the pre-flight answer is a 2xx response listing at least
    one resource, and the first resource is an object with an [id], the
    instance takes that id as its cloud id, whatever its value, and the
    Confluence prefix followed by it as its base URL; the other resources
    play no part. *)
Theorem create_uses_first_resource (tok : string) (w w1 : W env) (r : Response)
    (f : list (string * json)) (rest : list json) (v : json) :
  client_get env accessible_resources_url (preflight_headers tok) w = (Returned r, w1) ->
  is_success r = true ->
  decoded r = Some (JArr (JObj f :: rest)) ->
  lookup "id" f = Some v ->
  run (create env tok) w
    [EvGet accessible_resources_url (preflight_headers tok)] w1
    (Ok (mkSource tok v (confluence_prefix ++ fmt env v))).
Proof.
  intros Hget Hs Hd Hid. unfold run, create, bind.
  rewrite (extract_cloud_id_first_resource tok w w1 r f rest v Hget Hs Hd Hid).
  reflexivity.
Qed.

Lemma extract_cloud_id_trace (tok : string) (w : W env) :
  trace_of (_extract_cloud_id env tok w)
  = [EvGet accessible_resources_url (preflight_headers tok)].
Proof.
  unfold _extract_cloud_id, try_except, bind, trace_of.
  rewrite get_accessible_resources_eq.
  destruct (client_get env accessible_resources_url (preflight_headers tok) w)
    as [[r|e] w1]; simpl.
  - destruct (truthy _); simpl; [|reflexivity].
    unfold lift. destruct (first_item _) as [x| |]; simpl; try reflexivity.
    destruct (dict_get x "id" (JStr "")); reflexivity.
  - reflexivity.
Qed.

(** X11.  Whatever the world answers, [create] makes the one pre-flight
    request and nothing else: no request to the Confluence API, no
    refresh, no record. *)
Theorem create_makes_one_request (tok : string) (w : W env) :
  trace_of (create env tok w)
  = [EvGet accessible_resources_url (preflight_headers tok)].
Proof.
  pose proof (extract_cloud_id_trace tok w) as H.
  unfold create, bind, trace_of in *.
  destruct (_extract_cloud_id env tok w) as [[t w1] [c|e|]]; simpl in *;
    rewrite H; reflexivity.
Qed.

End MoreCreateFacts.

Lemma create_uses_first_resource_witness :
  run (create Mock.scripted "tok")
    ([Http.Returned
        (Mock.ok_response
           (JArr [JObj [("id", JStr "cloud-1"); ("url", JStr "https://a.example")];
                  JObj [("id", JStr "cloud-2")]]))],
     "tok"%string)
    [EvGet accessible_resources_url (preflight_headers "tok")] ([], "tok"%string)
    (Ok (mkSource "tok" (JStr "cloud-1")
           "https://api.atlassian.com/ex/confluence/cloud-1")).
Proof.
  apply (create_uses_first_resource Mock.scripted "tok"
           ([Http.Returned
               (Mock.ok_response
                  (JArr [JObj [("id", JStr "cloud-1"); ("url", JStr "https://a.example")];
                         JObj [("id", JStr "cloud-2")]]))],
            "tok"%string)
           ([], "tok"%string)
           (Mock.ok_response
              (JArr [JObj [("id", JStr "cloud-1"); ("url", JStr "https://a.example")];
                     JObj [("id", JStr "cloud-2")]]))
           [("id"%string, JStr "cloud-1"); ("url"%string, JStr "https://a.example")]
           [JObj [("id"%string, JStr "cloud-2")]] (JStr "cloud-1")).
  - reflexivity.
  - reflexivity.
  - reflexivity.
  - reflexivity.
Defined.

(* ------------------------------------------------------------------ *)
(** ** Termination within a bound *)
(* ------------------------------------------------------------------ *)

Section Starvation.

Variable St : Type.

Lemma starves_ret {A} (a : A) : never_starves (@ret St A a).
Proof. intros w. discriminate. Qed.

Lemma starves_lift {A} (r : res A) : r <> OutOfFuel -> never_starves (@lift St A r).
Proof. intros H w. exact H. Qed.

Lemma starves_emit (ev : Event) : never_starves (@emit St ev).
Proof. intros w. discriminate. Qed.

Lemma starves_bind {A B} (m : M St A) (k : A -> M St B) :
  never_starves m -> (forall a, never_starves (k a)) -> never_starves (bind m k).
Proof.
  intros Hm Hk w. specialize (Hm w). unfold bind, never_starves, outcome_of in *.
  destruct (m w) as [[t w1] [a|e|]]; simpl in *; try discriminate; [|contradiction].
  specialize (Hk a w1). destruct (k a w1) as [[t2 w2] r]. exact Hk.
Qed.

Lemma starves_bind_post {A B} (m : M St A) (k : A -> M St B) (R : A -> Prop) :
  (forall w, match outcome_of (m w) with
             | Ok a => R a
             | Raise _ => True
             | OutOfFuel => False
             end) ->
  (forall a, R a -> never_starves (k a)) -> never_starves (bind m k).
Proof.
  intros Hm Hk w. specialize (Hm w). unfold bind, never_starves, outcome_of in *.
  destruct (m w) as [[t w1] [a|e|]]; simpl in *; try discriminate; [|contradiction].
  specialize (Hk a Hm w1). destruct (k a w1) as [[t2 w2] r]. exact Hk.
Qed.

Lemma starves_for_each {A} (xs : list A) (body : A -> M St unit) :
  (forall x, never_starves (body x)) -> never_starves (for_each xs body).
Proof.
  intros Hb. induction xs as [|x xs IH]; simpl; [apply starves_ret|].
  apply starves_bind; auto.
Qed.

End Starvation.

Lemma rbind_pure {A B} (r : res A) (k : A -> res B) :
  r <> OutOfFuel -> (forall a, k a <> OutOfFuel) -> rbind r k <> OutOfFuel.
Proof. intros Hr Hk. destruct r; simpl; [apply Hk|discriminate|contradiction]. Qed.

Section PureOps.

Import Py PyOps Http Validate.

Lemma dict_get_pure (d : json) (k : string) (v : json) : dict_get d k v <> OutOfFuel.
Proof. destruct d; discriminate. Qed.

Lemma subscript_pure (d : json) (k : string) : subscript d k <> OutOfFuel.
Proof. destruct d; try discriminate. simpl. destruct (lookup k fields); discriminate. Qed.

Lemma iterate_pure (v : json) : iterate v <> OutOfFuel.
Proof. destruct v; discriminate. Qed.

Lemma as_str_pure (v : json) : as_str v <> OutOfFuel.
Proof. destruct v; discriminate. Qed.

Lemma as_opt_str_pure (v : json) : as_opt_str v <> OutOfFuel.
Proof. destruct v; discriminate. Qed.

Lemma storage_value_pure (d v : json) : storage_value d v <> OutOfFuel.
Proof.
  unfold storage_value. repeat (apply rbind_pure; [apply dict_get_pure|intros ?]).
  apply dict_get_pure.
Qed.

End PureOps.

Ltac pure_res :=
  repeat first
    [ apply rbind_pure; [|intros ?]
    | apply dict_get_pure | apply subscript_pure | apply iterate_pure
    | apply as_str_pure | apply as_opt_str_pure | apply storage_value_pure
    | discriminate ].

Section BoundedTermination.

Import Py PyOps Http Validate.

Variable env : Env.
Variable self : ConfluenceSource.
Variable server : string -> json.
Hypothesis Hmock : mock_server env server.

Lemma next_url_pure (data : json) : next_url env self data <> OutOfFuel.
Proof. unfold next_url. pure_res. Qed.

Lemma space_entity_of_pure (x : json) : space_entity_of x <> OutOfFuel.
Proof. unfold space_entity_of. pure_res. Qed.

Lemma blog_entity_of_pure (sb : Breadcrumb) (x : json) : blog_entity_of sb x <> OutOfFuel.
Proof. unfold blog_entity_of. pure_res. Qed.

Lemma comment_entity_of_pure (bcs : list Breadcrumb) (x : json) :
  comment_entity_of bcs x <> OutOfFuel.
Proof. unfold comment_entity_of. pure_res. Qed.

Lemma file_entity_of_pure (sb : Breadcrumb) (page details : json) :
  file_entity_of env self sb page details <> OutOfFuel.
Proof. unfold file_entity_of. pure_res. Qed.

Lemma starves_fetch (url : string) : never_starves (fetch env self url).
Proof.
  intros w. destruct (fetch_mock env self server Hmock url w) as [w1 H].
  unfold run in H. rewrite H. discriminate.
Qed.

Lemma next_url_some (data : json) (u : string) :
  next_url env self data = Ok (Some u) ->
  exists nl, page_next data = Some (Some nl) /\ u = (base_url self ++ fmt env nl)%string.
Proof.
  unfold next_url, page_next, dict_get. destruct data as [| | | | |f]; try discriminate.
  simpl. destruct (lookup "_links" f) as [[| | | | |g]|]; simpl; try discriminate.
  destruct (lookup "next" g) as [nl|]; simpl.
  - destruct (truthy nl); intros H; inversion H. eauto.
  - discriminate.
Qed.

Lemma ends_within_mono (n m : nat) (u : string) :
  n <= m -> ends_within env self server n u -> ends_within env self server m u.
Proof.
  revert m u. induction n as [|n IH]; intros m u Hle H; [contradiction|].
  destruct m as [|m]; [lia|]. simpl in *.
  destruct (page_next (server u)) as [[nl|]|]; try exact I.
  apply IH; [lia|exact H].
Qed.

Lemma starves_while_url (item : json -> M (W env) unit) :
  (forall x, never_starves (item x)) ->
  forall fuel url,
    match url with
    | Some u => ends_within env self server fuel u
    | None => True
    end ->
    never_starves (while_url env self fuel url item).
Proof.
  intros Hitem. induction fuel as [|fuel IH]; intros [u|] Hends; simpl;
    try apply starves_ret; try contradiction.
  destruct (u =? "")%string; [apply starves_ret|].
  apply (starves_bind_post _ _ _ (fun data => data = server u)).
  { intros w. destruct (fetch_mock env self server Hmock u w) as [w1 Hf].
    unfold run in Hf. rewrite Hf. reflexivity. }
  intros data ->.
  apply starves_bind; [apply starves_lift, dict_get_pure|]. intros results.
  apply starves_bind; [apply starves_lift, iterate_pure|]. intros items.
  apply starves_bind; [apply starves_for_each, Hitem|]. intros _.
  apply (starves_bind_post _ _ _ (fun o => next_url env self (server u) = Ok o)).
  { intros w. unfold lift, outcome_of. simpl.
    destruct (next_url env self (server u)) eqn:Hn; auto.
    exact (next_url_pure _ Hn). }
  intros [u'|] Hn.
  - destruct (next_url_some _ _ Hn) as [nl [Hp ->]].
    apply IH. simpl in Hends. rewrite Hp in Hends. exact Hends.
  - apply IH. exact I.
Qed.

Lemma starves_yield (e : Entity) : never_starves (yield_ env e).
Proof. apply starves_emit. Qed.

Lemma starves_process (fe : ConfluencePageEntity) (st : ContentStream) (md : Metadata) :
  never_starves (process env fe st md).
Proof.
  intros w. unfold process, outcome_of.
  destruct (process_file_entity_with_content env fe st md w). discriminate.
Qed.

Variable bound : nat.
Hypothesis Hbound : forall u, ends_within env self server bound u.

Lemma starves_generate_entities (fuel : nat) :
  bound <= fuel -> never_starves (generate_entities env self fuel).
Proof.
  intros Hfuel.
  assert (Hany : forall u, ends_within env self server fuel u).
  { intros u. eapply ends_within_mono; [exact Hfuel|apply Hbound]. }
  unfold generate_entities, _generate_space_entities.
  apply starves_while_url; [|apply Hany]. intros space.
  apply starves_bind; [apply starves_lift, space_entity_of_pure|]. intros s.
  unfold on_space. apply starves_bind; [apply starves_yield|]. intros _.
  apply starves_bind.
  - unfold _generate_page_entities. apply starves_while_url; [|apply Hany].
    intros page. unfold page_item.
    apply starves_bind; [apply starves_lift, subscript_pure|]. intros page_id.
    apply starves_bind; [apply starves_fetch|]. intros details.
    apply starves_bind; [apply starves_lift, file_entity_of_pure|]. intros [fe body].
    apply starves_bind; [apply starves_lift, dict_get_pure|]. intros title.
    apply starves_bind; [apply starves_process|]. intros [p|]; [|apply starves_ret].
    unfold on_page. apply starves_bind; [apply starves_yield|]. intros _.
    unfold _generate_comment_entities. apply starves_while_url; [|apply Hany].
    intros c. apply starves_bind; [apply starves_lift, comment_entity_of_pure|].
    intros ce. apply starves_yield.
  - intros _. unfold _generate_blog_post_entities.
    apply starves_while_url; [|apply Hany].
    intros b. apply starves_bind; [apply starves_lift, blog_entity_of_pure|].
    intros be. apply starves_yield.
Qed.

End BoundedTermination.

(** X12.  Against a mock server every pagination chain of which ends
    within [bound] responses, [generate_entities] with at least [bound]
    units of fuel always comes to an end, normally or with an exception,
    whatever the items look like and whatever content extraction does:
    the nesting of the loops adds nothing to the fuel a single chain
    needs. *)
Theorem traversal_ends_within_chain_bound (env : Env) (self : ConfluenceSource)
    (server : string -> json) (bound fuel : nat) (w : W env) :
  mock_server env server ->
  (forall u, ends_within env self server bound u) ->
  bound <= fuel ->
  outcome_of (generate_entities env self fuel w) <> OutOfFuel.
Proof.
  intros Hmock Hbound Hfuel.
  exact (starves_generate_entities env self server Hmock bound Hbound fuel Hfuel w).
Qed.

Lemma paged_ends_within_2 (u : string) :
  ends_within (Mock.served Demo.paged Some) Mock.source Demo.paged 2 u.
Proof.
  simpl. unfold Demo.paged at 1.
  destruct (u =? spaces_url Mock.source)%string; [|
    destruct (u =? Demo.base ++ "?cursor=2")%string; exact I].
  vm_compute. exact I.
Qed.

Lemma traversal_ends_within_chain_bound_witness :
  outcome_of (generate_entities (Mock.served Demo.paged Some) Mock.source 2 tt)
  <> OutOfFuel.
Proof.
  apply (traversal_ends_within_chain_bound (Mock.served Demo.paged Some) Mock.source
           Demo.paged 2 2 tt).
  - apply served_is_mock.
  - exact paged_ends_within_2.
  - apply le_n.
Defined.

(* ------------------------------------------------------------------ *)
(** ** What a run requests *)
(* ------------------------------------------------------------------ *)

Lemma bind_ext {St A B} (m : M St A) (k1 k2 : A -> M St B) (w : St) :
  (forall a w1, k1 a w1 = k2 a w1) -> bind m k1 w = bind m k2 w.
Proof.
  intros H. unfold bind. destruct (m w) as [[t w1] [a|e|]]; try reflexivity.
  rewrite H. reflexivity.
Qed.

Section AllObsRules.

Variables (St X : Type) (obs : Event -> list X) (P : X -> Prop).

Lemma all_obs_ret {A} (a : A) : all_obs obs P (@ret St A a).
Proof. intros w. constructor. Qed.

Lemma all_obs_raise {A} (e : exc) : all_obs obs P (@raise St A e).
Proof. intros w. constructor. Qed.

Lemma all_obs_lift {A} (r : res A) : all_obs obs P (@lift St A r).
Proof. intros w. constructor. Qed.

Lemma all_obs_out_of_fuel {A} : all_obs obs P (@out_of_fuel St A).
Proof. intros w. constructor. Qed.

Lemma all_obs_bind {A B} (m : M St A) (k : A -> M St B) :
  all_obs obs P m -> (forall a, all_obs obs P (k a)) -> all_obs obs P (bind m k).
Proof.
  intros Hm Hk w. specialize (Hm w). unfold bind, all_obs, trace_of in *.
  destruct (m w) as [[t w1] [a|e|]]; simpl in *; try assumption.
  specialize (Hk a w1). destruct (k a w1) as [[t2 w2] r]; simpl in *.
  rewrite observe_app. apply Forall_app. split; assumption.
Qed.

Lemma all_obs_try_except {A} (m : M St A) (h : exc -> M St A) :
  all_obs obs P m -> (forall e, all_obs obs P (h e)) -> all_obs obs P (try_except m h).
Proof.
  intros Hm Hh w. specialize (Hm w). unfold try_except, all_obs, trace_of in *.
  destruct (m w) as [[t w1] [a|e|]]; simpl in *; try assumption.
  specialize (Hh e w1). destruct (h e w1) as [[t2 w2] r]; simpl in *.
  rewrite observe_app. apply Forall_app. split; assumption.
Qed.

Lemma all_obs_for_each {A} (xs : list A) (body : A -> M St unit) :
  (forall x, all_obs obs P (body x)) -> all_obs obs P (for_each xs body).
Proof.
  intros Hb. induction xs as [|x xs IH]; simpl; [apply all_obs_ret|].
  apply all_obs_bind; auto.
Qed.

Lemma all_obs_quiet {A} (m : M St A) : quiet obs m -> all_obs obs P m.
Proof. intros H w. rewrite (H w). constructor. Qed.

End AllObsRules.

Lemma prefix_app (s t : string) : String.prefix s (s ++ t) = true.
Proof.
  induction s as [|c s IH]; simpl; [destruct t; reflexivity|].
  destruct (Ascii.ascii_dec c c) as [_|Hne]; [exact IH|congruence].
Qed.

Lemma app_not_empty (s : string) (c : ascii) (t : string) :
  (s ++ String c t)%string <> EmptyString.
Proof. destruct s; discriminate. Qed.

Section RequestedUrls.

Import Py PyOps Http Validate.

Variable env : Env.
Variable self : ConfluenceSource.
Variable P : string -> Prop.

Lemma urls_request (url : string) (h : RequestHeaders) :
  P url -> all_obs obs_url P (request env url h).
Proof.
  intros HP w. unfold request, trace_of.
  destruct (client_get env url h w) as [[r|e] w1]; simpl; repeat constructor; exact HP.
Qed.

Lemma urls_get_with_auth (url : string) :
  P url -> all_obs obs_url P (_get_with_auth env self url).
Proof.
  intros HP. unfold _get_with_auth.
  apply all_obs_bind; [intros w; constructor|]. intros tok.
  apply all_obs_bind; [|intros r; apply all_obs_lift].
  apply all_obs_try_except; [apply urls_request, HP|].
  intros [r| | | | | | |]; try apply all_obs_raise.
  destruct (status_code r =? 401)%Z; [|apply all_obs_raise].
  destruct (token_manager env) as [refresh|]; [|apply all_obs_raise].
  apply all_obs_bind.
  - intros w. unfold refresh_on_unauthorized, trace_of.
    destruct (refresh w); simpl. constructor.
  - intros [|]; [|apply all_obs_raise].
    apply all_obs_bind; [intros w; constructor|]. intros tok2.
    apply urls_request, HP.
Qed.

Lemma urls_fetch (url : string) : P url -> all_obs obs_url P (fetch env self url).
Proof.
  intros HP w. pose proof (urls_get_with_auth url HP w) as H.
  unfold fetch, trace_of in *.
  destruct (_get_with_auth env self url w) as [[t w1] [a|e|]]; simpl in *; try assumption.
  rewrite observe_app. simpl. rewrite app_nil_r. exact H.
Qed.

Lemma urls_yield (e : Entity) : all_obs obs_url P (yield_ env e).
Proof. intros w. constructor. Qed.

Lemma urls_process (fe : ConfluencePageEntity) (st : ContentStream) (md : Metadata) :
  all_obs obs_url P (process env fe st md).
Proof.
  intros w. unfold process, trace_of.
  destruct (process_file_entity_with_content env fe st md w). constructor.
Qed.

Lemma urls_lift_then {A B} (r : res A) (k : A -> M (W env) B) :
  (forall a, all_obs obs_url P (k a)) -> all_obs obs_url P (bind (lift r) k).
Proof. intros H. apply all_obs_bind; [apply all_obs_lift|exact H]. Qed.

Lemma urls_lift_post {A B} (r : res A) (k : A -> M (W env) B) :
  (forall a, r = Ok a -> all_obs obs_url P (k a)) -> all_obs obs_url P (bind (lift r) k).
Proof.
  intros H w. unfold bind, lift. destruct r as [a|e|]; simpl; try constructor.
  specialize (H a eq_refl w). unfold trace_of in *.
  destruct (k a w) as [[t2 w2] r]. exact H.
Qed.

Hypothesis Hbase : forall s, P (base_url self ++ s)%string.

Lemma urls_while_url (item : json -> M (W env) unit) :
  (forall x, all_obs obs_url P (item x)) ->
  forall fuel url,
    match url with Some u => P u | None => True end ->
    all_obs obs_url P (while_url env self fuel url item).
Proof.
  intros Hitem. induction fuel as [|fuel IH]; intros [u|] Hu; simpl;
    try apply all_obs_ret.
  - destruct (u =? "")%string; [apply all_obs_ret|apply all_obs_out_of_fuel].
  - destruct (u =? "")%string; [apply all_obs_ret|].
    apply all_obs_bind; [apply urls_fetch, Hu|]. intros data.
    apply urls_lift_then. intros results.
    apply urls_lift_then. intros items.
    apply all_obs_bind; [apply all_obs_for_each, Hitem|]. intros _.
    apply urls_lift_post. intros [u'|] Hn; [|apply IH; exact I].
    destruct (next_url_some env self data u' Hn) as [nl [_ ->]].
    apply IH. apply Hbase.
Qed.

Lemma base_urls :
  P (spaces_url self) /\
  (forall id, P (pages_url self id)) /\
  (forall id, P (page_detail_url env self id)) /\
  (forall id, P (comments_url self id)) /\
  (forall id, P (blogposts_url self id)).
Proof.
  unfold spaces_url, pages_url, page_detail_url, comments_url, blogposts_url.
  repeat split; intros; apply Hbase.
Qed.

Lemma urls_generate_entities (fuel : nat) :
  all_obs obs_url P (generate_entities env self fuel).
Proof.
  destruct base_urls as [Hs [Hp [Hd [Hc Hb]]]].
  unfold generate_entities, _generate_space_entities.
  apply urls_while_url; [|exact Hs]. intros space.
  apply urls_lift_then. intros s.
  unfold on_space. apply all_obs_bind; [apply urls_yield|]. intros _.
  apply all_obs_bind.
  - unfold _generate_page_entities. apply urls_while_url; [|apply Hp].
    intros page. unfold page_item.
    apply urls_lift_then. intros page_id.
    apply all_obs_bind; [apply urls_fetch, Hd|]. intros details.
    apply urls_lift_then. intros [fe body].
    apply urls_lift_then. intros title.
    apply all_obs_bind; [apply urls_process|]. intros [p|]; [|apply all_obs_ret].
    unfold on_page. apply all_obs_bind; [apply urls_yield|]. intros _.
    unfold _generate_comment_entities. apply urls_while_url; [|apply Hc].
    intros c. apply urls_lift_then. intros ce. apply urls_yield.
  - intros _. unfold _generate_blog_post_entities. apply urls_while_url; [|apply Hb].
    intros b. apply urls_lift_then. intros be. apply urls_yield.
Qed.

End RequestedUrls.

(** X14.  Every request of every run of [generate_entities] goes to a
    URL that has the base URL of the source as a string prefix: the first
    URL of each listing is the base URL followed by a path, and a
    next-link is always appended to the base URL as it comes.  This is a
    statement about the text of the URL only; which host such a URL
    addresses depends on how the base URL ends. *)
Theorem generate_entities_stays_under_base_url (env : Env) (self : ConfluenceSource)
    (fuel : nat) (w : W env) :
  Forall (fun url => String.prefix (base_url self) url = true)
    (map fst (requests (trace_of (generate_entities env self fuel w)))).
Proof.
  rewrite requests_observe.
  apply (urls_generate_entities env self
           (fun url => String.prefix (base_url self) url = true)).
  intros s. apply prefix_app.
Qed.

(* ------------------------------------------------------------------ *)
(** ** A malformed item *)
(* ------------------------------------------------------------------ *)

Section MalformedItem.

Import Py PyOps Http Validate.

Variable env : Env.
Variable self : ConfluenceSource.
Variable server : string -> json.
Hypothesis Hmock : mock_server env server.

Lemma run_bind_raise {A B} (m : M (W env) A) (k : A -> M (W env) B) (w w1 : W env)
    (t : Trace) (e : exc) :
  run m w t w1 (Raise e) -> run (bind m k) w t w1 (Raise e).
Proof. unfold run, bind. intros ->. reflexivity. Qed.

Lemma spaces_abort (pre post : list json) (bad : json) (out : list Entity) (e : exc)
    (w : W env) :
  Forall2 decodes_to_space pre out ->
  space_entity_of bad = Raise e ->
  exists t,
    run (for_each (pre ++ bad :: post)
           (fun space => bind (lift (space_entity_of space))
                           (fun s => yield_ env (ESpace s))))
      w t w (Raise e) /\
    yields t = out /\ requests t = [].
Proof.
  intros Hpre Hbad. induction Hpre as [|x o pre out [s [Hs ->]] Hrest [t [Hr [Hy Hq]]]];
    simpl.
  - exists []. split; [|split; reflexivity].
    apply run_bind_raise. apply run_bind_raise. unfold run, lift. rewrite Hbad.
    reflexivity.
  - exists ([EvYield (ESpace s)] ++ t). split; [|split].
    + eapply run_bind; [|exact Hr].
      eapply run_bind_lift; [exact Hs|]. apply run_emit.
    + simpl. rewrite Hy. reflexivity.
    + simpl. exact Hq.
Qed.

(** X13.  One malformed container in a page of the listing ends
    [_generate_space_entities] with the exception its decoding raises
    (a missing [id] or [key], an id that is not a string): the containers
    before it on the page have been yielded, those after it are not, and
    no further page is requested. *)
Theorem malformed_container_aborts_listing (pre post : list json) (bad : json)
    (out : list Entity) (e : exc) (fuel : nat) (w : W env) :
  page_items (server (spaces_url self)) = Some (pre ++ bad :: post) ->
  Forall2 decodes_to_space pre out ->
  space_entity_of bad = Raise e ->
  exists t w1,
    run (_generate_space_entities env self (S fuel) (fun s => yield_ env (ESpace s)))
      w t w1 (Raise e) /\
    yields t = out /\
    map fst (requests t) = [spaces_url self].
Proof.
  intros Hitems Hpre Hbad.
  destruct (fetch_mock env self server Hmock (spaces_url self) w) as [w1 Hf].
  destruct (page_items_iterate _ _ Hitems) as [results [Hres Hit]].
  destruct (spaces_abort pre post bad out e w1 Hpre Hbad) as [t [Hr [Hy Hq]]].
  eexists. exists w1. split; [|split].
  - unfold _generate_space_entities. simpl.
    destruct (String.eqb_spec (spaces_url self) "") as [Heq|_].
    { exfalso. revert Heq. unfold spaces_url, limit. simpl.
      apply app_not_empty. }
    eapply run_bind; [exact Hf|].
    eapply run_bind_lift; [exact Hres|].
    eapply run_bind_lift; [exact Hit|].
    apply run_bind_raise. exact Hr.
  - rewrite yields_app. simpl. exact Hy.
  - simpl. rewrite Hq. reflexivity.
Qed.

End MalformedItem.

Lemma malformed_container_aborts_listing_witness :
  exists t w1,
    run (_generate_space_entities
           (Mock.served
              (fun _ => Demo.envelope
                          [Demo.space_item "A" "KA" "Alpha"; Demo.item "B";
                           Demo.space_item "C" "KC" "Gamma"]) Some)
           Mock.source 1
           (fun s => yield_ _ (ESpace s))) tt t w1 (Raise (KeyError "key")) /\
    yields t = [ESpace (Demo.space "A" "KA" "Alpha")] /\
    map fst (requests t) = [spaces_url Mock.source].
Proof.
  apply (malformed_container_aborts_listing _ Mock.source
           (fun _ => Demo.envelope
                       [Demo.space_item "A" "KA" "Alpha"; Demo.item "B";
                        Demo.space_item "C" "KC" "Gamma"])
           (served_is_mock _ Some)
           [Demo.space_item "A" "KA" "Alpha"] [Demo.space_item "C" "KC" "Gamma"]
           (Demo.item "B")).
  - reflexivity.
  - repeat constructor. eexists. split; reflexivity.
  - reflexivity.
Defined.

(* ------------------------------------------------------------------ *)
(** ** The label, database and folder generators *)
(* ------------------------------------------------------------------ *)

Section OtherGeneratorFacts.

Import Py PyOps Http Validate.

Variable env : Env.
Variable self : ConfluenceSource.

Lemma paginate_rebased (base : string) (item : json -> M (W env) unit) (fuel : nat)
    (url : option string) (w : W env) :
  paginate env self base fuel url item w
  = while_url env (rebased self base) fuel url item w.
Proof.
  revert url w. induction fuel as [|fuel IH]; intros [u|] w; simpl; try reflexivity.
  destruct (u =? "")%string; [reflexivity|].
  change (fetch env (rebased self base) u) with (fetch env self u).
  apply bind_ext. intros data w1.
  apply bind_ext. intros results w2.
  apply bind_ext. intros items w3.
  apply bind_ext. intros _ w4.
  change (next_url env (rebased self base) data) with (next_url_on env base data).
  apply bind_ext. intros next w5. apply IH.
Qed.

Lemma rebased_self : rebased self (base_url self) = self.
Proof. destruct self. reflexivity. Qed.

Lemma urls_paginate (P : string -> Prop) (base : string)
    (item : json -> M (W env) unit) (fuel : nat) (u : string) :
  (forall s, P (base ++ s)%string) ->
  (forall x, all_obs obs_url P (item x)) ->
  P u ->
  all_obs obs_url P (paginate env self base fuel (Some u) item).
Proof.
  intros Hbase Hitem Hu w. rewrite paginate_rebased.
  apply (urls_while_url env (rebased self base) P Hbase item Hitem fuel (Some u) Hu).
Qed.

(** X15.  The label generator and the database generator do not use
    the base URL of the source: whatever [self.base_url] is, every URL
    they request, the first and every one built from a next-link, has
    the literal [https://your-domain.atlassian.net] as a string prefix
    (for consumers that make no request of their own).  This is a
    statement about the text of the URL only: the next-link is appended
    to the literal as it comes. *)
Theorem label_and_database_requests_go_to_placeholder
    (labels : ConfluenceLabelEntity -> M (W env) unit)
    (databases : ConfluenceDatabaseEntity -> M (W env) unit)
    (space_key : string) (sb : Breadcrumb) (fuel : nat) (w : W env) :
  (forall e, quiet obs_url (labels e)) ->
  (forall e, quiet obs_url (databases e)) ->
  Forall (fun url => String.prefix placeholder_host url = true)
    (map fst (requests (trace_of (_generate_label_entities env self fuel labels w)))) /\
  Forall (fun url => String.prefix placeholder_host url = true)
    (map fst (requests (trace_of
       (_generate_database_entities env self fuel space_key sb databases w)))).
Proof.
  intros Hl Hd. rewrite !requests_observe. split.
  - apply (urls_paginate (fun url => String.prefix placeholder_host url = true)).
    + intros s. apply prefix_app.
    + intros x. apply all_obs_bind; [apply all_obs_lift|].
      intros e. apply all_obs_quiet, Hl.
    + apply prefix_app.
  - apply (urls_paginate (fun url => String.prefix placeholder_host url = true)).
    + intros s. apply prefix_app.
    + intros x. apply all_obs_bind; [apply all_obs_lift|].
      intros e. apply all_obs_quiet, Hd.
    + apply prefix_app.
Qed.

Lemma folder_entity_of_fields (space_id : string) (sb : Breadcrumb) (x : json)
    (e : ConfluenceFolderEntity) :
  folder_entity_of space_id sb x = Ok e ->
  folder_breadcrumbs e = [sb] /\ folder_space_key e = space_id /\
  folder_content_id e = folder_entity_id e.
Proof.
  unfold folder_entity_of. intros H. rbind_inv H. inversion H. auto.
Qed.

Section Folders.

Variable server : string -> json.
Hypothesis Hmock : mock_server env server.

Variable X : Type.
Variable obs : Event -> list X.
Hypothesis Hobs : forall u h, obs (EvGet u h) = [].

Variable consumer : ConfluenceFolderEntity -> M (W env) unit.
Variable out : ConfluenceFolderEntity -> list X.
Hypothesis Hconsumer :
  forall e w, exists t w1, run (consumer e) w t w1 (Ok tt) /\ observe obs t = out e.

Variable space_id : string.
Variable sb : Breadcrumb.

Lemma folders_pages_out (pages : list (string * list json))
    (folders : list ConfluenceFolderEntity) :
  Forall2 (fun x e => folder_entity_of space_id sb x = Ok e) (all_items pages) folders ->
  pages_out X (fun _ => [])
    (fun x o => exists e, folder_entity_of space_id sb x = Ok e /\ o = out e)
    pages (flat_map out folders).
Proof.
  revert folders. induction pages as [|[u items] pages IH]; simpl; intros folders H.
  - inversion H; subst. constructor.
  - destruct (Forall2_app_inv_l' _ _ _ _ H) as [k1 [k2 [-> [H1 H2]]]].
    rewrite flat_map_app.
    apply (pages_out_cons X (fun _ => []) _ u items (flat_map out k1) pages
             (flat_map out k2)); [|apply IH; exact H2].
    clear - H1. induction H1 as [|x e xs k Hx Hxs IHx]; simpl; [constructor|].
    constructor; eauto.
Qed.

(** X16.  Over a finite chain of well-formed pages the folder generator
    hands every folder of the listing to its consumer exactly once, in
    arrival order, and then returns: what an observer sees of the run is
    what the consumer shows for each folder in turn.  Every folder record
    carries the breadcrumb of the container and, as its space key, the
    [space_id] the generator was given. *)
Theorem folder_listing_feeds_consumer (pages : list (string * list json))
    (folders : list ConfluenceFolderEntity) (fuel : nat) (w : W env) :
  listing env self server (folders_url self space_id) pages ->
  Forall2 (fun x e => folder_entity_of space_id sb x = Ok e) (all_items pages) folders ->
  length pages <= fuel ->
  (exists t w1,
     run (_generate_folder_entities env self fuel space_id sb consumer) w t w1 (Ok tt) /\
     observe obs t = flat_map out folders) /\
  Forall (fun e => folder_breadcrumbs e = [sb] /\ folder_space_key e = space_id) folders.
Proof.
  intros Hl Hf Hfuel. split.
  - unfold _generate_folder_entities, run. rewrite paginate_rebased, rebased_self.
    destruct (while_url_runs env self server Hmock X obs (fun _ => []) Hobs
                (fun _ folder => bind (lift (folder_entity_of space_id sb folder)) consumer)
                (fun x o => exists e, folder_entity_of space_id sb x = Ok e /\ o = out e))
      with (u := folders_url self space_id) (pages := pages) (o := flat_map out folders)
      as [n Hn].
    + intros x o [e [He ->]]. exists 0. intros _ _ w0.
      destruct (Hconsumer e w0) as [t [w1 [Hr Ho]]].
      exists t, w1. split; [|exact Ho]. eapply run_bind_lift; eassumption.
    + exact Hl.
    + apply folders_pages_out. exact Hf.
    + destruct (Hn n (le_n _) fuel Hfuel w) as [t [w1 [Hr Ho]]]. exists t, w1. auto.
  - clear - Hf. induction Hf as [|x e xs k Hx Hxs IH]; constructor; [|exact IH].
    destruct (folder_entity_of_fields _ _ _ _ Hx) as [H1 [H2 _]]. auto.
Qed.

End Folders.

End OtherGeneratorFacts.

Section OtherGeneratorExamples.

Import Demo.
Local Open Scope string_scope.

Lemma label_and_database_requests_go_to_placeholder_witness :
  Forall (fun url => String.prefix placeholder_host url = true)
    (map fst (requests (trace_of
       (_generate_label_entities (Mock.served paged Some) Mock.source 3
          (fun _ => ret tt) tt)))) /\
  Forall (fun url => String.prefix placeholder_host url = true)
    (map fst (requests (trace_of
       (_generate_database_entities (Mock.served paged Some) Mock.source 3 "ENG"
          s1_crumb (fun _ => ret tt) tt)))).
Proof.
  apply (label_and_database_requests_go_to_placeholder (Mock.served paged Some)
           Mock.source (fun _ => ret tt) (fun _ => ret tt) "ENG" s1_crumb 3 tt).
  - intros e w. reflexivity.
  - intros e w. reflexivity.
Defined.

Lemma folder_listing_feeds_consumer_witness :
  let env := Mock.served (fun _ => envelope [item "F1"; item "F2"]) Some in
  let consumer := fun e : ConfluenceFolderEntity =>
    yield_ env (EComment (comment (folder_entity_id e) (folder_breadcrumbs e))) in
  (exists t w1,
     run (_generate_folder_entities env Mock.source 1 "S1" s1_crumb consumer) tt t w1 (Ok tt) /\
     observe obs_yield t
     = flat_map (fun e => [EComment (comment (folder_entity_id e) (folder_breadcrumbs e))])
         [mkFolder "F1" [s1_crumb] "F1" None "S1" JNull JNull JNull;
          mkFolder "F2" [s1_crumb] "F2" None "S1" JNull JNull JNull]) /\
  Forall (fun e => folder_breadcrumbs e = [s1_crumb] /\ folder_space_key e = "S1")
    [mkFolder "F1" [s1_crumb] "F1" None "S1" JNull JNull JNull;
     mkFolder "F2" [s1_crumb] "F2" None "S1" JNull JNull JNull].
Proof.
  intros env consumer.
  apply (folder_listing_feeds_consumer env Mock.source
           (fun _ => envelope [item "F1"; item "F2"]) (served_is_mock _ Some)
           Entity obs_yield (fun _ _ => eq_refl) consumer
           (fun e => [EComment (comment (folder_entity_id e) (folder_breadcrumbs e))])
           (fun e w => ex_intro _ _ (ex_intro _ w (conj eq_refl eq_refl)))
           "S1" s1_crumb
           [(folders_url Mock.source "S1", [item "F1"; item "F2"])]).
  - apply listing_last.
    + intros H. vm_compute in H. discriminate.
    + reflexivity.
    + reflexivity.
  - repeat constructor.
  - simpl. lia.
Defined.

End OtherGeneratorExamples.

(* ================================================================== *)
(** ** The API dependencies *)
(* ================================================================== *)

Section DepsFacts.

Import Py Deps.
Local Open Scope string_scope.

Variable env : Env.

Lemma mem_str_In (v : json) (l : list string) :
  mem_str v l = true -> exists s, v = JStr s /\ In s l.
Proof.
  unfold mem_str. intros H. apply existsb_exists in H. destruct H as [s [Hin Heq]].
  destruct v; simpl in Heq; try discriminate.
  apply String.eqb_eq in Heq. subst. eauto.
Qed.

(** What [_resolve_organization_id] gives for an authenticated user. *)
Lemma resolve_for_user (x : option string) (u : User) (m : string) (md : dict)
    (v : json) :
  m = "system" \/ m = "auth0" ->
  _resolve_organization_id x (Some u) m md = Val v ->
  exists org, v = JStr org /\
    (truthy_str x = true /\ x = Some org \/
     truthy_str x = false /\ primary_organization_id u = Some org).
Proof.
  intros Hm H. unfold _resolve_organization_id in H.
  assert (Hb : (m =? "system") || (m =? "auth0") = true)
    by (destruct Hm; subst; reflexivity).
  rewrite Hb in H.
  destruct x as [x|]; simpl.
  - destruct (x =? "") eqn:Ex.
    + destruct (primary_organization_id u) as [p|]; [|discriminate].
      inversion H. eauto.
    + inversion H. exists x. split; [reflexivity|]. left. auto.
  - destruct (primary_organization_id u) as [p|]; [|discriminate].
    inversion H. eauto.
Qed.

Ltac deps_unfold :=
  unfold get_auth_context, get_user, get_user_from_token, _authenticate_system_user,
    _authenticate_auth0_user, _authenticate_api_key, _validate_organization_access,
    get_by_email, get_by_key, auth_get_user_call, attr, try_except, bind, lift, ret,
    raise, runs, result_of, calls_of, db_of in *.

Lemma system_identity (db : DB env) :
  match result_of (_authenticate_system_user env db) with
  | Val (uc, m, md) =>
      (uc = None /\ m = "" /\ md = []) \/
      (exists u, uc = Some u /\ m = "system" /\ md = [("disabled_auth", JBool true)])
  | Exc _ => True
  end.
Proof.
  deps_unfold.
  destruct (user_get_by_email env (FIRST_SUPERUSER env) db) as [[[row|]|e] db1]; simpl; auto.
  destruct (model_validate env (Some row)) as [u|e]; simpl; eauto.
Qed.

Lemma auth0_identity (a : option Auth0User) (db : DB env) :
  match result_of (_authenticate_auth0_user env a db) with
  | Val (uc, m, md) =>
      (uc = None /\ m = "" /\ md = []) \/
      (exists u a0, a = Some a0 /\ uc = Some u /\ m = "auth0" /\
                    md = [("auth0_id", JStr (auth0_id a0))])
  | Exc _ => True
  end.
Proof.
  deps_unfold. destruct a as [a|]; simpl; auto.
  destruct (user_get_by_email env (auth0_email a) db) as [[row|e] db1]; simpl.
  - destruct (model_validate env row) as [u|e]; simpl; eauto 10.
  - destruct e; simpl; auto.
Qed.

(** The identity phase of [get_auth_context] and of [get_user] for a
    request that is authenticated as a user. *)
Lemma user_identity (a : option Auth0User) (db : DB env) :
  match result_of
          ((if negb (AUTH_ENABLED env) then _authenticate_system_user env
            else _authenticate_auth0_user env a) db) with
  | Val (uc, m, md) =>
      (uc = None /\ m = "" /\ md = []) \/
      (exists u, uc = Some u /\
         (m = "system" /\ AUTH_ENABLED env = false \/
          m = "auth0" /\ AUTH_ENABLED env = true))
  | Exc _ => True
  end.
Proof.
  destruct (AUTH_ENABLED env); simpl.
  - pose proof (auth0_identity a db) as H.
    destruct (result_of (_authenticate_auth0_user env a db)) as [[[uc m] md]|e]; auto.
    destruct H as [H|[u [a0 [_ [H1 [H2 _]]]]]]; eauto 10.
  - pose proof (system_identity db) as H.
    destruct (result_of (_authenticate_system_user env db)) as [[[uc m] md]|e]; auto.
    destruct H as [H|[u [H1 [H2 _]]]]; eauto 10.
Qed.

Lemma get_auth_context_user_mode (k x : option string) (a : option Auth0User) :
  AUTH_ENABLED env = false \/ a <> None ->
  get_auth_context env k x a
  = bind (if negb (AUTH_ENABLED env) then _authenticate_system_user env
          else _authenticate_auth0_user env a)
      (fun identity =>
         let '(user_context, auth_method, auth_metadata) := identity in
         if auth_method =? "" then
           raise (HTTPException 401 "No valid authentication provided")
         else
           bind (lift (_resolve_organization_id x user_context auth_method auth_metadata))
             (fun organization_id =>
                bind (_validate_organization_access env organization_id user_context
                        auth_method k)
                  (fun _ =>
                     lift (make_auth_context env
                             (mkArgs organization_id user_context auth_method
                                auth_metadata))))).
Proof.
  intros H. unfold get_auth_context.
  destruct (AUTH_ENABLED env); simpl; [|reflexivity].
  destruct a as [a|]; [reflexivity|].
  destruct H as [H|H]; [discriminate|congruence].
Qed.

(** X17.  A context that [get_auth_context] returns for a request
    authenticated as a user (authentication disabled, or an Auth0 user
    present) is built for an organization the user is a member of: the
    one named in the [X-Organization-ID] header when that is not empty,
    the primary organization of the user otherwise.  The organization id
    is always a string, and the method is [system] or [auth0] according
    to the setting. *)
Theorem admitted_user_is_member (x_api_key x_organization_id : option string)
    (auth0_user : option Auth0User) (db : DB env) (ctx : AuthContext env) :
  AUTH_ENABLED env = false \/ auth0_user <> None ->
  result_of (get_auth_context env x_api_key x_organization_id auth0_user db) = Val ctx ->
  exists org u method metadata,
    make_auth_context env (mkArgs (JStr org) (Some u) method metadata) = Val ctx /\
    In org (user_organizations u) /\
    (method = "system" /\ AUTH_ENABLED env = false \/
     method = "auth0" /\ AUTH_ENABLED env = true) /\
    (truthy_str x_organization_id = true /\ x_organization_id = Some org \/
     truthy_str x_organization_id = false /\ primary_organization_id u = Some org).
Proof.
  intros Hmode H. rewrite (get_auth_context_user_mode _ _ _ Hmode) in H.
  pose proof (user_identity auth0_user db) as Hid.
  unfold bind, result_of in *.
  destruct ((if negb (AUTH_ENABLED env) then _authenticate_system_user env
             else _authenticate_auth0_user env auth0_user) db)
    as [[t db1] [[[uc m] md]|e]]; simpl in *; [|discriminate].
  destruct Hid as [[-> [-> ->]]|[u [-> Hm]]]; [simpl in H; discriminate|].
  assert (Hm' : m = "system" \/ m = "auth0") by (destruct Hm as [[? _]|[? _]]; auto).
  assert (Hne : (m =? "") = false) by (destruct Hm' as [->| ->]; reflexivity).
  rewrite Hne in H. unfold lift in H.
  destruct (_resolve_organization_id x_organization_id (Some u) m md) as [v|e] eqn:Er;
    simpl in H; [|discriminate].
  destruct (resolve_for_user _ _ _ _ _ Hm' Er) as [org [-> Horg]].
  unfold _validate_organization_access in H.
  assert (Hb : (m =? "auth0") || (m =? "system") = true)
    by (destruct Hm' as [->| ->]; reflexivity).
  rewrite Hb in H.
  destruct (mem_str (JStr org) (user_organizations u)) eqn:Emem; simpl in H;
    [|discriminate].
  destruct (make_auth_context env (mkArgs (JStr org) (Some u) m md)) as [c|e] eqn:Ec;
    simpl in H; [|discriminate].
  inversion H; subst c.
  exists org, u, m, md. repeat split; auto.
  destruct (mem_str_In _ _ Emem) as [s [Hs Hin]]. inversion Hs. subst. exact Hin.
Qed.


Lemma bind_val_inv {St A B} (m : D St A) (k : A -> D St B) (db : St) (b : B) :
  result_of (bind m k db) = Val b ->
  exists t db1 a,
    m db = (t, db1, Val a) /\
    result_of (k a db1) = Val b /\
    calls_of (bind m k db) = (t ++ calls_of (k a db1))%list.
Proof.
  unfold bind, result_of, calls_of.
  destruct (m db) as [[t db1] [a|e]]; simpl; [|discriminate].
  intros H. exists t, db1, a.
  destruct (k a db1) as [[t2 db2] r]. simpl in *. auto.
Qed.

Lemma validate_api_key (org : json) (key : string) (db : DB env) :
  key <> "" ->
  _validate_organization_access env org None "api_key" (Some key) db
  = match api_key_get_by_key env key db with
    | (Val k, db1) =>
        ([ApiKeyByKey key], db1,
         if eq_str org (api_key_organization_id k) then Val tt
         else Exc (HTTPException 403
                     ("API key does not have access to organization " ++ fmt env org)))
    | (Exc e, db1) => ([ApiKeyByKey key], db1, Exc e)
    end.
Proof.
  intros Hk. apply String.eqb_neq in Hk.
  unfold _validate_organization_access. simpl. rewrite Hk.
  unfold bind, get_by_key, raise, ret.
  destruct (api_key_get_by_key env key db) as [[k|e] db1]; [|reflexivity].
  destruct (eq_str org (api_key_organization_id k)); reflexivity.
Qed.

Lemma api_key_identity (key : string) (db : DB env) :
  _authenticate_api_key env key db
  = match api_key_get_by_key env key db with
    | (Val k, db1) =>
        ([ApiKeyByKey key], db1,
         Val (None, "api_key",
              [("api_key_id", JStr (api_key_id k));
               ("created_by", created_by_email k);
               ("organization_id", JStr (api_key_organization_id k))]))
    | (Exc e, db1) =>
        ([ApiKeyByKey key], db1,
         Exc match e with
             | ValueError msg | NotFoundException msg =>
                 HTTPException 403
                   (if contains "expired" msg then "API key has expired"
                    else "Invalid or expired API key")
             | _ => e
             end)
    end.
Proof.
  deps_unfold. destruct (api_key_get_by_key env key db) as [[k|e] db1]; simpl.
  - reflexivity.
  - destruct e; simpl; try reflexivity; destruct (contains "expired" msg); reflexivity.
Qed.

Lemma resolve_for_api_key (x : option string) (k : ApiKey) :
  exists org,
    _resolve_organization_id x None "api_key"
      [("api_key_id", JStr (api_key_id k));
       ("created_by", created_by_email k);
       ("organization_id", JStr (api_key_organization_id k))] = Val (JStr org) /\
    (truthy_str x = true /\ x = Some org \/
     truthy_str x = false /\ api_key_organization_id k = org).
Proof.
  unfold _resolve_organization_id. destruct x as [x|]; simpl.
  - destruct (x =? "") eqn:Ex; simpl.
    + exists (api_key_organization_id k). split; [reflexivity|]. right. auto.
    + exists x. split; [reflexivity|]. left. auto.
  - exists (api_key_organization_id k). split; [reflexivity|]. right. auto.
Qed.

(** X18.  A context that [get_auth_context] returns for a request
    authenticated by API key (authentication enabled, no Auth0 user)
    carries no user and an organization that is the organization of the
    key: the key was looked up twice, both lookups gave a key, and the
    organization of the second is the one of the context, which is the
    [X-Organization-ID] header when that is not empty and the
    organization the first lookup gave otherwise. *)
Theorem admitted_api_key_owns_organization (x_api_key x_organization_id : option string)
    (db : DB env) (ctx : AuthContext env) :
  AUTH_ENABLED env = true ->
  result_of (get_auth_context env x_api_key x_organization_id None db) = Val ctx ->
  exists key k1 k2 db1 db2,
    x_api_key = Some key /\ key <> "" /\
    api_key_get_by_key env key db = (Val k1, db1) /\
    api_key_get_by_key env key db1 = (Val k2, db2) /\
    calls_of (get_auth_context env x_api_key x_organization_id None db)
    = [ApiKeyByKey key; ApiKeyByKey key] /\
    (truthy_str x_organization_id = true /\
     x_organization_id = Some (api_key_organization_id k2) \/
     truthy_str x_organization_id = false /\
     api_key_organization_id k1 = api_key_organization_id k2) /\
    make_auth_context env
      (mkArgs (JStr (api_key_organization_id k2)) None "api_key"
         [("api_key_id", JStr (api_key_id k1));
          ("created_by", created_by_email k1);
          ("organization_id", JStr (api_key_organization_id k1))]) = Val ctx.
Proof.
  intros Hen H. unfold get_auth_context in *. rewrite Hen in *.
  simpl negb in *. cbv iota in *.
  destruct x_api_key as [key|];
    [|unfold result_of, bind, ret in H; simpl in H; discriminate].
  destruct (key =? "") eqn:Ek;
    [unfold result_of, bind, ret in H; simpl in H; discriminate|].
  assert (Hkey : key <> "") by (intros ->; discriminate).
  destruct (bind_val_inv _ _ _ _ H) as [t1 [db1 [[[uc m] md] [H1 [H2 Hc1]]]]].
  rewrite Hc1. clear H Hc1.
  rewrite api_key_identity in H1.
  destruct (api_key_get_by_key env key db) as [[k1|e] db1'] eqn:E1; [|discriminate].
  inversion H1; subst t1 db1' uc m md. clear H1.
  change ("api_key" =? "") with false in *. cbv iota in *.
  destruct (bind_val_inv _ _ _ _ H2) as [t2 [db2 [v [H3 [H4 Hc2]]]]].
  rewrite Hc2. clear H2 Hc2.
  destruct (resolve_for_api_key x_organization_id k1) as [org [Hres Horg]].
  unfold lift in H3. rewrite Hres in H3. inversion H3; subst t2 db2 v. clear H3.
  destruct (bind_val_inv _ _ _ _ H4) as [t3 [db3 [[] [H5 [H6 Hc3]]]]].
  rewrite Hc3. clear H4 Hc3.
  rewrite (validate_api_key _ _ _ Hkey) in H5.
  destruct (api_key_get_by_key env key db1) as [[k2|e] db2] eqn:E2; [|discriminate].
  simpl eq_str in H5.
  destruct (org =? api_key_organization_id k2) eqn:Eo; [|discriminate].
  apply String.eqb_eq in Eo. subst org.
  inversion H5; subst t3 db3. clear H5.
  unfold lift, result_of, calls_of in *. simpl in H6. simpl.
  exists key, k1, k2, db1, db2.
  destruct (make_auth_context env _) as [c|e] eqn:Ec; [|discriminate].
  inversion H6; subst c.
  repeat split; auto.
Qed.

(** X19.  Three requests that [get_auth_context] refuses with 401
    [No valid authentication provided], whatever else they carry: one
    with neither an Auth0 user nor a non-empty API key, for which nothing
    is looked up; with authentication disabled, one made while the
    superuser is not in the database; and one of an Auth0 user whose
    e-mail the database does not know, even when it also carries a valid
    API key. *)
Theorem unidentified_request_is_401 (x_api_key x_organization_id : option string)
    (auth0_user : option Auth0User) (db : DB env) :
  (AUTH_ENABLED env = true /\ auth0_user = None /\ truthy_str x_api_key = false) \/
  (AUTH_ENABLED env = false /\
   exists db1, user_get_by_email env (FIRST_SUPERUSER env) db = (Val None, db1)) \/
  (AUTH_ENABLED env = true /\
   exists a msg db1,
     auth0_user = Some a /\
     user_get_by_email env (auth0_email a) db = (Exc (NotFoundException msg), db1)) ->
  result_of (get_auth_context env x_api_key x_organization_id auth0_user db)
  = Exc (HTTPException 401 "No valid authentication provided") /\
  (AUTH_ENABLED env = true -> auth0_user = None ->
   calls_of (get_auth_context env x_api_key x_organization_id auth0_user db) = []).
Proof.
  intros [[Hen [-> Hk]]|[[Hen [db1 Hu]]|[Hen [a [msg [db1 [-> Hu]]]]]]];
    deps_unfold; rewrite Hen; simpl.
  - destruct x_api_key as [key|]; [|auto].
    simpl in Hk. apply negb_false_iff in Hk. rewrite Hk. auto.
  - rewrite Hu. split; [reflexivity|discriminate].
  - rewrite Hu. split; [reflexivity|discriminate].
Qed.

(** X20.  Credentials are taken in a fixed order.  With authentication
    disabled neither the API key nor the Auth0 user of the request plays
    any part; with an Auth0 user present the API key plays none.  The
    whole run (calls, database, outcome) is the same whatever these
    are. *)
Theorem credentials_precedence (k1 k2 x_organization_id : option string)
    (a1 a2 : option Auth0User) (db : DB env) :
  AUTH_ENABLED env = false \/ (a1 = a2 /\ a1 <> None) ->
  get_auth_context env k1 x_organization_id a1 db
  = get_auth_context env k2 x_organization_id a2 db.
Proof.
  intros Hmode.
  assert (H1 : AUTH_ENABLED env = false \/ a1 <> None) by (destruct Hmode as [?|[_ ?]]; auto).
  assert (H2 : AUTH_ENABLED env = false \/ a2 <> None)
    by (destruct Hmode as [?|[<- ?]]; auto).
  rewrite (get_auth_context_user_mode k1 _ _ H1), (get_auth_context_user_mode k2 _ _ H2).
  assert (Hphase :
    (if negb (AUTH_ENABLED env) then _authenticate_system_user env
     else _authenticate_auth0_user env a1)
    = (if negb (AUTH_ENABLED env) then _authenticate_system_user env
       else _authenticate_auth0_user env a2)).
  { destruct Hmode as [->|[-> _]]; reflexivity. }
  rewrite <- Hphase.
  pose proof (user_identity a1 db) as Hid.
  unfold bind, result_of in *.
  destruct ((if negb (AUTH_ENABLED env) then _authenticate_system_user env
             else _authenticate_auth0_user env a1) db)
    as [[t db1] [[[uc m] md]|e]]; simpl in *; [|reflexivity].
  destruct Hid as [[-> [-> ->]]|[u [-> Hm]]]; [reflexivity|].
  assert (Hm' : m = "system" \/ m = "auth0") by (destruct Hm as [[? _]|[? _]]; auto).
  destruct Hm' as [->| ->]; reflexivity.
Qed.

(** X21.  When the lookup of the API key fails with [ValueError] or
    [NotFoundException], the request is refused with 403 after that one
    lookup: [API key has expired] when the message of the exception
    contains the word expired, [Invalid or expired API key] otherwise.
    The header naming the organization is not looked at. *)
Theorem failed_key_lookup_is_403 (key msg : string) (e : Exception)
    (x_organization_id : option string) (db db1 : DB env) :
  AUTH_ENABLED env = true ->
  key <> "" ->
  api_key_get_by_key env key db = (Exc e, db1) ->
  e = ValueError msg \/ e = NotFoundException msg ->
  runs (get_auth_context env (Some key) x_organization_id None) db
    [ApiKeyByKey key] db1
    (Exc (HTTPException 403
            (if contains "expired" msg then "API key has expired"
             else "Invalid or expired API key"))).
Proof.
  intros Hen Hk Hl He. apply String.eqb_neq in Hk.
  unfold runs, get_auth_context. rewrite Hen, Hk. simpl negb. cbv iota.
  unfold bind. rewrite api_key_identity, Hl.
  destruct He as [->| ->]; reflexivity.
Qed.

(** X22.  The API key is looked up a second time when access to the
    organization is checked, and this time outside any handler: when the
    first lookup gives a key and the second raises, the exception leaves
    [get_auth_context] as it is ([NotFoundException] included, which the
    first lookup would have turned into 403). *)
Theorem second_key_lookup_is_unguarded (key : string) (k1 : ApiKey) (e : Exception)
    (x_organization_id : option string) (db db1 db2 : DB env) :
  AUTH_ENABLED env = true ->
  key <> "" ->
  api_key_get_by_key env key db = (Val k1, db1) ->
  api_key_get_by_key env key db1 = (Exc e, db2) ->
  runs (get_auth_context env (Some key) x_organization_id None) db
    [ApiKeyByKey key; ApiKeyByKey key] db2 (Exc e).
Proof.
  intros Hen Hk H1 H2. pose proof Hk as Hk'. apply String.eqb_neq in Hk'.
  unfold runs, get_auth_context. rewrite Hen, Hk'. simpl negb. cbv iota.
  unfold bind at 1. rewrite api_key_identity, H1.
  change ("api_key" =? "") with false. cbv iota.
  destruct (resolve_for_api_key x_organization_id k1) as [org [Hres _]].
  unfold bind at 1. unfold lift at 1. rewrite Hres.
  unfold bind at 1. rewrite (validate_api_key _ _ _ Hk), H2. reflexivity.
Qed.

(** X23.  An authenticated user who names, in the [X-Organization-ID]
    header, an organization they are not a member of is refused with 403
    and a detail that names the organization; so is a user with an empty
    header whose primary organization is not among their memberships. *)
Theorem non_member_is_403 (x_api_key x_organization_id : option string)
    (a : Auth0User) (row : option (UserRow env)) (u : User) (org : string)
    (db db1 : DB env) :
  AUTH_ENABLED env = true ->
  user_get_by_email env (auth0_email a) db = (Val row, db1) ->
  model_validate env row = Val u ->
  (truthy_str x_organization_id = true /\ x_organization_id = Some org \/
   truthy_str x_organization_id = false /\ primary_organization_id u = Some org) ->
  ~ In org (user_organizations u) ->
  runs (get_auth_context env x_api_key x_organization_id (Some a)) db
    [UserByEmail (auth0_email a)] db1
    (Exc (HTTPException 403 ("User does not have access to organization " ++ org))).
Proof.
  intros Hen Hl Hv Horg Hnot.
  assert (Hmem : mem_str (JStr org) (user_organizations u) = false).
  { destruct (mem_str (JStr org) (user_organizations u)) eqn:E; [|reflexivity].
    destruct (mem_str_In _ _ E) as [s [Hs Hin]]. inversion Hs. subst. contradiction. }
  assert (Hres : _resolve_organization_id x_organization_id (Some u) "auth0"
                   [("auth0_id", JStr (auth0_id a))] = Val (JStr org)).
  { unfold _resolve_organization_id. simpl.
    destruct Horg as [[Ht ->]|[Ht Hp]].
    - simpl in Ht. apply negb_true_iff in Ht. rewrite Ht. reflexivity.
    - rewrite Hp. destruct x_organization_id as [x|]; [|reflexivity].
      simpl in Ht. apply negb_false_iff in Ht. rewrite Ht. reflexivity. }
  unfold runs, get_auth_context. rewrite Hen. simpl negb. cbv iota.
  unfold bind at 1.
  assert (Hid : _authenticate_auth0_user env (Some a) db
                = ([UserByEmail (auth0_email a)], db1,
                   Val (Some u, "auth0", [("auth0_id", JStr (auth0_id a))]))).
  { deps_unfold. simpl. rewrite Hl. simpl. rewrite Hv. reflexivity. }
  rewrite Hid. change ("auth0" =? "") with false. cbv iota.
  unfold bind at 1. unfold lift at 1. rewrite Hres.
  unfold bind at 1. unfold _validate_organization_access. simpl orb. cbv iota.
  rewrite Hmem. reflexivity.
Qed.

(** X24.  With authentication enabled and no Auth0 user, [get_user]
    ends in [AttributeError] before anything is looked up: the 401 of its
    last lines is not reached, because the missing user is dereferenced
    inside [_authenticate_auth0_user] and its handler names
    [NotFoundException] only. *)
Theorem get_user_without_auth0_user (db : DB env) :
  AUTH_ENABLED env = true ->
  runs (get_user env None) db [] db (Exc AttributeError).
Proof.
  intros Hen. deps_unfold. rewrite Hen. reflexivity.
Qed.

(** X25.  Whoever [get_auth_context] admits as a user, [get_user] admits
    as the same user: when the former returns a context for a request
    authenticated as a user, the latter, on the same database, returns the
    user the context was built with. *)
Theorem get_user_agrees_with_auth_context (x_api_key x_organization_id : option string)
    (auth0_user : option Auth0User) (db : DB env) (ctx : AuthContext env) :
  AUTH_ENABLED env = false \/ auth0_user <> None ->
  result_of (get_auth_context env x_api_key x_organization_id auth0_user db) = Val ctx ->
  exists u org method metadata,
    result_of (get_user env auth0_user db) = Val u /\
    make_auth_context env (mkArgs org (Some u) method metadata) = Val ctx.
Proof.
  intros Hmode H. rewrite (get_auth_context_user_mode _ _ _ Hmode) in H.
  pose proof (user_identity auth0_user db) as Hid.
  destruct (bind_val_inv _ _ _ _ H) as [t [db1 [[[uc m] md] [H1 [H2 _]]]]].
  rewrite H1 in Hid. unfold result_of in Hid. simpl in Hid.
  destruct Hid as [[-> [-> ->]]|[u [-> Hm]]]; [discriminate|].
  destruct (m =? ""); [discriminate|].
  destruct (bind_val_inv _ _ _ _ H2) as [t2 [db2 [org [_ [H3 _]]]]].
  destruct (bind_val_inv _ _ _ _ H3) as [t3 [db3 [[] [_ [H4 _]]]]].
  exists u, org, m, md. split; [|exact H4].
  unfold get_user, bind, result_of. rewrite H1. reflexivity.
Qed.

(** X26.  [get_user_from_token] never raises: whatever the token
    verifier, the database and the validation of the row do, it returns a
    user or nothing.  A user it returns is what the validation made of a
    row found in the database; the 401 it raises itself when the e-mail
    of a verified token is unknown never reaches the caller. *)
Theorem get_user_from_token_never_raises (token : string) (db : DB env) :
  result_of (get_user_from_token env token db) = Val None \/
  exists u row,
    result_of (get_user_from_token env token db) = Val (Some u) /\
    model_validate env (Some row) = Val u.
Proof.
  deps_unfold.
  set (tok := if String.prefix "Bearer " token then slice_from 7 token else token).
  destruct (AUTH_ENABLED env); simpl.
  - destruct (auth_get_user env tok db) as [[[a|]|e] db1]; simpl; auto.
    destruct (user_get_by_email env (auth0_email a) db1) as [[[row|]|e] db2]; simpl; auto.
    destruct (model_validate env (Some row)) as [u|e] eqn:Ev; simpl; eauto.
  - destruct (user_get_by_email env (FIRST_SUPERUSER env) db) as [[[row|]|e] db1];
      simpl; auto.
    destruct (model_validate env (Some row)) as [u|e] eqn:Ev; simpl; eauto.
Qed.

Lemma slice_from_bearer (t : string) : slice_from 7 ("Bearer " ++ t) = t.
Proof. reflexivity. Qed.

Lemma prefix_bearer (t : string) : String.prefix "Bearer " ("Bearer " ++ t) = true.
Proof. apply prefix_app. Qed.

(** X27.  One [Bearer ] prefix is removed from the token and no more:
    a token with the prefix is treated exactly as the token without it,
    as long as what follows the prefix does not start with the prefix
    again. *)
Theorem bearer_prefix_is_dropped_once (t : string) (db : DB env) :
  String.prefix "Bearer " t = false ->
  get_user_from_token env ("Bearer " ++ t) db = get_user_from_token env t db.
Proof.
  intros H. unfold get_user_from_token.
  rewrite prefix_bearer, slice_from_bearer, H. reflexivity.
Qed.

(** X28.  With authentication disabled the two ways to a user agree and
    look at nothing the request carries: [get_user] returns a user
    exactly when [get_user_from_token] returns that user, whatever the
    token and the Auth0 user are. *)
Theorem disabled_auth_users_agree (token : string) (auth0_user : option Auth0User)
    (u : User) (db : DB env) :
  AUTH_ENABLED env = false ->
  (result_of (get_user env auth0_user db) = Val u <->
   result_of (get_user_from_token env token db) = Val (Some u)).
Proof.
  intros Hen. deps_unfold. rewrite Hen. simpl.
  destruct (user_get_by_email env (FIRST_SUPERUSER env) db) as [[[row|]|e] db1]; simpl.
  - destruct (model_validate env (Some row)) as [u'|e]; simpl.
    + split; intros H; inversion H; reflexivity.
    + split; discriminate.
  - split; discriminate.
  - split; discriminate.
Qed.

(** X29.  [_resolve_organization_id] fails in one way only, with 400
    [Organization context required], and exactly when the header is
    missing or empty, the method is not [api_key], and there is no user
    authenticated by [system] or [auth0] with a primary organization.  A
    header that is not empty is returned whatever the rest is. *)
Theorem resolve_organization_failure (x : option string) (user_context : option User)
    (auth_method : string) (auth_metadata : dict) :
  (forall e,
     _resolve_organization_id x user_context auth_method auth_metadata = Exc e ->
     e = organization_required) /\
  (_resolve_organization_id x user_context auth_method auth_metadata
   = Exc organization_required <->
   truthy_str x = false /\ auth_method <> "api_key" /\
   ~ (exists u org,
        user_context = Some u /\ (auth_method = "system" \/ auth_method = "auth0") /\
        primary_organization_id u = Some org)) /\
  (forall org, x = Some org -> org <> "" ->
     _resolve_organization_id x user_context auth_method auth_metadata = Val (JStr org)).
Proof.
  assert (Hm : forall m, (m =? "system") || (m =? "auth0") = true <->
                         m = "system" \/ m = "auth0").
  { intros m. rewrite orb_true_iff, !String.eqb_eq. reflexivity. }
  assert (Hfb :
    forall r,
      r = match user_context, (auth_method =? "system") || (auth_method =? "auth0") with
          | Some user_context, true =>
              match primary_organization_id user_context with
              | Some id => Val (JStr id)
              | None => Exc organization_required
              end
          | _, _ =>
              if auth_method =? "api_key"
              then Val (dict_get auth_metadata "organization_id")
              else Exc organization_required
          end ->
      (forall e, r = Exc e -> e = organization_required) /\
      (r = Exc organization_required <->
       auth_method <> "api_key" /\
       ~ (exists u org,
            user_context = Some u /\ (auth_method = "system" \/ auth_method = "auth0") /\
            primary_organization_id u = Some org))).
  { intros r ->.
    destruct user_context as [u|].
    - destruct ((auth_method =? "system") || (auth_method =? "auth0")) eqn:Eb.
      + apply (Hm auth_method) in Eb.
        assert (Hna : auth_method <> "api_key") by (destruct Eb; subst; discriminate).
        destruct (primary_organization_id u) as [p|] eqn:Ep.
        * split; [discriminate|]. split; [discriminate|].
          intros [_ Hno]. exfalso. apply Hno. exists u, p. auto.
        * split; [intros e H; inversion H; reflexivity|]. split; [|reflexivity].
          intros _. split; [exact Hna|].
          intros [u' [org [Hu [_ Hp]]]]. inversion Hu. subst u'. congruence.
      + destruct (auth_method =? "api_key") eqn:Ea.
        * apply String.eqb_eq in Ea. split; [discriminate|]. split; [discriminate|].
          intros [Hna _]. contradiction.
        * apply String.eqb_neq in Ea.
          split; [intros e H; inversion H; reflexivity|]. split; [|reflexivity].
          intros _. split; [exact Ea|].
          intros [u' [org [_ [Hsys _]]]]. apply (Hm auth_method) in Hsys. congruence.
    - cbv iota.
      destruct (auth_method =? "api_key") eqn:Ea.
      + apply String.eqb_eq in Ea. split; [discriminate|]. split; [discriminate|].
        intros [Hna _]. contradiction.
      + apply String.eqb_neq in Ea.
        split; [intros e H; inversion H; reflexivity|]. split; [|reflexivity].
        intros _. split; [exact Ea|].
        intros [u' [org [Hu _]]]. discriminate. }
  unfold _resolve_organization_id.
  destruct x as [x|]; simpl truthy_str.
  - destruct (x =? "") eqn:Ex; simpl negb.
    + destruct (Hfb _ eq_refl) as [H1 H2].
      split; [exact H1|]. split.
      * rewrite H2. tauto.
      * intros org Ho Hne. inversion Ho. subst. apply String.eqb_neq in Hne. congruence.
    + split; [discriminate|]. split.
      * split; [discriminate|]. intros [H _]. discriminate.
      * intros org Ho _. inversion Ho. reflexivity.
  - destruct (Hfb _ eq_refl) as [H1 H2].
    split; [exact H1|]. split.
    + rewrite H2. tauto.
    + discriminate.
Qed.

End DepsFacts.

Section DepsExamples.

Import Py Deps DepsDemo.
Local Open Scope string_scope.

Lemma admitted_user_is_member_witness :
  exists org u method metadata,
    make_auth_context enabled (mkArgs (JStr org) (Some u) method metadata)
    = Val ada_context /\
    In org (user_organizations u) /\
    (method = "system" /\ AUTH_ENABLED enabled = false \/
     method = "auth0" /\ AUTH_ENABLED enabled = true) /\
    (truthy_str None = true /\ None = Some org \/
     truthy_str None = false /\ primary_organization_id u = Some org).
Proof.
  apply (admitted_user_is_member enabled (Some "k") None (Some ada_auth0) [] ada_context).
  - right. discriminate.
  - reflexivity.
Defined.

Lemma admitted_api_key_owns_organization_witness :
  exists key k1 k2 db1 db2,
    Some "k" = Some key /\ key <> "" /\
    api_key_get_by_key enabled key ["k"; "k"] = (Val k1, db1) /\
    api_key_get_by_key enabled key db1 = (Val k2, db2) /\
    calls_of (get_auth_context enabled (Some "k") (Some "org-1") None ["k"; "k"])
    = [ApiKeyByKey key; ApiKeyByKey key] /\
    (truthy_str (Some "org-1") = true /\
     Some "org-1" = Some (api_key_organization_id k2) \/
     truthy_str (Some "org-1") = false /\
     api_key_organization_id k1 = api_key_organization_id k2) /\
    make_auth_context enabled
      (mkArgs (JStr (api_key_organization_id k2)) None "api_key"
         [("api_key_id", JStr (api_key_id k1));
          ("created_by", created_by_email k1);
          ("organization_id", JStr (api_key_organization_id k1))]) = Val key_context.
Proof.
  apply (admitted_api_key_owns_organization enabled (Some "k") (Some "org-1")
           ["k"; "k"] key_context).
  - reflexivity.
  - reflexivity.
Defined.

Lemma unidentified_request_is_401_witness :
  result_of (get_auth_context enabled (Some "") (Some "org-1") None ["k"])
  = Exc (HTTPException 401 "No valid authentication provided") /\
  (AUTH_ENABLED enabled = true -> @None Auth0User = None ->
   calls_of (get_auth_context enabled (Some "") (Some "org-1") None ["k"]) = []).
Proof.
  apply (unidentified_request_is_401 enabled (Some "") (Some "org-1") None ["k"]).
  left. repeat split.
Defined.

Lemma credentials_precedence_witness :
  get_auth_context disabled (Some "k") None None ["k"]
  = get_auth_context disabled None None (Some ada_auth0) ["k"].
Proof.
  apply (credentials_precedence disabled (Some "k") None None None (Some ada_auth0) ["k"]).
  left. reflexivity.
Defined.

Lemma failed_key_lookup_is_403_witness :
  runs (get_auth_context enabled (Some "k") (Some "org-1") None) []
    [ApiKeyByKey "k"] []
    (Exc (HTTPException 403
            (if contains "expired" "API key not found" then "API key has expired"
             else "Invalid or expired API key"))).
Proof.
  apply (failed_key_lookup_is_403 enabled "k" "API key not found"
           (NotFoundException "API key not found") (Some "org-1") [] []).
  - reflexivity.
  - discriminate.
  - reflexivity.
  - right. reflexivity.
Defined.

Lemma second_key_lookup_is_unguarded_witness :
  runs (get_auth_context enabled (Some "k") None None) ["k"]
    [ApiKeyByKey "k"; ApiKeyByKey "k"] []
    (Exc (NotFoundException "API key not found")).
Proof.
  apply (second_key_lookup_is_unguarded enabled "k" key_1
           (NotFoundException "API key not found") None ["k"] [] []).
  - reflexivity.
  - discriminate.
  - reflexivity.
  - reflexivity.
Defined.

Lemma non_member_is_403_witness :
  runs (get_auth_context enabled None (Some "org-9") (Some ada_auth0)) []
    [UserByEmail "ada@example.com"] []
    (Exc (HTTPException 403 "User does not have access to organization org-9")).
Proof.
  apply (non_member_is_403 enabled None (Some "org-9") ada_auth0 (Some ada) ada "org-9"
           [] []).
  - reflexivity.
  - reflexivity.
  - reflexivity.
  - left. split; reflexivity.
  - simpl. intros [H|[H|[]]]; discriminate.
Defined.

Lemma get_user_without_auth0_user_witness :
  runs (get_user enabled None) ["k"] [] ["k"] (Exc AttributeError).
Proof.
  apply (get_user_without_auth0_user enabled ["k"]). reflexivity.
Defined.

Lemma get_user_agrees_with_auth_context_witness :
  exists u org method metadata,
    result_of (get_user enabled (Some ada_auth0) []) = Val u /\
    make_auth_context enabled (mkArgs org (Some u) method metadata) = Val ada_context.
Proof.
  apply (get_user_agrees_with_auth_context enabled None None (Some ada_auth0) []
           ada_context).
  - right. discriminate.
  - reflexivity.
Defined.

Lemma bearer_prefix_is_dropped_once_witness :
  get_user_from_token enabled ("Bearer " ++ "good") []
  = get_user_from_token enabled "good" [].
Proof.
  apply (bearer_prefix_is_dropped_once enabled "good" []). reflexivity.
Defined.

Lemma disabled_auth_users_agree_witness :
  result_of (get_user disabled None []) = Val ada <->
  result_of (get_user_from_token disabled "anything" []) = Val (Some ada).
Proof.
  apply (disabled_auth_users_agree disabled "anything" None ada []). reflexivity.
Defined.

End DepsExamples.

(* ------------------------------------------------------------------ *)
(** ** The depth-first order *)
(* ------------------------------------------------------------------ *)

Section DepthFirst.

Variable env : Env.
Variable self : ConfluenceSource.
Variable server : string -> json.
Variable keep : ConfluencePageEntity -> option ConfluencePageEntity.

Lemma comments_traversed (s : ConfluenceSpaceEntity) (p : ConfluencePageEntity)
    (cs : list ConfluenceCommentEntity) :
  serves_comments env self server p [container_breadcrumb s; document_breadcrumb p] cs ->
  exists pages,
    listing env self server (comments_url self (page_content_id p)) pages /\
    each (comment_record [space_breadcrumb_of s; page_breadcrumb_of p])
      (all_items pages) (map EComment cs).
Proof.
  intros [pages [Hl Hf]]. exists pages. split; [exact Hl|].
  rewrite container_breadcrumb_eq, document_breadcrumb_eq.
  apply each_of_Forall2.
  induction Hf as [|x c xs cs Hx Hxs IH]; simpl; [constructor|].
  constructor; [|exact IH].
  exists c. split; [exact Hx|reflexivity].
Qed.

Lemma documents_traversed (s : ConfluenceSpaceEntity) (items : list json)
    (ds : list DocumentNode) :
  serves_documents env self server keep s items ds ->
  each (document_records env self server keep (space_breadcrumb_of s)) items
    (flat_map document_then_comments ds).
Proof.
  induction 1 as [|page page_id body fe d items ds Hid Hfe Hkeep Hcs Hrest IH
                  |page page_id body fe items ds Hid Hfe Hkeep Hrest IH]; simpl.
  - constructor.
  - destruct (comments_traversed s (node_document d) (node_comments d) Hcs)
      as [pages [Hl He]].
    change (EPage (node_document d)
            :: map EComment (node_comments d) ++ flat_map document_then_comments ds)
      with ((EPage (node_document d) :: map EComment (node_comments d))
            ++ flat_map document_then_comments ds)%list.
    constructor; [|exact IH].
    rewrite <- container_breadcrumb_eq in Hfe.
    eapply document_kept; eassumption.
  - change (flat_map document_then_comments ds)
      with ([] ++ flat_map document_then_comments ds)%list.
    constructor; [|exact IH].
    rewrite <- container_breadcrumb_eq in Hfe.
    eapply document_dropped; eassumption.
Qed.

Lemma container_traversed (x : json) (c : ContainerNode) :
  serves_container env self server keep x c ->
  container_records env self server keep x (container_then_content c).
Proof.
  intros [Hs [[dpages [Hdl Hd]] [bpages [Hbl Hb]]]].
  unfold container_then_content.
  eapply container_block; try eassumption.
  - apply documents_traversed. exact Hd.
  - rewrite container_breadcrumb_eq. apply each_of_Forall2.
    clear - Hb. induction Hb as [|y b ys bs Hy Hys IH]; simpl; [constructor|].
    constructor; [|exact IH].
    exists b. split; [exact Hy|reflexivity].
Qed.

Lemma upstream_traversed (tree : list ContainerNode) :
  upstream env self server keep tree ->
  traversal env self server keep (depth_first_order tree).
Proof.
  intros [pages [Hl Hf]]. exists pages. split; [exact Hl|].
  unfold depth_first_order.
  induction Hf as [|x c xs cs Hx Hxs IH]; [constructor|].
  apply (each_cons _ x (container_then_content c) xs
           (flat_map container_then_content cs)); [|exact IH].
  apply container_traversed. exact Hx.
Qed.

(** C7.  Against a mock server that holds the tree [tree] (containers
    in the order of their listing, each with the documents that content
    extraction keeps, every document with its comments, and with its blog
    posts), [generate_entities] with enough fuel returns normally and has
    yielded exactly the records of the tree in the fixed depth-first
    order: for each container its own record first, then its documents
    one after the other, each followed at once by all its comments, then
    its blog posts, and only then the record of the next container. *)
Theorem generate_entities_depth_first (tree : list ContainerNode) :
  mock_server env server ->
  extraction env keep ->
  upstream env self server keep tree ->
  exists n, forall fuel, n <= fuel -> forall w, exists t w1,
    run (generate_entities env self fuel) w t w1 (Ok tt) /\
    yields t = depth_first_order tree.
Proof.
  intros Hmock Hkeep Hup.
  apply (generate_entities_settles env self server keep Hmock Hkeep).
  apply upstream_traversed. exact Hup.
Qed.

End DepthFirst.

Section DepthFirstExample.

Import Demo.
Local Open Scope string_scope.

Lemma two_containers_upstream :
  upstream (Mock.served two_containers Some) Mock.source two_containers Some tree.
Proof.
  exists [(spaces_url Mock.source,
           [space_item "S1" "ENG" "Eng"; space_item "S2" "OPS" "Ops"])].
  split.
  { apply listing_last; [intros H; vm_compute in H; discriminate|reflexivity|reflexivity]. }
  simpl. constructor; [|constructor; [|constructor]].
  - split; [reflexivity|]. split.
    + exists [(pages_url Mock.source "S1", [item "P1"; item "P2"])]. split.
      { apply listing_last;
          [intros H; vm_compute in H; discriminate|reflexivity|reflexivity]. }
      simpl.
      apply (serves_documents_kept _ _ _ _ _ (item "P1") (JStr "P1") (JStr "<p>plan</p>") p1
               (mkDocumentNode p1 [c1])).
      * reflexivity.
      * vm_compute. reflexivity.
      * reflexivity.
      * exists [(comments_url Mock.source "P1", [item "C1"])]. split.
        { apply listing_last;
            [intros H; vm_compute in H; discriminate|reflexivity|reflexivity]. }
        simpl. constructor; [vm_compute; reflexivity|constructor].
      * apply (serves_documents_kept _ _ _ _ _ (item "P2") (JStr "P2") (JStr "<p>todo</p>")
                 p2 (mkDocumentNode p2 [c2])).
        -- reflexivity.
        -- vm_compute. reflexivity.
        -- reflexivity.
        -- exists [(comments_url Mock.source "P2", [item "C2"])]. split.
           { apply listing_last;
               [intros H; vm_compute in H; discriminate|reflexivity|reflexivity]. }
           simpl. constructor; [vm_compute; reflexivity|constructor].
        -- constructor.
    + exists [(blogposts_url Mock.source "S1", [item "B1"])]. split.
      { apply listing_last;
          [intros H; vm_compute in H; discriminate|reflexivity|reflexivity]. }
      simpl. constructor; [vm_compute; reflexivity|constructor].
  - split; [reflexivity|]. split.
    + exists [(pages_url Mock.source "S2", [])]. split.
      { apply listing_last;
          [intros H; vm_compute in H; discriminate|reflexivity|reflexivity]. }
      constructor.
    + exists [(blogposts_url Mock.source "S2", [])]. split.
      { apply listing_last;
          [intros H; vm_compute in H; discriminate|reflexivity|reflexivity]. }
      constructor.
Qed.

Lemma generate_entities_depth_first_witness :
  depth_first_order tree
  = [ESpace s1; EPage p1; EComment c1; EPage p2; EComment c2; EBlog b1; ESpace s2] /\
  exists n, forall fuel, n <= fuel -> forall w, exists t w1,
    run (generate_entities (Mock.served two_containers Some) Mock.source fuel) w t w1
      (Ok tt) /\
    yields t = depth_first_order tree.
Proof.
  split; [reflexivity|].
  apply (generate_entities_depth_first (Mock.served two_containers Some) Mock.source
           two_containers Some tree).
  - apply served_is_mock.
  - apply served_extraction.
  - exact two_containers_upstream.
Defined.

End DepthFirstExample.
